(** * Katib: Hyperband suggestion service and Kubernetes worker interface

    A shallow embedding of
    - [pkg/suggestion/hyperband_service.go] (module [Suggestion]) and
    - [pkg/manager/worker/kubernetes/kubernetes.go] (module [Kubernetes]),
    together with the statements checked against them.

    Go values are embedded as follows.
    - [int] is a 64-bit two's complement integer: a [Z] with the wrap-around
      written out ([wrap64]) wherever the source does arithmetic on it.
    - [string] is a byte string: [String.string].
    - a [nil]-able pointer or slice whose nil-ness the code observes is an
      [option]; a dereference of [None] panics.
    - a function is a computation in [Go]: it threads the list of mutating
      remote calls issued so far and ends in a return, a panic or a process
      exit ([log.Fatalf]).
    - [float64], [math], [strconv]'s float functions, [sort.Sort] and the
      runtime's slice growth are taken through the interface [Platform];
      [Binary64] instantiates it on the kernel's binary64 floats so that the
      embedding runs on concrete inputs. *)

From Stdlib Require Import ZArith String Ascii List Bool Lia Floats.
From stdpp Require Import gmap strings list.

Open Scope string_scope.
Open Scope Z_scope.
Open Scope list_scope.

(** ** The Go runtime fragment used by the two packages *)

Module GoRt.

(** How a call ends. [Exited] is [log.Fatalf]: the process stops. *)
Inductive Outcome (A : Type) : Type :=
| Returned (a : A)
| Panicked (msg : string)
| Exited.
Arguments Returned {A} a.
Arguments Panicked {A} msg.
Arguments Exited {A}.

(** A computation over a threaded state [S] (here: the remote calls issued). *)
Definition Go (S A : Type) : Type := S -> Outcome A * S.

Definition ret {S A} (a : A) : Go S A := fun s => (Returned a, s).

Definition bind {S A B} (m : Go S A) (k : A -> Go S B) : Go S B :=
  fun s =>
    match m s with
    | (Returned a, s') => k a s'
    | (Panicked msg, s') => (Panicked msg, s')
    | (Exited, s') => (Exited, s')
    end.

Definition panic {S A} (msg : string) : Go S A := fun s => (Panicked msg, s).

Definition log_Fatalf {S A} : Go S A := fun s => (Exited, s).

(** Go's [error] values, as far as the two packages tell them apart. *)
Inductive error : Type :=
| RemoteError (msg : string)                 (* returned by a collaborator *)
| fmt_Errorf (msg : string)                  (* fmt.Errorf / errors.New *)
| status_Errorf (code : string) (msg : string) (* grpc status.Errorf *)
| ErrSyntax
| ErrRange.

(** ** int *)

Definition minInt64 : Z := - 2 ^ 63.
Definition maxInt64 : Z := 2 ^ 63 - 1.

Definition wrap64 (z : Z) : Z := (z + 2 ^ 63) mod 2 ^ 64 - 2 ^ 63.

Definition inInt64 (z : Z) : Prop := minInt64 <= z <= maxInt64.

(** ** strconv.Itoa and strconv.Atoi *)

Definition digit_of_Z (d : Z) : ascii := ascii_of_nat (48 + Z.to_nat d).

Fixpoint utoa_aux (fuel : nat) (n : Z) (acc : string) : string :=
  match fuel with
  | O => acc
  | S fuel' =>
      let acc' := String (digit_of_Z (n mod 10)) acc in
      if n <? 10 then acc' else utoa_aux fuel' (n / 10) acc'
  end.

Definition utoa (n : Z) : string := utoa_aux (S (Z.to_nat (Z.log2 n))) n "".

Definition strconv_Itoa (i : Z) : string :=
  if i <? 0 then String "-" (utoa (- i)) else utoa i.

Definition is_digit (c : ascii) : bool :=
  let k := nat_of_ascii c in (48 <=? k)%nat && (k <=? 57)%nat.

Definition Z_of_digit (c : ascii) : Z := Z.of_nat (nat_of_ascii c) - 48.

(** Value of a run of decimal digits, [None] when a byte is not a digit. *)
Fixpoint atou (s : string) (acc : Z) : option Z :=
  match s with
  | EmptyString => Some acc
  | String c s' =>
      if is_digit c then atou s' (acc * 10 + Z_of_digit c) else None
  end.

(** [strconv.Atoi]: an optional sign, then one or more decimal digits; the
    value is clamped to the int range with [ErrRange]; a malformed string
    gives [0] with [ErrSyntax]. *)
Definition strconv_Atoi (s : string) : Z * option error :=
  let '(neg, body) :=
    match s with
    | String c s' =>
        if Ascii.eqb c "-" then (true, s')
        else if Ascii.eqb c "+" then (false, s')
        else (false, s)
    | EmptyString => (false, s)
    end in
  match body with
  | EmptyString => (0, Some ErrSyntax)
  | _ =>
      match atou body 0 with
      | None => (0, Some ErrSyntax)
      | Some u =>
          let v := if neg then - u else u in
          if v <? minInt64 then (minInt64, Some ErrRange)
          else if maxInt64 <? v then (maxInt64, Some ErrRange)
          else (v, None)
      end
  end.

(** ** strings.Split and strings.Join, for a one-byte separator *)

Fixpoint strings_Split (s : string) (sep : ascii) : list string :=
  match s with
  | EmptyString => [""]
  | String c s' =>
      if Ascii.eqb c sep then "" :: strings_Split s' sep
      else
        match strings_Split s' sep with
        | piece :: rest => String c piece :: rest
        | [] => [String c ""]
        end
  end.

Fixpoint strings_Join (elems : list string) (sep : ascii) : string :=
  match elems with
  | [] => ""
  | [e] => e
  | e :: rest => e +:+ String sep (strings_Join rest sep)
  end.

(** ** Slices *)

(** A slice of [A]: the elements up to [len] and the capacity of the backing
    array. The array beyond [len] holds zero values in every slice the two
    packages reslice (they come from [append] on a fresh slice). *)
Record slice (A : Type) : Type := mkSlice { elems : list A; capacity : nat }.
Arguments mkSlice {A} elems capacity.
Arguments elems {A} s.
Arguments capacity {A} s.

(** [s[lo:]] *)
Definition slice_from {A} (s : slice A) (lo : Z) : option (list A) :=
  if (lo <? 0) || (Z.of_nat (length (elems s)) <? lo) then None
  else Some (drop (Z.to_nat lo) (elems s)).

(** [s[:hi]]: may extend into the capacity, exposing zero values. *)
Definition slice_to {A} (zero : A) (s : slice A) (hi : Z) : option (list A) :=
  if (hi <? 0) || (Z.of_nat (Nat.max (capacity s) (length (elems s))) <? hi)
  then None
  else Some (take (Z.to_nat hi) (elems s ++ replicate (Z.to_nat hi - length (elems s)) zero)).

(** [make([]T, n)] *)
Definition make {A} (zero : A) (n : Z) : option (list A) :=
  if n <? 0 then None else Some (replicate (Z.to_nat n) zero).

(** [a[i] = x] *)
Definition store {A} (a : list A) (i : nat) (x : A) : option (list A) :=
  if (i <? length a)%nat then Some (<[i := x]> a) else None.


(** ** Vocabulary for the text forms *)

(** [reads s k v]: [s] is a run of [k] digits worth [v]. *)
Definition reads (s : string) (k : Z) (v : Z) : Prop :=
  0 <= k /\ forall a, atou s a = Some (a * 10 ^ k + v).

Definition starts_digit (s : string) : Prop :=
  match s with
  | String c _ => is_digit c = true
  | EmptyString => False
  end.

(** [s] has no byte [sep]. *)
Fixpoint free_of (sep : ascii) (s : string) : bool :=
  match s with
  | EmptyString => true
  | String c s' => negb (Ascii.eqb c sep) && free_of sep s'
  end.

Declare Scope go_scope.
Delimit Scope go_scope with go.
Notation "x <- m ;; k" := (bind m (fun x => k))
  (at level 100, m at next level, right associativity) : go_scope.

End GoRt.

Import GoRt.
Open Scope go_scope.

(** ** What the packages take from the Go platform

    [float64] with the operators the source applies to it, the [math] and
    [strconv] functions it calls on floats, [sort.Sort], and the capacity the
    runtime gives a slice grown by [append]. *)

Class Platform : Type := {
  float64 : Type;
  float64_of_int : Z -> float64;          (* float64(i), and integer literals *)
  int_of_float64 : float64 -> Z;          (* int(f) *)
  fadd : float64 -> float64 -> float64;
  fmul : float64 -> float64 -> float64;
  fdiv : float64 -> float64 -> float64;
  fle : float64 -> float64 -> bool;       (* <= *)
  fgt : float64 -> float64 -> bool;       (* > *)
  feq : float64 -> float64 -> bool;       (* == *)
  math_Trunc : float64 -> float64;
  math_Ceil : float64 -> float64;
  math_Log : float64 -> float64;
  math_Pow : float64 -> float64 -> float64;
  (* strconv.ParseFloat(s, 64): the value is returned beside the error *)
  strconv_ParseFloat : string -> float64 * option error;
  (* strconv.FormatFloat(f, 'f', 4, 64) *)
  strconv_FormatFloat_f4 : float64 -> string;
  (* sort.Sort on a slice whose Less is given *)
  sort_Sort : forall A : Type, (A -> A -> bool) -> list A -> list A;
  (* capacity of a slice after [n] appends to an empty one *)
  append_capacity : nat -> nat;
}.

(** ** The messages of [pkg/api] that the two packages read and build *)

Module api.

Inductive ParameterType : Type :=
| ParameterType_UNKNOWN_TYPE
| ParameterType_DOUBLE
| ParameterType_INT
| ParameterType_DISCRETE
| ParameterType_CATEGORICAL.

Inductive OptimizationType : Type :=
| OptimizationType_UNKNOWN_OPTIMIZATION
| OptimizationType_MINIMIZE
| OptimizationType_MAXIMIZE.

Inductive State : Type :=
| State_PENDING
| State_RUNNING
| State_COMPLETED
| State_KILLED
| State_ERROR.

#[global] Instance ParameterType_eq_dec : EqDecision ParameterType.
Proof. solve_decision. Defined.
#[global] Instance OptimizationType_eq_dec : EqDecision OptimizationType.
Proof. solve_decision. Defined.
#[global] Instance State_eq_dec : EqDecision State.
Proof. solve_decision. Defined.

(** [api.Parameter] ([Parameter] is a reserved word here). *)
Record Parameter_ : Type := mkParameter {
  Name : string;
  ParameterType_ : ParameterType;
  Value : string;
}.

Record FeasibleSpace : Type := mkFeasibleSpace {
  Max : string;
  Min : string;
  List_ : list string;
}.

Record ParameterConfig : Type := mkParameterConfig {
  pcName : string;
  pcParameterType : ParameterType;
  Feasible : option FeasibleSpace;
}.

Record StudyConfig : Type := mkStudyConfig {
  OptimizationType_ : OptimizationType;
  ParameterConfigs : option (list ParameterConfig);   (* .ParameterConfigs.Configs *)
  ObjectiveValueName : string;
}.

Record Trial : Type := mkTrial {
  TrialId : string;
  StudyId : string;
  ParameterSet : list Parameter_;
}.

Record Worker : Type := mkWorker {
  WorkerId : string;
  wStudyId : string;
  wTrialId : string;
  Status : State;
}.

Record MetricsLog : Type := mkMetricsLog {
  mlName : string;
  Values : list string;
}.

Record MetricsLogSet : Type := mkMetricsLogSet {
  mlsWorkerId : string;
  MetricsLogs : list MetricsLog;
  WorkerStatus : State;
}.

Record SuggestionParameter : Type := mkSuggestionParameter {
  spName : string;
  spValue : string;
}.

Record GetStudyRequest : Type := { gsStudyId : string }.
Record GetStudyReply : Type := { StudyConfig_ : option StudyConfig }.
Record GetTrialsRequest : Type := { gtStudyId : string }.
Record GetTrialsReply : Type := { Trials : list Trial }.
Record CreateTrialRequest : Type := { ctTrial : Trial }.
Record CreateTrialReply : Type := { ctTrialId : string }.
Record GetWorkersRequest : Type := { gwStudyId : string; gwTrialId : string }.
Record GetWorkersReply : Type := { Workers : list Worker }.
Record GetMetricsRequest : Type := {
  gmStudyId : string;
  WorkerIds : list string;
  MetricsNames : list string;
}.
Record GetMetricsReply : Type := { MetricsLogSets : list MetricsLogSet }.
Record GetSuggestionParametersRequest : Type := { gspParamId : string }.
Record GetSuggestionParametersReply : Type := {
  gspSuggestionParameters : list SuggestionParameter;
}.
Record SetSuggestionParametersRequest : Type := {
  sspStudyId : string;
  SuggestionAlgorithm : string;
  sspParamId : string;
  SuggestionParameters : list SuggestionParameter;
}.
Record GetSuggestionsRequest : Type := {
  inStudyId : string;
  inSuggestionAlgorithm : string;
  inParamId : string;
}.
(** [Trials] of the reply is a slice of trial pointers: a slot may hold nil. *)
Record GetSuggestionsReply : Type := { replyTrials : list (option Trial) }.

(** The generated getter: [GetTrialId] on a nil trial is the empty string. *)
Definition GetTrialId (t : option Trial) : string :=
  match t with
  | Some t => TrialId t
  | None => ""
  end.

(** A remote call's two results [(reply, err)]. *)
Inductive rpc (X : Type) : Type :=
| Reply (x : X)
| Failed (e : error).
Arguments Reply {X} x.
Arguments Failed {X} e.

(** The calls of [ManagerClient] that change the Manager. *)
Inductive Call : Type :=
| CallCreateTrial (req : CreateTrialRequest)
| CallSetSuggestionParameters (req : SetSuggestionParametersRequest).

(** [api.ManagerClient], as far as [hyperband_service.go] calls it. Every
    answer may depend on the mutating calls the Manager has received so far. *)
Record ManagerClient : Type := {
  GetStudy : list Call -> GetStudyRequest -> rpc GetStudyReply;
  GetTrials : list Call -> GetTrialsRequest -> rpc GetTrialsReply;
  GetWorkers : list Call -> GetWorkersRequest -> rpc GetWorkersReply;
  GetMetrics : list Call -> GetMetricsRequest -> rpc GetMetricsReply;
  GetSuggestionParameters :
    list Call -> GetSuggestionParametersRequest -> rpc GetSuggestionParametersReply;
  CreateTrial : list Call -> CreateTrialRequest -> rpc CreateTrialReply;
  SetSuggestionParameters : list Call -> SetSuggestionParametersRequest -> rpc unit;
}.

End api.

(** ** pkg/suggestion/hyperband_service.go *)

Module Suggestion.
Import api.

(** The structs that hold floats, over the float type [F]; the package's
    own types are their instances at [float64]. *)

Record EvalsOf (F : Type) : Type := mkEvals { id : string; value : F }.
Arguments mkEvals {F} id value.
Arguments id {F} e.
Arguments value {F} e.

Record HyperBandParametersOf (F : Type) : Type := mkHyperBandParameters {
  eta : F;
  sMax : Z;
  b_l : F;
  r_l : F;
  r : F;
  n : Z;
  shloopitr : Z;
  currentS : Z;
  ResourceName : string;
  ObjectiveValueName : string;
  evaluatingTrials : list string;
}.
Arguments mkHyperBandParameters {F}.
Arguments eta {F} h.
Arguments sMax {F} h.
Arguments b_l {F} h.
Arguments r_l {F} h.
Arguments r {F} h.
Arguments n {F} h.
Arguments shloopitr {F} h.
Arguments currentS {F} h.
Arguments ResourceName {F} h.
Arguments ObjectiveValueName {F} h.
Arguments evaluatingTrials {F} h.

Definition set_eta {F} v (p : HyperBandParametersOf F) := mkHyperBandParameters v (sMax p) (b_l p) (r_l p) (r p) (n p) (shloopitr p) (currentS p) (ResourceName p) (ObjectiveValueName p) (evaluatingTrials p).
Definition set_sMax {F} v (p : HyperBandParametersOf F) := mkHyperBandParameters (eta p) v (b_l p) (r_l p) (r p) (n p) (shloopitr p) (currentS p) (ResourceName p) (ObjectiveValueName p) (evaluatingTrials p).
Definition set_b_l {F} v (p : HyperBandParametersOf F) := mkHyperBandParameters (eta p) (sMax p) v (r_l p) (r p) (n p) (shloopitr p) (currentS p) (ResourceName p) (ObjectiveValueName p) (evaluatingTrials p).
Definition set_r_l {F} v (p : HyperBandParametersOf F) := mkHyperBandParameters (eta p) (sMax p) (b_l p) v (r p) (n p) (shloopitr p) (currentS p) (ResourceName p) (ObjectiveValueName p) (evaluatingTrials p).
Definition set_r {F} v (p : HyperBandParametersOf F) := mkHyperBandParameters (eta p) (sMax p) (b_l p) (r_l p) v (n p) (shloopitr p) (currentS p) (ResourceName p) (ObjectiveValueName p) (evaluatingTrials p).
Definition set_n {F} v (p : HyperBandParametersOf F) := mkHyperBandParameters (eta p) (sMax p) (b_l p) (r_l p) (r p) v (shloopitr p) (currentS p) (ResourceName p) (ObjectiveValueName p) (evaluatingTrials p).
Definition set_shloopitr {F} v (p : HyperBandParametersOf F) := mkHyperBandParameters (eta p) (sMax p) (b_l p) (r_l p) (r p) (n p) v (currentS p) (ResourceName p) (ObjectiveValueName p) (evaluatingTrials p).
Definition set_currentS {F} v (p : HyperBandParametersOf F) := mkHyperBandParameters (eta p) (sMax p) (b_l p) (r_l p) (r p) (n p) (shloopitr p) v (ResourceName p) (ObjectiveValueName p) (evaluatingTrials p).
Definition set_ResourceName {F} v (p : HyperBandParametersOf F) := mkHyperBandParameters (eta p) (sMax p) (b_l p) (r_l p) (r p) (n p) (shloopitr p) (currentS p) v (ObjectiveValueName p) (evaluatingTrials p).
Definition set_ObjectiveValueName {F} v (p : HyperBandParametersOf F) := mkHyperBandParameters (eta p) (sMax p) (b_l p) (r_l p) (r p) (n p) (shloopitr p) (currentS p) (ResourceName p) v (evaluatingTrials p).
Definition set_evaluatingTrials {F} v (p : HyperBandParametersOf F) := mkHyperBandParameters (eta p) (sMax p) (b_l p) (r_l p) (r p) (n p) (shloopitr p) (currentS p) (ResourceName p) (ObjectiveValueName p) v.

(** The embedded [RandomSuggestService]: its two samplers, whose bodies are
    in another file of the package. The [k]-th draw of a call is a function of
    [k] and the bounds; [None] stands for a panic inside the sampler. *)
Record RandomSuggestServiceOf (F : Type) : Type := {
  IntRandom : nat -> Z -> Z -> option Z;
  DoubelRandom : nat -> F -> F -> option F;
}.
Arguments IntRandom {F} r.
Arguments DoubelRandom {F} r.

Section HyperBand.
Context `{Platform}.

Definition Evals : Type := EvalsOf float64.

(** [Bracket] is [[]Evals]; [Less] orders it by descending value. *)
Definition Bracket : Type := slice Evals.

Definition Less (a b : Evals) : bool := fgt (value a) (value b).

Definition zeroEvals : Evals := {| id := ""; value := float64_of_int 0 |}.

Definition HyperBandParameters : Type := HyperBandParametersOf float64.

Definition RandomSuggestService : Type := RandomSuggestServiceOf float64.

(** What a call threads: the mutating requests sent to the Manager, in the
    order sent, and the number of random draws made. *)
Record Sent : Type := mkSent { calls : list Call; draws : nat }.

Definition M (A : Type) : Type := Go Sent A.

(** A call that only reads the Manager. *)
Definition ask {Q X} (f : list Call -> Q -> rpc X) (req : Q) : M (rpc X) :=
  fun s => (Returned (f (calls s) req), s).

Definition do_CreateTrial (c : ManagerClient) (req : CreateTrialRequest)
  : M (rpc CreateTrialReply) :=
  fun s => (Returned (CreateTrial c (calls s) req),
            mkSent (calls s ++ [CallCreateTrial req]) (draws s)).

Definition do_SetSuggestionParameters (c : ManagerClient)
    (req : SetSuggestionParametersRequest) : M (rpc unit) :=
  fun s => (Returned (SetSuggestionParameters c (calls s) req),
            mkSent (calls s ++ [CallSetSuggestionParameters req]) (draws s)).

Definition draw {A} (sample : nat -> option A) : M A :=
  fun s =>
    match sample (draws s) with
    | Some v => (Returned v, mkSent (calls s) (S (draws s)))
    | None => (Panicked "random sampler", mkSent (calls s) (S (draws s)))
    end.

(** Dereference of a pointer field. *)
Definition deref {A} (p : option A) : M A :=
  match p with
  | Some a => ret a
  | None => panic "invalid memory address or nil pointer dereference"
  end.

(** What the three bracket makers return: [(tids, ts, err)]; a nil [tids] is
    [None], a nil [ts] the empty list. *)
Definition BracketResult : Type :=
  (option (list string) * list (option Trial) * option error)%type.

(** The value written for the resource parameter. *)
Definition resourceValue (rtype : ParameterType) (r : float64) : string :=
  if decide (rtype = ParameterType_INT) then strconv_Itoa (int_of_float64 r)
  else strconv_FormatFloat_f4 r.

(** Body of the loop over [sconf.ParameterConfigs.Configs] in
    [makeMasterBracket]: the parameter built for one config. *)
Definition masterParameter (h : RandomSuggestService) (r : float64)
    (hbparam : HyperBandParameters) (pc : ParameterConfig) : M Parameter_ :=
  let mk v := mkParameter (pcName pc) (pcParameterType pc) v in
  if String.eqb (pcName pc) (ResourceName hbparam) then
    ret (mk (resourceValue (pcParameterType pc) r))
  else
    match pcParameterType pc with
    | ParameterType_INT =>
        f <- deref (Feasible pc) ;;
        let imin := fst (strconv_Atoi (Min f)) in
        let imax := fst (strconv_Atoi (Max f)) in
        v <- draw (fun k => IntRandom h k imin imax) ;;
        ret (mk (strconv_Itoa v))
    | ParameterType_DOUBLE =>
        f <- deref (Feasible pc) ;;
        let dmin := fst (strconv_ParseFloat (Min f)) in
        let dmax := fst (strconv_ParseFloat (Max f)) in
        v <- draw (fun k => DoubelRandom h k dmin dmax) ;;
        ret (mk (strconv_FormatFloat_f4 v))
    | ParameterType_CATEGORICAL =>
        f <- deref (Feasible pc) ;;
        k <- draw (fun k => IntRandom h k 0 (Z.of_nat (length (List_ f)) - 1)) ;;
        if k <? 0 then panic "index out of range"
        else
          match List_ f !! Z.to_nat k with
          | Some v => ret (mk v)
          | None => panic "index out of range"
          end
    | _ => ret (mk "")
    end.

Fixpoint masterParameterSet (h : RandomSuggestService) (r : float64)
    (hbparam : HyperBandParameters) (pcs : list ParameterConfig)
  : M (list Parameter_) :=
  match pcs with
  | [] => ret []
  | pc :: rest =>
      p <- masterParameter h r hbparam pc ;;
      ps <- masterParameterSet h r hbparam rest ;;
      ret (p :: ps)
  end.

(** The loop [for i := 0; i < n; i++] of [makeMasterBracket], from index [i]
    with [todo] rounds left. *)
Fixpoint masterLoop (h : RandomSuggestService) (c : ManagerClient)
    (studyId : string) (r : float64) (hbparam : HyperBandParameters)
    (sconf : option StudyConfig) (todo : nat) (i : nat)
    (tids : list string) (ts : list (option Trial)) : M BracketResult :=
  match todo with
  | O => ret (Some tids, ts, None)
  | S todo' =>
      sc <- deref sconf ;;
      pcs <- deref (ParameterConfigs sc) ;;
      ps <- masterParameterSet h r hbparam pcs ;;
      let t := mkTrial "" studyId ps in
      ret_ <- do_CreateTrial c {| ctTrial := t |} ;;
      match ret_ with
      | Failed err => ret (None, [], Some err)
      | Reply rep =>
          let t' := mkTrial (ctTrialId rep) studyId ps in
          masterLoop h c studyId r hbparam sconf todo' (S i)
            (<[i := ctTrialId rep]> tids) (<[i := Some t']> ts)
      end
  end.

Definition makeMasterBracket (h : RandomSuggestService) (c : ManagerClient)
    (studyId : string) (n : Z) (r : float64) (hbparam : HyperBandParameters)
  : M BracketResult :=
  gsrep <- ask (GetStudy c) {| gsStudyId := studyId |} ;;
  match gsrep with
  | Failed err => ret (None, [], Some err)
  | Reply gsrep =>
      let sconf := StudyConfig_ gsrep in
      match make "" n, make (@None Trial) n with
      | Some tids, Some ts =>
          masterLoop h c studyId r hbparam sconf (Z.to_nat n) 0 tids ts
      | _, _ => panic "makeslice: len out of range"
      end
  end.

(** The loop [for _, pt := range gtrep.Trials] of [makeChildBracket]: the
    index of the last trial whose id is [tid], that is the trial whose
    [ParameterSet] slice the new trial ends up sharing. *)
Fixpoint findParent (tid : string) (trials : list Trial) (i : nat) (found : option nat)
  : option nat :=
  match trials with
  | [] => found
  | pt :: rest =>
      findParent tid rest (S i)
        (if String.eqb (TrialId pt) tid then Some i else found)
  end.

(** The loop [for i, p := range t.ParameterSet]: the resource parameter's
    value is overwritten in place. *)
Definition rewriteResource (rtype : ParameterType) (r_i : float64)
    (hbparam : HyperBandParameters) (ps : list Parameter_) : list Parameter_ :=
  map (fun p =>
         if String.eqb (Name p) (ResourceName hbparam)
         then mkParameter (Name p) (ParameterType_ p) (resourceValue rtype r_i)
         else p) ps.

(** The loop [for _, pc := range sconf.ParameterConfigs.Configs]: the type of
    the last config named like the resource, the zero value if there is none. *)
Definition resourceType (hbparam : HyperBandParameters) (pcs : list ParameterConfig)
  : ParameterType :=
  fold_left (fun rtype pc =>
               if String.eqb (pcName pc) (ResourceName hbparam)
               then pcParameterType pc else rtype)
            pcs ParameterType_UNKNOWN_TYPE.

(** The loop [for i, tid := range child]. [trials] is [gtrep.Trials]: the new
    trial shares its parent's [ParameterSet], so the overwrite of the resource
    value is seen in [trials] by the rounds that follow. *)
Fixpoint childLoop (c : ManagerClient) (studyId : string)
    (rtype : ParameterType) (r_i : float64) (hbparam : HyperBandParameters)
    (child : list Evals) (i : nat) (trials : list Trial)
    (tids : list string) (ts : list (option Trial)) : M BracketResult :=
  match child with
  | [] => ret (Some tids, ts, None)
  | tid :: rest =>
      let parent := findParent (id tid) trials 0 None in
      let ps :=
        match parent with
        | Some k =>
            match trials !! k with
            | Some pt => rewriteResource rtype r_i hbparam (ParameterSet pt)
            | None => []
            end
        | None => []
        end in
      let trials' :=
        match parent with
        | Some k =>
            match trials !! k with
            | Some pt => <[k := mkTrial (TrialId pt) (StudyId pt) ps]> trials
            | None => trials
            end
        | None => trials
        end in
      let t := mkTrial "" studyId ps in
      ret_ <- do_CreateTrial c {| ctTrial := t |} ;;
      match ret_ with
      | Failed err => ret (None, [], Some err)
      | Reply rep =>
          match store tids i (ctTrialId rep) with
          | None => panic "index out of range"
          | Some tids' =>
              let t' := mkTrial (ctTrialId rep) studyId ps in
              match store ts i (Some t') with
              | None => panic "index out of range"
              | Some ts' =>
                  childLoop c studyId rtype r_i hbparam rest (S i) trials' tids' ts'
              end
          end
      end
  end.

(** The survivors: [child := Bracket{}], then [parent[n:]] when minimizing
    and [parent[:n]] when maximizing; [None] when the slice expression
    panics. *)
Definition selectChild (optimizationType : OptimizationType) (parent : Bracket) (n : Z)
  : option (list Evals) :=
  if decide (optimizationType = OptimizationType_MINIMIZE) then slice_from parent n
  else if decide (optimizationType = OptimizationType_MAXIMIZE) then
    slice_to zeroEvals parent n
  else Some [].

Definition makeChildBracket (c : ManagerClient) (parent : Bracket)
    (studyId : string) (n : Z) (r_i : float64) (hbparam : HyperBandParameters)
  : M BracketResult :=
  gsrep <- ask (GetStudy c) {| gsStudyId := studyId |} ;;
  match gsrep with
  | Failed err => ret (None, [], Some err)
  | Reply gsrep =>
      sconf <- deref (StudyConfig_ gsrep) ;;
      child <-
        match selectChild (OptimizationType_ sconf) parent n with
        | Some child => ret child
        | None => panic "slice bounds out of range"
        end ;;
      gtrep <- ask (GetTrials c) {| gtStudyId := studyId |} ;;
      match gtrep with
      | Failed err => ret (None, [], Some err)
      | Reply gtrep =>
          match make "" n, make (@None Trial) n with
          | Some tids, Some ts =>
              pcs <- deref (ParameterConfigs sconf) ;;
              let rtype := resourceType hbparam pcs in
              childLoop c studyId rtype r_i hbparam child 0 (Trials gtrep) tids ts
          | _, _ => panic "makeslice: len out of range"
          end
      end
  end.

(** [strings.Split(sp.Value, ",")] and [strings.Join(..., ",")] *)
Definition comma : ascii := ","%char.

(** The [switch sp.Name] of [purseSuggestionParameters]. *)
Definition purseOne (p : HyperBandParameters) (sp : SuggestionParameter)
  : HyperBandParameters :=
  let name := spName sp in
  let v := spValue sp in
  if String.eqb name "eta" then set_eta (fst (strconv_ParseFloat v)) p
  else if String.eqb name "r_l" then set_r_l (fst (strconv_ParseFloat v)) p
  else if String.eqb name "ResourceName" then set_ResourceName v p
  else if String.eqb name "ObjectiveValueName" then set_ObjectiveValueName v p
  else if String.eqb name "b_l" then set_b_l (fst (strconv_ParseFloat v)) p
  else if String.eqb name "sMax" then set_sMax (fst (strconv_Atoi v)) p
  else if String.eqb name "r" then set_r (fst (strconv_ParseFloat v)) p
  else if String.eqb name "n" then set_n (fst (strconv_Atoi v)) p
  else if String.eqb name "shloopitr" then set_shloopitr (fst (strconv_Atoi v)) p
  else if String.eqb name "currentS" then set_currentS (fst (strconv_Atoi v)) p
  else if String.eqb name "evaluatingTrials" then
    set_evaluatingTrials (strings_Split v comma) p
  else p.

Definition unsetParameters : HyperBandParameters :=
  {| eta := float64_of_int (-1);
     sMax := -1;
     b_l := float64_of_int (-1);
     r_l := float64_of_int (-1);
     r := float64_of_int (-1);
     n := -1;
     shloopitr := -1;
     currentS := -1;
     ResourceName := "";
     ObjectiveValueName := "";
     evaluatingTrials := [] |}.

(** The defaults derived after the objective name is known: one function
    for each [if] of the source, applied in its order. *)
Definition default_sMax (p : HyperBandParameters) : HyperBandParameters :=
  if sMax p =? -1
  then set_sMax (int_of_float64 (math_Trunc (fdiv (math_Log (r_l p)) (math_Log (eta p))))) p
  else p.

Definition default_b_l (p : HyperBandParameters) : HyperBandParameters :=
  if feq (b_l p) (float64_of_int (-1))
  then set_b_l (fmul (float64_of_int (wrap64 (sMax p + 1))) (r_l p)) p
  else p.

Definition default_n (p : HyperBandParameters) : HyperBandParameters :=
  if n p =? -1
  then set_n (int_of_float64 (math_Ceil
         (fmul (fdiv (b_l p) (r_l p))
               (fdiv (math_Pow (eta p) (float64_of_int (sMax p)))
                     (float64_of_int (wrap64 (sMax p + 1))))))) p
  else p.

Definition default_currentS (p : HyperBandParameters) : HyperBandParameters :=
  if currentS p =? -1 then set_currentS (sMax p) p else p.

Definition default_shloopitr (p : HyperBandParameters) : HyperBandParameters :=
  if shloopitr p =? -1 then set_shloopitr 0 p else p.

Definition default_r (p : HyperBandParameters) : HyperBandParameters :=
  if feq (r p) (float64_of_int (-1))
  then set_r (fmul (r_l p) (math_Pow (eta p) (float64_of_int (wrap64 (- sMax p))))) p
  else p.

Definition deriveDefaults (p : HyperBandParameters) : HyperBandParameters :=
  default_r (default_shloopitr (default_currentS (default_n (default_b_l (default_sMax p))))).

(** [purseSuggestionParameters] after its loop over [sparam]: the two
    required fields are checked and the unset ones derived. *)
Definition completeParameters (c : ManagerClient) (studyId : string)
    (p : HyperBandParameters)
  : M (option HyperBandParameters * option error) :=
  if fle (r_l p) (float64_of_int 0) || String.eqb (ResourceName p) "" then
    ret (None, Some (fmt_Errorf "Suggestion Parameter set Error"))
  else
    let p := if fle (eta p) (float64_of_int 0) then set_eta (float64_of_int 3) p else p in
    if String.eqb (ObjectiveValueName p) "" then
      gsrep <- ask (GetStudy c) {| gsStudyId := studyId |} ;;
      match gsrep with
      | Failed err => ret (None, Some err)
      | Reply gsrep =>
          sconf <- deref (StudyConfig_ gsrep) ;;
          ret (Some (deriveDefaults (set_ObjectiveValueName (api.ObjectiveValueName sconf) p)), None)
      end
    else ret (Some (deriveDefaults p), None).

Definition purseSuggestionParameters (c : ManagerClient) (studyId : string)
    (sparam : list SuggestionParameter)
  : M (option HyperBandParameters * option error) :=
  completeParameters c studyId (fold_left purseOne sparam unsetParameters).

(** The parameter list built by [saveSuggestionParameters]. *)
Definition encodeParameters (hbparam : HyperBandParameters) : list SuggestionParameter :=
  [ mkSuggestionParameter "eta" (strconv_FormatFloat_f4 (eta hbparam));
    mkSuggestionParameter "sMax" (strconv_Itoa (sMax hbparam));
    mkSuggestionParameter "b_l" (strconv_FormatFloat_f4 (b_l hbparam));
    mkSuggestionParameter "r_l" (strconv_FormatFloat_f4 (r_l hbparam));
    mkSuggestionParameter "r" (strconv_FormatFloat_f4 (r hbparam));
    mkSuggestionParameter "shloopitr" (strconv_Itoa (shloopitr hbparam));
    mkSuggestionParameter "n" (strconv_Itoa (n hbparam));
    mkSuggestionParameter "currentS" (strconv_Itoa (currentS hbparam));
    mkSuggestionParameter "ResourceName" (ResourceName hbparam);
    mkSuggestionParameter "evaluatingTrials"
      (strings_Join (evaluatingTrials hbparam) comma) ].

Definition saveSuggestionParameters (c : ManagerClient) (studyId algorithm paramId : string)
    (hbparam : HyperBandParameters) : M (option error) :=
  let req := {| sspStudyId := studyId;
                SuggestionAlgorithm := algorithm;
                sspParamId := paramId;
                SuggestionParameters := encodeParameters hbparam |} in
  rep <- do_SetSuggestionParameters c req ;;
  match rep with
  | Failed err => ret (Some err)
  | Reply _ => ret None
  end.

(** The loop [for _, ml := range gmrep.MetricsLogSets] of [evalWorkers]:
    [None] is the early [return nil, nil]. *)
Fixpoint sumLastValues (sets : list MetricsLogSet) (vs : float64) : M (option float64) :=
  match sets with
  | [] => ret (Some vs)
  | ml :: rest =>
      if decide (WorkerStatus ml = State_COMPLETED) then
        match MetricsLogs ml with
        | [] => panic "index out of range [0] with length 0"
        | ml0 :: _ =>
            match last (Values ml0) with
            | None => panic "index out of range [-1]"
            | Some s => sumLastValues rest (fadd vs (fst (strconv_ParseFloat s)))
            end
        end
      else ret None
  end.

(** The loop [for _, tid := range hbparam.evaluatingTrials]: the error and
    the bracket collected, [None] for the nil bracket. *)
Fixpoint evalLoop (c : ManagerClient) (studyId : string) (hbparam : HyperBandParameters)
    (tids : list string) (bracket : list Evals)
  : M (option error * option (list Evals)) :=
  match tids with
  | [] => ret (None, Some bracket)
  | tid :: rest =>
      gwrep <- ask (GetWorkers c) {| gwStudyId := studyId; gwTrialId := tid |} ;;
      match gwrep with
      | Failed err => ret (Some err, None)
      | Reply gwrep =>
          let wl := map WorkerId (Workers gwrep) in
          gmrep <- ask (GetMetrics c)
                     {| gmStudyId := studyId;
                        WorkerIds := wl;
                        MetricsNames := [ObjectiveValueName hbparam] |} ;;
          match gmrep with
          | Failed err => ret (Some err, None)
          | Reply gmrep =>
              vs <- sumLastValues (MetricsLogSets gmrep) (float64_of_int 0) ;;
              match vs with
              | None => ret (None, None)
              | Some vs =>
                  match Workers gwrep with
                  | w0 :: _ =>
                      evalLoop c studyId hbparam rest
                        (bracket ++
                         [ {| id := wTrialId w0;
                              value := fdiv vs (float64_of_int
                                         (Z.of_nat (length (Workers gwrep)))) |} ])
                  | [] => ret (None, None)
                  end
              end
          end
      end
  end.

Definition evalWorkers (c : ManagerClient) (studyId : string) (hbparam : HyperBandParameters)
  : M (option error * option Bracket) :=
  res <- evalLoop c studyId hbparam (evaluatingTrials hbparam) [] ;;
  match res with
  | (err, None) => ret (err, None)
  | (_, Some bracket) =>
      ret (None, Some (mkSlice (sort_Sort Evals Less bracket)
                               (append_capacity (length bracket))))
  end.

Definition makeBracket (h : RandomSuggestService) (c : ManagerClient)
    (studyId : string) (n : Z) (r : float64) (hbparam : HyperBandParameters)
  : M BracketResult :=
  if (length (evaluatingTrials hbparam) =? 0)%nat || (shloopitr hbparam =? 0) then
    makeMasterBracket h c studyId n r hbparam
  else
    eb <- evalWorkers c studyId hbparam ;;
    match eb with
    | (Some err, _) => ret (None, [], Some err)
    | (None, None) => ret (None, [], None)
    | (None, Some b) => makeChildBracket c b studyId n r hbparam
    end.

Definition hbLoopParamUpdate (hbparam : HyperBandParameters) : HyperBandParameters :=
  let p := set_shloopitr 0 hbparam in
  let p := set_n (int_of_float64 (math_Trunc
              (fmul (fdiv (b_l p) (r_l p))
                    (fdiv (math_Pow (eta p) (float64_of_int (currentS p)))
                          (float64_of_int (wrap64 (currentS p + 1))))))) p in
  set_r (fmul (r_l p) (math_Pow (eta p) (float64_of_int (wrap64 (- currentS p))))) p.

Definition getLoopParam (hbparam : HyperBandParameters) : Z * float64 :=
  let n_i := int_of_float64 (math_Trunc
               (fmul (float64_of_int (n hbparam))
                     (math_Pow (eta hbparam) (float64_of_int (wrap64 (- shloopitr hbparam)))))) in
  let r_i := fmul (r hbparam) (math_Pow (eta hbparam) (float64_of_int (shloopitr hbparam))) in
  (n_i, r_i).

Definition shLoopParamUpdate (hbparam : HyperBandParameters) : HyperBandParameters :=
  let p := set_shloopitr (wrap64 (shloopitr hbparam + 1)) hbparam in
  if currentS p <? shloopitr p then set_currentS (wrap64 (currentS p - 1)) p else p.

Definition emptyReply : GetSuggestionsReply := {| replyTrials := [] |}.

Definition FailedPrecondition : error :=
  status_Errorf "FailedPrecondition" "Previous workers are not completed.".

(** [dial] is the result of [grpc.Dial(manager, ...)]: the client or an error. *)
Definition GetSuggestions (h : RandomSuggestService) (dial : rpc ManagerClient)
    (in_ : GetSuggestionsRequest) : M (GetSuggestionsReply * option error) :=
  match dial with
  | Failed _ => log_Fatalf
  | Reply c =>
      spr <- ask (GetSuggestionParameters c) {| gspParamId := inParamId in_ |} ;;
      match spr with
      | Failed _ => log_Fatalf
      | Reply spr =>
          pe <- purseSuggestionParameters c (inStudyId in_) (gspSuggestionParameters spr) ;;
          match pe with
          | (_, Some err) => ret (emptyReply, Some err)
          | (None, None) => panic "invalid memory address or nil pointer dereference"
          | (Some hbparam, None) =>
              if currentS hbparam <=? 0 then ret (emptyReply, None)
              else
                let hbparam :=
                  if currentS hbparam <? shloopitr hbparam
                  then hbLoopParamUpdate hbparam else hbparam in
                let '(n_i, r_i) := getLoopParam hbparam in
                res <- makeBracket h c (inStudyId in_) n_i r_i hbparam ;;
                match res with
                | (_, _, Some err) => ret (emptyReply, Some err)
                | (None, _, None) => ret (emptyReply, Some FailedPrecondition)
                | (Some tids, ts, None) =>
                    let hbparam := set_evaluatingTrials tids hbparam in
                    let hbparam := shLoopParamUpdate hbparam in
                    _ <- saveSuggestionParameters c (inStudyId in_)
                           (inSuggestionAlgorithm in_) (inParamId in_) hbparam ;;
                    ret ({| replyTrials := ts |}, None)
                end
          end
      end
  end.

End HyperBand.
End Suggestion.

(** ** pkg/manager/worker/kubernetes/kubernetes.go *)

Module Kubernetes.
Import api.

(** [resource.Quantity] and [resource.ParseQuantity] of apimachinery. *)
Class Resource : Type := {
  Quantity : Type;
  ParseQuantity : string -> Quantity + error;
}.

Section Worker.
Context `{Resource}.

Definition kubeNamespace : string := "katib".

Record MountConf : Type := { Pvc : string; Path : string }.

Record Toleration : Type := mkToleration {
  Key : string;
  Operator : string;
  tValue : string;
  Effect : string;
}.

Record WorkerConfig : Type := mkWorkerConfig {
  Image : string;
  Command : list string;
  Gpu : Z;
  Scheduler : string;
  Mount : option MountConf;
  PullSecret : string;
  Cpu : Z;
  Memory : string;
  Labels : gmap string string;
  Annotations : gmap string string;
  Tolerations : list (option Toleration);   (* []*Toleration: an element may be nil *)
}.

Record Volume : Type := { vName : string; ClaimName : string }.
Record VolumeMount : Type := { vmName : string; MountPath : string }.

Record Container : Type := mkContainer {
  cImage : string;
  cName : string;
  cCommand : list string;
  ImagePullPolicy : string;
  VolumeMounts : list VolumeMount;
  Limits : gmap string Quantity;        (* Resources.Limits *)
}.

Record PodSpec : Type := mkPodSpec {
  SchedulerName : string;
  Containers : list Container;
  RestartPolicy : string;
  ImagePullSecrets : list string;
  psTolerations : list Toleration;
  Volumes : list Volume;
}.

Record Job : Type := mkJob {
  Kind : string;
  jName : string;
  jLabels : gmap string string;          (* ObjectMeta.Labels *)
  tLabels : gmap string string;          (* Spec.Template.ObjectMeta.Labels *)
  tAnnotations : gmap string string;     (* Spec.Template.ObjectMeta.Annotations *)
  Spec : PodSpec;                        (* Spec.Template.Spec *)
}.

(** The loop [for i := 0; i<len(conf.Tolerations); i++]: every element is
    dereferenced unchecked; [None] is the panic on a nil one. *)
Fixpoint copyTolerations (ts : list (option Toleration)) : option (list Toleration) :=
  match ts with
  | [] => Some []
  | Some t :: rest =>
      match copyTolerations rest with
      | Some l => Some (mkToleration (Key t) (Operator t) (tValue t) (Effect t) :: l)
      | None => None
      end
  | None :: _ => None
  end.

(** Generate Job Template. [conf] is a pointer, dereferenced unchecked when
    the template is built. *)
Definition genJobManifest (wid : string) (conf : option WorkerConfig)
  : Outcome (option Job * option error) :=
  match conf with
  | None => Panicked "invalid memory address or nil pointer dereference"
  | Some conf =>
  let container :=
    {| cImage := Image conf; cName := wid; cCommand := Command conf;
       ImagePullPolicy := "Always"; VolumeMounts := []; Limits := ∅ |} in
  (* Katib labels, then the custom ones over them *)
  let labels : gmap string string :=
    {[ "katib-version" := "alpha-0.2.0"; "worker-id" := wid ]} in
  let labels :=
    if (size (Labels conf) =? 0)%nat then labels
    else Labels conf ∪ labels in   (* labels[k] = v for every custom label *)
  let annotations : gmap string string :=
    if (size (Annotations conf) =? 0)%nat then ∅ else Annotations conf in
  match (if (0 <? length (Tolerations conf))%nat
         then copyTolerations (Tolerations conf) else Some []) with
  | None => Panicked "invalid memory address or nil pointer dereference"
  | Some tolerations =>
  (* Specified pvc is mounted to both PS and Worker Pods *)
  let '(volumes, mounts) :=
    match Mount conf with
    | Some m =>
        if negb (String.eqb (Pvc m) "") && negb (String.eqb (Path m) "")
        then ([ {| vName := "pvc-mount-point"; ClaimName := Pvc m |} ],
              [ {| vmName := "pvc-mount-point"; MountPath := Path m |} ])
        else ([], [])
    | None => ([], [])
    end in
  match ParseQuantity (strconv_Itoa (Cpu conf)) with
  | inr err => Returned (None, Some err)
  | inl cpuReq =>
      match ParseQuantity (Memory conf) with
      | inr err => Returned (None, Some err)
      | inl memoryReq =>
          let limits : gmap string Quantity :=
            {[ "cpu" := cpuReq; "memory" := memoryReq ]} in
          let finish (limits : gmap string Quantity) :=
            Returned
              (Some {| Kind := "Job"; jName := wid; jLabels := labels; tLabels := labels;
                       tAnnotations := annotations;
                       Spec := {| SchedulerName := Scheduler conf;
                                  Containers :=
                                    [ mkContainer (cImage container) (cName container)
                                        (cCommand container) (ImagePullPolicy container)
                                        mounts limits ];
                                  RestartPolicy := "OnFailure";
                                  ImagePullSecrets := [PullSecret conf];
                                  psTolerations := tolerations;
                                  Volumes := volumes |} |},
               None) in
          if 0 <? Gpu conf then
            match ParseQuantity (strconv_Itoa (Gpu conf)) with
            | inr err => Returned (None, Some err)
            | inl gpuReq => finish (<["nvidia.com/gpu" := gpuReq]> limits)
            end
          else finish limits
      end
  end
  end
  end.

(** A pod and a job as the controller reads them. *)
Record Pod : Type := mkPod { podName : string; Phase : string }.
Record JobStatus : Type := { Succeeded : Z }.

(** [apiv1.PodLogOptions]: [Timestamps] and the optional [SinceTime]. *)
Record PodLogOptions : Type := { Timestamps : bool; SinceTime : option Z }.

(** The calls that change the cluster or the database. *)
Inductive Call : Type :=
| CallJobsCreate (job : Job)
| CallJobsDelete (name : string)
| CallPodsDelete (name : string)
| CallUpdateWorker (wid : string) (st : State)
| CallStoreWorkerLogs (wid : string) (lines : list string).

(** The part of [kubernetes.Clientset] that is used, in [kubeNamespace]. Every
    answer may depend on the mutating calls made so far. [PodsList] returns
    its list beside the error, as the typed client does. *)
Record Clientset : Type := {
  JobsGet : list Call -> string -> rpc JobStatus;
  JobsCreate : list Call -> Job -> rpc string;
  JobsDelete : list Call -> string -> option error;
  PodsList : list Call -> string -> list Pod * option error;
  PodsDelete : list Call -> string -> option error;
  PodsGetLogs : list Call -> string -> PodLogOptions -> rpc string;
}.

(** [db.VizierDBInterface], as far as this file calls it. *)
Record VizierDBInterface : Type := {
  GetWorkerList : list Call -> string -> string -> rpc (list Worker);
  UpdateWorker : list Call -> string -> State -> option error;
  GetWorkerTimestamp : list Call -> string -> rpc (option Z);
  StoreWorkerLogs : list Call -> string -> list string -> option error;
}.

Record KubernetesWorkerInterface : Type := {
  clientset : Clientset;
  db : VizierDBInterface;
}.

Definition K (A : Type) : Type := Go (list Call) A.

Definition look {A} (f : list Call -> A) : K A := fun s => (Returned (f s), s).

Definition act {A} (f : list Call -> A) (call : Call) : K A :=
  fun s => (Returned (f s), (s ++ [call])%list).

Definition jobSelector (wID : string) : string := "job-name=" +:+ wID.

Definition newline : ascii := ascii_of_nat 10.

Definition StoreWorkerLog (d : KubernetesWorkerInterface) (wID : string) : K (option error) :=
  pl <- look (fun s => fst (PodsList (clientset d) s (jobSelector wID))) ;;
  match pl with
  | [] => ret (Some (fmt_Errorf ("No Pods are found in Job " +:+ wID)))
  | pod0 :: _ =>
      mt <- look (fun s => GetWorkerTimestamp (db d) s wID) ;;
      match mt with
      | Failed err => ret (Some err)
      | Reply mt =>
          let logopt := {| Timestamps := true; SinceTime := mt |} in
          logs <- look (fun s => PodsGetLogs (clientset d) s (podName pod0) logopt) ;;
          match logs with
          | Failed err => ret (Some err)
          | Reply logs =>
              if (String.length logs =? 0)%nat then ret None
              else
                let lines := strings_Split logs newline in
                act (fun s => StoreWorkerLogs (db d) s wID lines)
                    (CallStoreWorkerLogs wID lines)
          end
      end
  end.

Definition IsWorkerComplete (d : KubernetesWorkerInterface) (wID : string)
  : K (bool * option error) :=
  ji <- look (fun s => JobsGet (clientset d) s wID) ;;
  match ji with
  | Failed err => ret (false, Some err)
  | Reply ji =>
      if Succeeded ji =? 0 then ret (false, None)
      else
        pl <- look (fun s => fst (PodsList (clientset d) s (jobSelector wID))) ;;
        match pl with
        | [] => ret (false, Some (fmt_Errorf ("No Pods are found in Job " +:+ wID)))
        | pod0 :: _ =>
            if String.eqb (Phase pod0) "Succeeded" then ret (true, None)
            else ret (false, None)
        end
  end.

(** [jcl.Delete(id); pl, _ := pcl.List(...); pcl.Delete(pl.Items[0]...Name)]:
    the teardown shared by the three reaping paths; [checkListErr] is the
    [if err != nil] that only [StopWorkers] has after the list. A returned
    [Some err] is that early return. *)
Definition deleteJobAndPod (d : KubernetesWorkerInterface) (wid : string)
    (checkListErr : bool) : K (option error) :=
  _ <- act (fun s => JobsDelete (clientset d) s wid) (CallJobsDelete wid) ;;
  pl <- look (fun s => PodsList (clientset d) s (jobSelector wid)) ;;
  match (if checkListErr then snd pl else None) with
  | Some err => ret (Some err)
  | None =>
      match fst pl with
      | [] => panic "index out of range [0] with length 0"
      | pod0 :: _ =>
          _ <- act (fun s => PodsDelete (clientset d) s (podName pod0))
                   (CallPodsDelete (podName pod0)) ;;
          ret None
      end
  end.

(** The loop [for _, w := range ws] of [UpdateWorkerStatus]. *)
Fixpoint updateLoop (d : KubernetesWorkerInterface) (ws : list Worker) : K (option error) :=
  match ws with
  | [] => ret None
  | w :: rest =>
      if decide (Status w = State_PENDING) then
        err <- StoreWorkerLog d (WorkerId w) ;;
        match err with
        | None =>
            err <- act (fun s => UpdateWorker (db d) s (WorkerId w) State_RUNNING)
                       (CallUpdateWorker (WorkerId w) State_RUNNING) ;;
            match err with
            | Some err => ret (Some err)
            | None => updateLoop d rest
            end
        | Some _ => updateLoop d rest
        end
      else if decide (Status w = State_RUNNING) then
        ce <- IsWorkerComplete d (WorkerId w) ;;
        match ce with
        | (_, Some err) => ret (Some err)
        | (c, None) =>
            err <- StoreWorkerLog d (WorkerId w) ;;
            match err with
            | Some err => ret (Some err)
            | None =>
                if c then
                  err <- act (fun s => UpdateWorker (db d) s (WorkerId w) State_COMPLETED)
                             (CallUpdateWorker (WorkerId w) State_COMPLETED) ;;
                  match err with
                  | Some err => ret (Some err)
                  | None =>
                      _ <- deleteJobAndPod d (WorkerId w) false ;;
                      updateLoop d rest
                  end
                else updateLoop d rest
            end
        end
      else updateLoop d rest
  end.

Definition UpdateWorkerStatus (d : KubernetesWorkerInterface) (studyId : string)
  : K (option error) :=
  ws <- look (fun s => GetWorkerList (db d) s studyId "") ;;
  match ws with
  | Failed err => ret (Some err)
  | Reply ws => updateLoop d ws
  end.

Definition SpawnWorker (d : KubernetesWorkerInterface) (wid : string)
    (workerConf : option WorkerConfig) : K (option error) :=
  match genJobManifest wid workerConf with
  | Panicked msg => panic msg
  | Exited => log_Fatalf
  | Returned (_, Some err) => ret (Some err)
  | Returned (None, None) => panic "invalid memory address or nil pointer dereference"
  | Returned (Some job, None) =>
      result <- act (fun s => JobsCreate (clientset d) s job) (CallJobsCreate job) ;;
      match result with
      | Failed err => ret (Some err)
      | Reply _ => ret None
      end
  end.

(** The loop of [CleanWorkers]. *)
Fixpoint cleanLoop (d : KubernetesWorkerInterface) (ws : list Worker) : K (option error) :=
  match ws with
  | [] => ret None
  | w :: rest =>
      if decide (Status w = State_RUNNING) then
        _ <- deleteJobAndPod d (WorkerId w) false ;;
        err <- act (fun s => UpdateWorker (db d) s (WorkerId w) State_KILLED)
                   (CallUpdateWorker (WorkerId w) State_KILLED) ;;
        match err with
        | Some err => ret (Some err)
        | None => cleanLoop d rest
        end
      else cleanLoop d rest
  end.

Definition CleanWorkers (d : KubernetesWorkerInterface) (studyId : string)
  : K (option error) :=
  ws <- look (fun s => GetWorkerList (db d) s studyId "") ;;
  match ws with
  | Failed err => ret (Some err)
  | Reply ws => cleanLoop d ws
  end.

(** The inner loop [for _, wid := range wIDs] of [StopWorkers]; [None] when
    the loop ran to its end, [Some r] for [return r]. *)
Fixpoint stopInner (d : KubernetesWorkerInterface) (w : Worker) (wIDs : list string)
    (iscomplete : bool) : K (option (option error)) :=
  match wIDs with
  | [] => ret None
  | wid :: rest =>
      if bool_decide (Status w = State_RUNNING) && String.eqb (WorkerId w) wid then
        lerr <- deleteJobAndPod d wid true ;;
        match lerr with
        | Some err => ret (Some (Some err))
        | None =>
            let st := if iscomplete then State_COMPLETED else State_KILLED in
            err <- act (fun s => UpdateWorker (db d) s wid st) (CallUpdateWorker wid st) ;;
            match err with
            | Some err => ret (Some (Some err))
            | None => stopInner d w rest iscomplete
            end
        end
      else stopInner d w rest iscomplete
  end.

Fixpoint stopLoop (d : KubernetesWorkerInterface) (ws : list Worker) (wIDs : list string)
    (iscomplete : bool) : K (option error) :=
  match ws with
  | [] => ret None
  | w :: rest =>
      r <- stopInner d w wIDs iscomplete ;;
      match r with
      | Some err => ret err
      | None => stopLoop d rest wIDs iscomplete
      end
  end.

Definition StopWorkers (d : KubernetesWorkerInterface) (studyId : string)
    (wIDs : list string) (iscomplete : bool) : K (option error) :=
  ws <- look (fun s => GetWorkerList (db d) s studyId "") ;;
  match ws with
  | Failed err => ret (Some err)
  | Reply ws => stopLoop d ws wIDs iscomplete
  end.

End Worker.
End Kubernetes.

(** ** An executable platform: the kernel's binary64 floats

    The arithmetic is the kernel's IEEE 754 binary64, which is Go's [float64].
    [math.Trunc], [math.Ceil], [math.Log] and [math.Pow] follow the portable
    Go implementations. [Pow] gives NaN for a fractional exponent other than
    one half, where Go needs [math.Exp]; the suggestion service only passes
    [float64] of an [int]. [int(f)] of a value out of range is the least int,
    as on amd64. [ParseFloat] reads decimal literals and the spellings of
    infinity and NaN; hexadecimal literals are treated as malformed.
    [sort_Sort] is the insertion sort [sort.Sort] runs on a slice of at most
    12 elements. *)

Module Binary64.

Open Scope float_scope.

Definition of_int (z : Z) : float :=
  if (z =? minInt64)%Z then - 0x1p63
  else if (z <? 0)%Z then - PrimFloat.of_uint63 (Uint63.of_Z (- z))
  else PrimFloat.of_uint63 (Uint63.of_Z z).

(** [int(f)]: truncation; out of range, the amd64 conversion gives the
    least int. *)
Definition to_int (f : float) : Z :=
  match Prim2SF f with
  | S754_zero _ => 0%Z
  | S754_finite s m e =>
      let a := (if 0 <=? e then Z.pos m * 2 ^ e else Z.pos m / 2 ^ (- e))%Z in
      let v := (if s then - a else a)%Z in
      if ((v <? minInt64) || (maxInt64 <? v))%Z then minInt64 else v
  | _ => minInt64
  end.

Definition Trunc (f : float) : float :=
  match Prim2SF f with
  | S754_finite s m e =>
      if (0 <=? e)%Z then f
      else
        let t := PrimFloat.of_uint63 (Uint63.of_Z (Z.pos m / 2 ^ (- e))) in
        if s then - t else t
  | _ => f
  end.

Definition Floor (f : float) : float :=
  match Prim2SF f with
  | S754_finite true _ _ =>
      let d := Trunc (- f) in
      let d := if (- f - d) =? 0 then d else d + 1 in
      - d
  | S754_finite false _ _ => Trunc f
  | _ => f
  end.

Definition Ceil (f : float) : float := - Floor (- f).

Definition is_integral (f : float) : bool :=
  match Prim2SF f with
  | S754_finite _ _ _ => Trunc f =? f
  | S754_zero _ => true
  | _ => false
  end.

(** The loop [for i := int64(yi); i != 0; i >>= 1] of [math.Pow], by
    recursion on the bits of [i], lowest first. *)
Fixpoint pow_loop (i : positive) (x1 : float) (xe : Z) (a1 : float) (ae : Z)
  : float * Z :=
  if ((xe <? - 4096) || (4096 <? xe))%Z then (a1, (ae + xe)%Z)
  else
    let odd := match i with xO _ => false | _ => true end in
    let a1' := if odd then a1 * x1 else a1 in
    let ae' := if odd then (ae + xe)%Z else ae in
    match i with
    | xH => (a1', ae')
    | xO i' | xI i' =>
        let x2 := x1 * x1 in
        let xe2 := (2 * xe)%Z in
        if x2 <? 0.5 then pow_loop i' (x2 + x2) (xe2 - 1)%Z a1' ae'
        else pow_loop i' x2 xe2 a1' ae'
    end.

(** [isOddInt] of [math.Pow]. *)
Definition isOddInt (y : float) : bool :=
  if 0x1p53 <=? abs y then false
  else is_integral y && Z.odd (to_int y).

(** [math.Pow] at [x == 0]. *)
Definition pow_of_zero (x y : float) : float :=
  if y <? 0 then
    (if PrimFloat.get_sign x && isOddInt y then neg_infinity else infinity)
  else
    (if PrimFloat.get_sign x && isOddInt y then x else 0).

Definition Pow (x y : float) : float :=
  if (y =? 0) || (x =? 1) then 1
  else if y =? 1 then x
  else if PrimFloat.is_nan x || PrimFloat.is_nan y then nan
  else if x =? 0 then pow_of_zero x y
  else if PrimFloat.is_infinity y then
    (if x =? -1 then 1
     else if Bool.eqb (abs x <? 1) (0 <? y) then 0 else infinity)
  else if PrimFloat.is_infinity x then
    (if x <? 0 then pow_of_zero (1 / x) (- y)
     else if y <? 0 then 0 else infinity)
  else if y =? 0.5 then PrimFloat.sqrt x
  else if y =? -0.5 then 1 / PrimFloat.sqrt x
  else if negb (is_integral y) then nan
  else if 0x1p63 <=? abs y then
    (if x =? -1 then 1
     else if Bool.eqb (abs x <? 1) (0 <? y) then 0 else infinity)
  else
    let '(x1, xe) := Z.frexp x in
    let '(a1, ae) :=
      match to_int (abs y) with
      | Zpos yi => pow_loop yi x1 xe 1 0%Z
      | _ => (1, 0%Z)
      end in
    if y <? 0 then Z.ldexp (1 / a1) (- ae) else Z.ldexp a1 ae.

Definition Ln2Hi : float := 0x1.62e42fee00000p-1.
Definition Ln2Lo : float := 0x1.a39ef35793c76p-33.
Definition L1 : float := 0x1.5555555555593p-1.
Definition L2 : float := 0x1.999999997fa04p-2.
Definition L3 : float := 0x1.2492494229359p-2.
Definition L4 : float := 0x1.c71c51d8e78afp-3.
Definition L5 : float := 0x1.7466496cb03dep-3.
Definition L6 : float := 0x1.39a09d078c69fp-3.
Definition L7 : float := 0x1.2f112df3e5244p-3.
Definition Sqrt2_2 : float := 0x1.6a09e667f3bcdp-1.

Definition Log (x : float) : float :=
  if PrimFloat.is_nan x || (x =? infinity) then x
  else if x <? 0 then nan
  else if x =? 0 then neg_infinity
  else
    let '(f1, ki) := Z.frexp x in
    let '(f1, ki) := if f1 <? Sqrt2_2 then (f1 * 2, (ki - 1)%Z) else (f1, ki) in
    let f := f1 - 1 in
    let k := of_int ki in
    let s := f / (2 + f) in
    let s2 := s * s in
    let s4 := s2 * s2 in
    let t1 := s2 * (L1 + s4 * (L3 + s4 * (L5 + s4 * L7))) in
    let t2 := s4 * (L2 + s4 * (L4 + s4 * L6)) in
    let R := t1 + t2 in
    let hfsq := 0.5 * f * f in
    k * Ln2Hi - ((hfsq - (s * (hfsq + R) + k * Ln2Lo)) - f).

Close Scope float_scope.

(** Nearest binary64 to [p / q] ([0 <= p], [0 < q]), ties to even. *)
Definition round_ratio (neg : bool) (p q : Z) : float :=
  if p =? 0 then (if neg then (- 0)%float else 0%float)
  else
    let e := Z.log2 p - Z.log2 q in
    let fl := if p * 2 ^ Z.max 0 (- e) <? q * 2 ^ Z.max 0 e then e - 1 else e in
    let le := Z.max (fl - 52) (- 1074) in
    let num := p * 2 ^ Z.max 0 (- le) in
    let den := q * 2 ^ Z.max 0 le in
    let m := num / den in
    let rem := num mod den in
    let m := if (den <? 2 * rem) || ((den =? 2 * rem) && Z.odd m) then m + 1 else m in
    let f := Z.ldexp (PrimFloat.of_uint63 (Uint63.of_Z m)) le in
    if neg then (- f)%float else f.

Definition lower (c : ascii) : ascii :=
  let k := nat_of_ascii c in
  if (65 <=? k)%nat && (k <=? 90)%nat then ascii_of_nat (k + 32) else c.

Fixpoint lower_string (s : string) : string :=
  match s with
  | EmptyString => EmptyString
  | String c s' => String (lower c) (lower_string s')
  end.

(** Reads digits: the value with the digits appended, their number, the rest. *)
Fixpoint read_digits (s : string) (acc : Z) (count : Z) : Z * Z * string :=
  match s with
  | String c s' =>
      if is_digit c then read_digits s' (acc * 10 + Z_of_digit c) (count + 1)
      else (acc, count, s)
  | EmptyString => (acc, count, s)
  end.

Definition ParseFloat (s : string) : float * option error :=
  let '(neg, signed, body) :=
    match s with
    | String "-" s' => (true, true, s')
    | String "+" s' => (false, true, s')
    | _ => (false, false, s)
    end in
  let low := lower_string body in
  if String.eqb low "inf" || String.eqb low "infinity" then
    (if neg then neg_infinity else infinity, None)
  else if String.eqb low "nan" && negb signed then (nan, None)
  else
    let '(ip, ni, rest) := read_digits body 0 0 in
    let '(mant, nf, rest) :=
      match rest with
      | String "." rest' => read_digits rest' ip 0
      | _ => (ip, 0, rest)
      end in
    if ni + nf =? 0 then (0%float, Some ErrSyntax)
    else
      let finish (e10 : Z) :=
        let ex := e10 - nf in
        let f := if 0 <=? ex then round_ratio neg (mant * 10 ^ ex) 1
                 else round_ratio neg mant (10 ^ (- ex)) in
        if PrimFloat.is_infinity f then (f, Some ErrRange) else (f, None) in
      match rest with
      | EmptyString => finish 0
      | String c rest' =>
          if Ascii.eqb (lower c) "e" then
            let '(eneg, digits) :=
              match rest' with
              | String "-" d => (true, d)
              | String "+" d => (false, d)
              | _ => (false, rest')
              end in
            match read_digits digits 0 0 with
            | (ev, ne, EmptyString) =>
                if ne =? 0 then (0%float, Some ErrSyntax)
                else finish (if eneg then - ev else ev)
            | _ => (0%float, Some ErrSyntax)
            end
          else (0%float, Some ErrSyntax)
      end.

Fixpoint zeros (k : nat) : string :=
  match k with
  | O => ""
  | S k' => String "0" (zeros k')
  end.

Definition pad_left (width : nat) (s : string) : string :=
  zeros (width - String.length s) +:+ s.

(** [strconv.FormatFloat(f, 'f', 4, 64)]: the exact value rounded to four
    decimals, ties to even. *)
Definition FormatFloat_f4 (f : float) : string :=
  match Prim2SF f with
  | S754_nan => "NaN"
  | S754_infinity s => if s then "-Inf" else "+Inf"
  | S754_zero s => if s then "-0.0000" else "0.0000"
  | S754_finite s m e =>
      let num := Z.pos m * 10000 * 2 ^ Z.max 0 e in
      let den := 2 ^ Z.max 0 (- e) in
      let q := num / den in
      let rem := num mod den in
      let q := if (den <? 2 * rem) || ((den =? 2 * rem) && Z.odd q) then q + 1 else q in
      (if s then "-" else "") +:+ utoa (q / 10000) +:+ "." +:+ pad_left 4 (utoa (q mod 10000))
  end.

(** [insertionSort]: each element moves left while it is less than its
    left neighbour. [sorted] is the prefix already in order, last first. *)
Fixpoint insert_left {A} (less : A -> A -> bool) (x : A) (sorted : list A) : list A :=
  match sorted with
  | [] => [x]
  | y :: rest => if less x y then y :: insert_left less x rest else x :: sorted
  end.

Definition insertionSort (A : Type) (less : A -> A -> bool) (l : list A) : list A :=
  rev (fold_left (fun sorted x => insert_left less x sorted) l []).

(** The runtime doubles a small slice: the least power of two not below [n]. *)
Definition grown_capacity (n : nat) : nat :=
  match n with
  | O => O
  | S k => Nat.pow 2 (Nat.log2_up n)
  end.

#[export] Instance platform : Platform := {|
  float64 := float;
  float64_of_int := of_int;
  int_of_float64 := to_int;
  fadd := PrimFloat.add;
  fmul := PrimFloat.mul;
  fdiv := PrimFloat.div;
  fle := PrimFloat.leb;
  fgt := fun a b => PrimFloat.ltb b a;
  feq := PrimFloat.eqb;
  math_Trunc := Trunc;
  math_Ceil := Ceil;
  math_Log := Log;
  math_Pow := Pow;
  strconv_ParseFloat := ParseFloat;
  strconv_FormatFloat_f4 := FormatFloat_f4;
  sort_Sort := insertionSort;
  append_capacity := grown_capacity;
|}.

End Binary64.

(** * The vocabulary of the statements *)

Module Statements.
Import api Suggestion.

Section Suggestion.
Context `{Platform}.

(** The parameters [GetSuggestions] works with after the outer-loop
    rollover: those handed to [makeBracket]. *)
Definition atStep (hbparam : HyperBandParameters) : HyperBandParameters :=
  if currentS hbparam <? shloopitr hbparam then hbLoopParamUpdate hbparam else hbparam.

(** The request [evalWorkers] sends for the metrics of the workers in [gwrep]. *)
Definition metricsRequest (studyId : string) (hbparam : HyperBandParameters)
    (gwrep : GetWorkersReply) : GetMetricsRequest :=
  {| gmStudyId := studyId;
     WorkerIds := map WorkerId (Workers gwrep);
     MetricsNames := [ObjectiveValueName hbparam] |}.

(** Some worker of some evaluating trial is reported with a status other
    than COMPLETED. *)
Definition workerNotCompleted (c : ManagerClient) (sent : list Call)
    (studyId : string) (hbparam : HyperBandParameters) : Prop :=
  exists tid gwrep gmrep ml,
    In tid (evaluatingTrials hbparam) /\
    GetWorkers c sent {| gwStudyId := studyId; gwTrialId := tid |} = Reply gwrep /\
    GetMetrics c sent (metricsRequest studyId hbparam gwrep) = Reply gmrep /\
    In ml (MetricsLogSets gmrep) /\
    WorkerStatus ml <> State_COMPLETED.

(** The Manager answers the two requests of every evaluating trial, and
    every completed worker it reports has a last metric value. *)
Definition evaluationAnswered (c : ManagerClient) (sent : list Call)
    (studyId : string) (hbparam : HyperBandParameters) : Prop :=
  forall tid, In tid (evaluatingTrials hbparam) ->
    exists gwrep gmrep,
      GetWorkers c sent {| gwStudyId := studyId; gwTrialId := tid |} = Reply gwrep /\
      GetMetrics c sent (metricsRequest studyId hbparam gwrep) = Reply gmrep /\
      forall ml, In ml (MetricsLogSets gmrep) ->
        WorkerStatus ml = State_COMPLETED ->
        exists ml0 rest v, MetricsLogs ml = ml0 :: rest /\ last (Values ml0) = Some v.

(** The nil bracket, or no return at all: what the callers of [evalLoop]
    see when no bracket was made. *)
Definition noBracket (out : Outcome (option error * option (list Evals))) : Prop :=
  match out with
  | Returned (_, Some _) => False
  | _ => True
  end.

(** The requests [reqs] were sent in this order after [sent]; the [j]-th was
    answered with an id, and slot [i + j] of [ts] holds the trial of that
    request under that id. *)
Definition emitted (c : ManagerClient) (studyId : string) (sent : list Call)
    (reqs : list CreateTrialRequest) (i : nat) (ts : list (option Trial)) : Prop :=
  forall j req, reqs !! j = Some req ->
    exists rep,
      CreateTrial c (sent ++ map CallCreateTrial (take j reqs)) req = Reply rep /\
      ts !! (i + j)%nat
        = Some (Some (mkTrial (ctTrialId rep) studyId (ParameterSet (ctTrial req)))).

(** The parent of a survivor: the last trial of the Manager's list with the
    survivor's id. *)
Definition parentOf (tid : string) (trials : list Trial) : option Trial :=
  match findParent tid trials 0 None with
  | Some k => trials !! k
  | None => None
  end.

(** [pt] is the parent of the survivor with the id [tid]: the trial of the
    Manager's list that has this id, the last one should several have it. *)
Definition parentIn (trials : list Trial) (tid : string) (pt : Trial) : Prop :=
  exists k,
    trials !! k = Some pt /\ TrialId pt = tid /\
    forall k' pt', (k < k')%nat -> trials !! k' = Some pt' -> TrialId pt' <> tid.

(** The study declares the parameter [name] with the type INT (in the last
    config of that name, should several have it). *)
Definition declaredInt (pcs : list ParameterConfig) (name : string) : Prop :=
  exists k pc,
    pcs !! k = Some pc /\ pcName pc = name /\ pcParameterType pc = ParameterType_INT /\
    forall k' pc', (k < k')%nat -> pcs !! k' = Some pc' -> pcName pc' <> name.

(** [ps] are the parameters of the parent [pt] one for one, with the same
    name and type; the value is the parent's except under the resource
    name, where it is [r_i], written as an integer when the study declares
    the resource INT and with four decimals otherwise. *)
Definition keepsParent (pcs : list ParameterConfig) (r_i : float64)
    (hbparam : HyperBandParameters) (pt : Trial) (ps : list Parameter_) : Prop :=
  length ps = length (ParameterSet pt) /\
  forall k p, ParameterSet pt !! k = Some p ->
    exists p', ps !! k = Some p' /\
      Name p' = Name p /\
      ParameterType_ p' = ParameterType_ p /\
      (Name p <> ResourceName hbparam -> Value p' = Value p) /\
      (Name p = ResourceName hbparam ->
       (declaredInt pcs (ResourceName hbparam) ->
        Value p' = strconv_Itoa (int_of_float64 r_i)) /\
       (~ declaredInt pcs (ResourceName hbparam) ->
        Value p' = strconv_FormatFloat_f4 r_i)).

Section Overwrite.
Variables (rtype : ParameterType) (r_i : float64) (hbparam : HyperBandParameters).

(** The overwrite of the resource value that [makeChildBracket] applies. *)
Definition overwritten : list Parameter_ -> list Parameter_ :=
  rewriteResource rtype r_i hbparam.

(** [trials] is [trials0] after some of its parameter sets were overwritten
    by the loop. *)
Definition tracks (trials0 trials : list Trial) : Prop :=
  Forall2 (fun t0 t =>
             TrialId t = TrialId t0 /\
             overwritten (ParameterSet t) = overwritten (ParameterSet t0))
          trials0 trials.

(** The parameters [childLoop] sends for the survivor [tid]. *)
Definition childParameters (trials0 : list Trial) (tid : Evals) : list Parameter_ :=
  match parentOf (id tid) trials0 with
  | Some pt0 => overwritten (ParameterSet pt0)
  | None => []
  end.

End Overwrite.

(** A float that its four-decimal text form gives back exactly. *)
Definition stable (x : float64) : Prop :=
  fst (strconv_ParseFloat (strconv_FormatFloat_f4 x)) = x.

(** What the Manager holds under [paramId] once it has received the calls
    [rest] after the calls [before]: the parameters of the last
    [SetSuggestionParameters] request for that id that it accepted, and
    [held0], what it held before, if it accepted none. *)
Fixpoint heldAfter (c : ManagerClient) (paramId : string) (before rest : list Call)
    (held0 : option (list SuggestionParameter)) : option (list SuggestionParameter) :=
  match rest with
  | [] => held0
  | call :: rest' =>
      heldAfter c paramId (before ++ [call]) rest'
        (match call with
         | CallSetSuggestionParameters req =>
             if String.eqb (sspParamId req) paramId then
               match SetSuggestionParameters c before req with
               | Reply _ => Some (SuggestionParameters req)
               | Failed _ => held0
               end
             else held0
         | CallCreateTrial _ => held0
         end)
  end.

(** The entries of a parameter list under the name [name]. *)
Definition entriesNamed (name : string) (params : list SuggestionParameter)
  : list SuggestionParameter :=
  List.filter (fun sp => String.eqb (spName sp) name) params.

(** The names of the [switch] in [purseSuggestionParameters]. *)
Definition knownName (name : string) : bool :=
  existsb (String.eqb name)
    [ "eta"; "r_l"; "ResourceName"; "ObjectiveValueName"; "b_l"; "sMax"; "r"; "n";
      "shloopitr"; "currentS"; "evaluatingTrials" ].

(** The state [GetSuggestions] persists after a round that emitted [tids]. *)
Definition committed (tids : list string) (hbparam : HyperBandParameters)
  : HyperBandParameters :=
  shLoopParamUpdate (set_evaluatingTrials tids (atStep hbparam)).

(** How far the inner loop of the current bracket is from its end: the
    rounds left when the loop is inside the bracket, one more than any of
    them when the outer loop has yet to roll over. *)
Definition roundsLeft (hbparam : HyperBandParameters) : Z :=
  if currentS hbparam <? shloopitr hbparam then currentS hbparam + 1
  else currentS hbparam - shloopitr hbparam.

(** What [masterParameter] builds for the config [pc]. *)
Definition sampledFor (r_ : float64) (hbparam : HyperBandParameters)
    (pc : ParameterConfig) (p : Parameter_) : Prop :=
  Name p = pcName pc /\
  ParameterType_ p = pcParameterType pc /\
  (pcName pc = ResourceName hbparam ->
   (pcParameterType pc = ParameterType_INT -> Value p = strconv_Itoa (int_of_float64 r_)) /\
   (pcParameterType pc <> ParameterType_INT -> Value p = strconv_FormatFloat_f4 r_)).

(** A request of [makeMasterBracket]: a trial of the study without an id,
    with one parameter for each config of the study, in their order. *)
Definition masterRequest (studyId : string) (r_ : float64)
    (hbparam : HyperBandParameters) (sconf : option StudyConfig)
    (req : CreateTrialRequest) : Prop :=
  TrialId (ctTrial req) = "" /\
  StudyId (ctTrial req) = studyId /\
  exists sc pcs,
    sconf = Some sc /\ ParameterConfigs sc = Some pcs /\
    Forall2 (sampledFor r_ hbparam) pcs (ParameterSet (ctTrial req)).

(** Every worker the Manager reports for the trial [tid] is COMPLETED, and
    there is at least one. *)
Definition trialCompleted (c : ManagerClient) (sent : list Call)
    (studyId : string) (hbparam : HyperBandParameters) (tid : string) : Prop :=
  exists gwrep gmrep,
    GetWorkers c sent {| gwStudyId := studyId; gwTrialId := tid |} = Reply gwrep /\
    Workers gwrep <> [] /\
    GetMetrics c sent (metricsRequest studyId hbparam gwrep) = Reply gmrep /\
    forall ml, In ml (MetricsLogSets gmrep) -> WorkerStatus ml = State_COMPLETED.

End Suggestion.

(** The vendor-specific key of the GPU limit. *)
Definition gpuKey : string := "nvidia.com/gpu".

End Statements.

(** Vocabulary for the statements about the worker interface. *)

Module WorkerStatements.
Import api Kubernetes.

Section Worker.
Context `{Resource}.

(** The two labels every job gets. *)
Definition katibLabelsOf (wid : string) : gmap string string :=
  {[ "katib-version" := "alpha-0.2.0"; "worker-id" := wid ]}.

(** What a run of calls did to jobs and to worker statuses, in order: a
    deleted job is [(wid, None)], a status update [(wid, Some st)]. *)
Fixpoint touched (sent : list Call) : list (string * option State) :=
  match sent with
  | [] => []
  | CallJobsDelete wid :: rest => (wid, None) :: touched rest
  | CallUpdateWorker wid st :: rest => (wid, Some st) :: touched rest
  | _ :: rest => touched rest
  end.

Definition running (w : Worker) : bool := bool_decide (Status w = State_RUNNING).

(** What [CleanWorkers] does to the workers [ws] when nothing stops it. *)
Definition cleaned (ws : list Worker) : list (string * option State) :=
  flat_map (fun w =>
              if running w
              then [ (WorkerId w, None); (WorkerId w, Some State_KILLED) ]
              else []) ws.

(** What [StopWorkers] does for one worker and the ids [wIDs]. *)
Definition stoppedFor (iscomplete : bool) (wIDs : list string) (w : Worker)
  : list (string * option State) :=
  flat_map (fun wid =>
              if running w && String.eqb (WorkerId w) wid
              then [ (wid, None);
                     (wid, Some (if iscomplete then State_COMPLETED else State_KILLED)) ]
              else []) wIDs.

Definition stopped (iscomplete : bool) (wIDs : list string) (ws : list Worker)
  : list (string * option State) :=
  flat_map (stoppedFor iscomplete wIDs) ws.

(** The calls [UpdateWorkerStatus] may make for the workers [ws]. *)
Definition updateAllowed (ws : list Worker) (call : Call) : Prop :=
  match call with
  | CallUpdateWorker wid st =>
      exists w, In w ws /\ WorkerId w = wid /\
        (Status w = State_PENDING /\ st = State_RUNNING \/
         Status w = State_RUNNING /\ st = State_COMPLETED)
  | CallStoreWorkerLogs wid _ =>
      exists w, In w ws /\ WorkerId w = wid /\
        (Status w = State_PENDING \/ Status w = State_RUNNING)
  | CallJobsDelete wid =>
      exists w, In w ws /\ WorkerId w = wid /\ Status w = State_RUNNING
  | CallPodsDelete _ => True
  | CallJobsCreate _ => False
  end.

(** The same cluster up to what its two [Delete] calls answer. *)
Definition sameButDeletes (cs cs' : Clientset) : Prop :=
  JobsGet cs = JobsGet cs' /\ JobsCreate cs = JobsCreate cs' /\
  PodsList cs = PodsList cs' /\ PodsGetLogs cs = PodsGetLogs cs'.

End Worker.
End WorkerStatements.

(** * Concrete worlds

    A small study on the binary64 platform: an INT resource parameter
    "epochs" and a DOUBLE parameter "lr"; the Manager is a table of answers
    and names the trials it creates new-0, new-1, ... *)

Module Fixtures.
Import api Suggestion Binary64.

Definition parameterConfigs : list ParameterConfig :=
  [ mkParameterConfig "epochs" ParameterType_INT (Some (mkFeasibleSpace "9" "1" []));
    mkParameterConfig "lr" ParameterType_DOUBLE (Some (mkFeasibleSpace "0.5" "0.1" [])) ].

Definition studyConfig (opt : OptimizationType) : StudyConfig :=
  {| OptimizationType_ := opt;
     ParameterConfigs := Some parameterConfigs;
     api.ObjectiveValueName := "accuracy" |}.

Definition studyReply (opt : OptimizationType) : GetStudyReply :=
  {| StudyConfig_ := Some (studyConfig opt) |}.

Record Fixture : Type := {
  fxParameters : list SuggestionParameter;
  fxOptimization : OptimizationType;
  fxTrials : list Trial;
  fxWorkers : string -> rpc GetWorkersReply;        (* by trial id *)
  fxMetrics : list string -> rpc GetMetricsReply;   (* by worker ids *)
}.

Fixpoint created (sent : list Call) : nat :=
  match sent with
  | [] => O
  | CallCreateTrial _ :: rest => S (created rest)
  | _ :: rest => created rest
  end.

Definition manager (fx : Fixture) : ManagerClient :=
  {| GetStudy := fun _ _ => Reply (studyReply (fxOptimization fx));
     GetTrials := fun _ _ => Reply {| Trials := fxTrials fx |};
     GetWorkers := fun _ req => fxWorkers fx (gwTrialId req);
     GetMetrics := fun _ req => fxMetrics fx (WorkerIds req);
     GetSuggestionParameters :=
       fun _ _ => Reply {| gspSuggestionParameters := fxParameters fx |};
     CreateTrial :=
       fun sent _ =>
         Reply {| ctTrialId := "new-" +:+ strconv_Itoa (Z.of_nat (created sent)) |};
     SetSuggestionParameters := fun _ _ => Reply tt |}.

(** Samplers that always draw the lower bound. *)
Definition sampler : RandomSuggestService :=
  {| IntRandom := fun _ lo _ => Some lo;
     DoubelRandom := fun _ lo _ => Some lo |}.

Definition request : GetSuggestionsRequest :=
  {| inStudyId := "study"; inSuggestionAlgorithm := "hyperband"; inParamId := "param" |}.

Definition start : Sent := mkSent [] 0.

Definition trialOf (tid lr : string) : Trial :=
  mkTrial tid "study"
    [ mkParameter "epochs" ParameterType_INT "1";
      mkParameter "lr" ParameterType_DOUBLE lr ].

Definition threeTrials : list Trial :=
  [ trialOf "t1" "0.1000"; trialOf "t2" "0.2000"; trialOf "t3" "0.3000" ].

(** One worker per trial, named after it. *)
Definition oneWorker (st : State) (tid : string) : rpc GetWorkersReply :=
  Reply {| Workers := [ mkWorker ("w-" +:+ tid) "study" tid st ] |}.

Definition metricsOf (table : list (string * (State * list MetricsLog))) (wids : list string)
  : rpc GetMetricsReply :=
  Reply {| MetricsLogSets :=
    omap (fun wid =>
            match find (fun e => String.eqb (fst e) wid) table with
            | Some (_, (st, logs)) => Some (mkMetricsLogSet wid logs st)
            | None => None
            end) wids |}.

Definition accuracy (values : list string) : list MetricsLog :=
  [ mkMetricsLog "accuracy" values ].

(** The state persisted after a master bracket of three trials at one epoch:
    [eta = 3], [r_l = 3], [sMax = 1], the inner loop at [i = 1]. *)
Definition afterMaster (evaluating : string) : list SuggestionParameter :=
  [ mkSuggestionParameter "eta" "3.0000";
    mkSuggestionParameter "sMax" "1";
    mkSuggestionParameter "b_l" "6.0000";
    mkSuggestionParameter "r_l" "3.0000";
    mkSuggestionParameter "r" "1.0000";
    mkSuggestionParameter "shloopitr" "1";
    mkSuggestionParameter "n" "3";
    mkSuggestionParameter "currentS" "1";
    mkSuggestionParameter "ResourceName" "epochs";
    mkSuggestionParameter "evaluatingTrials" evaluating ].

(** All three trials completed, with scores 0.3, 0.2 and 0.1. *)
Definition completedStudy (opt : OptimizationType) : Fixture :=
  {| fxParameters := afterMaster "t1,t2,t3";
     fxOptimization := opt;
     fxTrials := threeTrials;
     fxWorkers := oneWorker State_COMPLETED;
     fxMetrics := metricsOf [ ("w-t1", (State_COMPLETED, accuracy ["0.1"; "0.3"]));
                              ("w-t2", (State_COMPLETED, accuracy ["0.2"]));
                              ("w-t3", (State_COMPLETED, accuracy ["0.1"])) ] |}.

(** What [purseSuggestionParameters] loads from [afterMaster]. *)
Definition loaded (evaluating : list string) : HyperBandParameters :=
  {| eta := 3%float; sMax := 1; b_l := 6%float; r_l := 3%float; r := 1%float;
     n := 3; shloopitr := 1; currentS := 1;
     ResourceName := "epochs"; ObjectiveValueName := "accuracy";
     evaluatingTrials := evaluating |}.

(** The bracket [evalWorkers] ranks for [completedStudy]. *)
Definition ranked : Bracket :=
  mkSlice [ mkEvals "t1" (fst (ParseFloat "0.3"));
            mkEvals "t2" (fst (ParseFloat "0.2"));
            mkEvals "t3" (fst (ParseFloat "0.1")) ] 4.

(** The request that promotes the trial with learning rate [lr] to three
    epochs. *)
Definition promote (lr : string) : CreateTrialRequest :=
  {| ctTrial := mkTrial "" "study"
                  [ mkParameter "epochs" ParameterType_INT "3";
                    mkParameter "lr" ParameterType_DOUBLE lr ] |}.

(** One evaluating trial, t1, whose single worker is COMPLETED and reports
    [logs] as its metrics. *)
Definition reporting (logs : list MetricsLog) : Fixture :=
  {| fxParameters := afterMaster "t1";
     fxOptimization := OptimizationType_MAXIMIZE;
     fxTrials := threeTrials;
     fxWorkers := oneWorker State_COMPLETED;
     fxMetrics := metricsOf [ ("w-t1", (State_COMPLETED, logs)) ] |}.

(** Two evaluating trials; t2's worker is still RUNNING. [first] is the
    Manager's answer to the worker request for t1. *)
Definition stillRunning (first : rpc GetWorkersReply) : Fixture :=
  {| fxParameters := afterMaster "t1,t2";
     fxOptimization := OptimizationType_MAXIMIZE;
     fxTrials := threeTrials;
     fxWorkers := fun tid => if String.eqb tid "t1" then first
                             else oneWorker State_RUNNING tid;
     fxMetrics := metricsOf [ ("w-t1", (State_COMPLETED, accuracy ["0.3"]));
                              ("w-t2", (State_RUNNING, accuracy [])) ] |}.

(** Maximizing, the best of the three trials (t1) is promoted to three
    epochs as new-0. *)
Definition promoted : list (option Trial) :=
  [ Some (mkTrial "new-0" "study"
            [ mkParameter "epochs" ParameterType_INT "3";
              mkParameter "lr" ParameterType_DOUBLE "0.1000" ]) ].

Definition persistedParameters : list SuggestionParameter :=
  [ mkSuggestionParameter "eta" "3.0000";
    mkSuggestionParameter "sMax" "1";
    mkSuggestionParameter "b_l" "6.0000";
    mkSuggestionParameter "r_l" "3.0000";
    mkSuggestionParameter "r" "1.0000";
    mkSuggestionParameter "shloopitr" "2";
    mkSuggestionParameter "n" "3";
    mkSuggestionParameter "currentS" "0";
    mkSuggestionParameter "ResourceName" "epochs";
    mkSuggestionParameter "evaluatingTrials" "new-0" ].

Definition afterPromotion : Sent :=
  mkSent [ CallCreateTrial (promote "0.1000");
           CallSetSuggestionParameters
             {| sspStudyId := "study";
                SuggestionAlgorithm := "hyperband";
                sspParamId := "param";
                SuggestionParameters := persistedParameters |} ] 0.

(** The state persisted by the promotion has [currentS = 0]. *)
Definition exhausted : Fixture :=
  {| fxParameters := persistedParameters;
     fxOptimization := OptimizationType_MAXIMIZE;
     fxTrials := threeTrials;
     fxWorkers := oneWorker State_RUNNING;
     fxMetrics := metricsOf [] |}.

Definition loadedExhausted : HyperBandParameters :=
  {| eta := 3%float; sMax := 1; b_l := 6%float; r_l := 3%float; r := 1%float;
     n := 3; shloopitr := 2; currentS := 0;
     ResourceName := "epochs"; ObjectiveValueName := "accuracy";
     evaluatingTrials := ["new-0"] |}.

(** A study that has not started: only the required parameters are set,
    the rest is derived ([sMax = 1], [n = 3], [r = 1]). *)
Definition fresh : Fixture :=
  {| fxParameters := [ mkSuggestionParameter "eta" "3";
                       mkSuggestionParameter "r_l" "3";
                       mkSuggestionParameter "ResourceName" "epochs" ];
     fxOptimization := OptimizationType_MAXIMIZE;
     fxTrials := [];
     fxWorkers := oneWorker State_RUNNING;
     fxMetrics := metricsOf [] |}.

(** The request of the master bracket at one epoch, with the sampler that
    draws the lower bound. *)
Definition sample : CreateTrialRequest :=
  {| ctTrial := mkTrial "" "study"
                  [ mkParameter "epochs" ParameterType_INT "1";
                    mkParameter "lr" ParameterType_DOUBLE "0.1000" ] |}.

Definition sampled (tid : string) : option Trial :=
  Some (mkTrial tid "study"
          [ mkParameter "epochs" ParameterType_INT "1";
            mkParameter "lr" ParameterType_DOUBLE "0.1000" ]).

(** A Manager that creates [k] trials and refuses the ones after. *)
Definition refusingAfter (k : nat) (fx : Fixture) : ManagerClient :=
  {| GetStudy := GetStudy (manager fx);
     GetTrials := GetTrials (manager fx);
     GetWorkers := GetWorkers (manager fx);
     GetMetrics := GetMetrics (manager fx);
     GetSuggestionParameters := GetSuggestionParameters (manager fx);
     CreateTrial :=
       fun sent req =>
         if (created sent <? k)%nat then CreateTrial (manager fx) sent req
         else Failed (RemoteError "unavailable");
     SetSuggestionParameters := SetSuggestionParameters (manager fx) |}.

(** What [purseSuggestionParameters] loads for the fresh study. *)
Definition loadedFresh : HyperBandParameters :=
  {| eta := 3%float; sMax := 1; b_l := 6%float; r_l := 3%float; r := 1%float;
     n := 3; shloopitr := 0; currentS := 1;
     ResourceName := "epochs"; ObjectiveValueName := "accuracy";
     evaluatingTrials := [] |}.

(** The three trials of the fresh study's master bracket. *)
Definition firstRound : list (option Trial) :=
  [ sampled "new-0"; sampled "new-1"; sampled "new-2" ].

(** The request that saves the state after the master bracket. *)
Definition saveAfterMaster : SetSuggestionParametersRequest :=
  {| sspStudyId := "study";
     SuggestionAlgorithm := "hyperband";
     sspParamId := "param";
     SuggestionParameters := afterMaster "new-0,new-1,new-2" |}.

Definition afterFresh : Sent :=
  mkSent [ CallCreateTrial sample; CallCreateTrial sample; CallCreateTrial sample;
           CallSetSuggestionParameters saveAfterMaster ] 3.

(** A Manager that refuses to save suggestion parameters. *)
Definition refusingSave (fx : Fixture) : ManagerClient :=
  {| GetStudy := GetStudy (manager fx);
     GetTrials := GetTrials (manager fx);
     GetWorkers := GetWorkers (manager fx);
     GetMetrics := GetMetrics (manager fx);
     GetSuggestionParameters := GetSuggestionParameters (manager fx);
     CreateTrial := CreateTrial (manager fx);
     SetSuggestionParameters := fun _ _ => Failed (RemoteError "unavailable") |}.

(** The three trials and two more whose ids are the beginning of a
    survivor's id or begin with it. *)
Definition decoyTrials : list Trial :=
  threeTrials ++ [ trialOf "t" "0.8000"; trialOf "t10" "0.9000" ].

Definition decoyStudy : Fixture :=
  {| fxParameters := afterMaster "t1,t2,t3";
     fxOptimization := OptimizationType_MAXIMIZE;
     fxTrials := decoyTrials;
     fxWorkers := oneWorker State_COMPLETED;
     fxMetrics := metricsOf [ ("w-t1", (State_COMPLETED, accuracy ["0.1"; "0.3"]));
                              ("w-t2", (State_COMPLETED, accuracy ["0.2"]));
                              ("w-t3", (State_COMPLETED, accuracy ["0.1"])) ] |}.

(** The two best of the three trials, promoted to three epochs. *)
Definition promotedTwo : list (option Trial) :=
  [ Some (mkTrial "new-0" "study"
            [ mkParameter "epochs" ParameterType_INT "3";
              mkParameter "lr" ParameterType_DOUBLE "0.1000" ]);
    Some (mkTrial "new-1" "study"
            [ mkParameter "epochs" ParameterType_INT "3";
              mkParameter "lr" ParameterType_DOUBLE "0.2000" ]) ].

(** The trial that promotes t3 to three epochs. *)
Definition promotedLast : option Trial :=
  Some (mkTrial "new-0" "study"
          [ mkParameter "epochs" ParameterType_INT "3";
            mkParameter "lr" ParameterType_DOUBLE "0.3000" ]).

End Fixtures.

(** Quantities are kept as the text they were parsed from; the parser accepts
    a decimal number with one of the binary or decimal suffixes. *)

Module KubernetesFixtures.
Import api Kubernetes.

Definition suffixes : list string :=
  [ ""; "Ki"; "Mi"; "Gi"; "Ti"; "Pi"; "Ei"; "n"; "u"; "m"; "k"; "M"; "G"; "T"; "P"; "E" ].

Fixpoint skip_digits (s : string) : nat * string :=
  match s with
  | String c s' =>
      if is_digit c then let '(k, rest) := skip_digits s' in (S k, rest) else (O, s)
  | EmptyString => (O, s)
  end.

Definition parseQuantity (s : string) : string + error :=
  let body :=
    match s with
    | String c s' => if Ascii.eqb c "-" || Ascii.eqb c "+" then s' else s
    | EmptyString => s
    end in
  let '(k, rest) := skip_digits body in
  if (k =? 0)%nat then inr (fmt_Errorf "quantities must match the regular expression")
  else if existsb (String.eqb rest) suffixes then inl s
  else inr (fmt_Errorf "quantities must match the regular expression").

#[export] Instance quantities : Resource :=
  {| Quantity := string; ParseQuantity := parseQuantity |}.

(** A cluster given by the pods it lists (which may depend on the calls made
    so far), the [Succeeded] count of every job and the log of every pod. *)
Definition cluster (pods : list Call -> string -> list Pod) (succeeded : Z) (logs : string)
  : Clientset :=
  {| JobsGet := fun _ _ => Reply {| Succeeded := succeeded |};
     JobsCreate := fun _ job => Reply (jName job);
     JobsDelete := fun _ _ => None;
     PodsList := fun sent selector => (pods sent selector, None);
     PodsDelete := fun _ _ => None;
     PodsGetLogs := fun _ _ _ => Reply logs |}.

Definition database (ws : list Worker) : VizierDBInterface :=
  {| GetWorkerList := fun _ _ _ => Reply ws;
     UpdateWorker := fun _ _ _ => None;
     GetWorkerTimestamp := fun _ _ => Reply None;
     StoreWorkerLogs := fun _ _ _ => None |}.

Definition worker (st : State) : Worker := mkWorker "w1" "study" "t1" st.

Definition onePod : list Pod := [ mkPod "w1-x7" "Succeeded" ].

(** The pod of a job is gone once the job has been deleted. *)
Definition podsUntilJobDeleted (sent : list Call) (_ : string) : list Pod :=
  if existsb (fun call => match call with CallJobsDelete _ => true | _ => false end) sent
  then [] else onePod.

(** W1 of the worker scenarios: two cores, 4Gi, one GPU. *)
Definition w1Config : WorkerConfig :=
  {| Image := "trainer:latest"; Command := ["python"; "train.py"]; Gpu := 1;
     Scheduler := "default-scheduler"; Mount := None; PullSecret := "regcred";
     Cpu := 2; Memory := "4Gi"; Labels := ∅; Annotations := ∅; Tolerations := [] |}.

Definition katibLabels : gmap string string :=
  {[ "katib-version" := "alpha-0.2.0"; "worker-id" := "w1" ]}.

Definition w1Job : Job :=
  {| Kind := "Job"; jName := "w1"; jLabels := katibLabels; tLabels := katibLabels;
     tAnnotations := ∅;
     Spec := {| SchedulerName := "default-scheduler";
                Containers :=
                  [ {| cImage := "trainer:latest"; cName := "w1";
                       cCommand := ["python"; "train.py"];
                       ImagePullPolicy := "Always"; VolumeMounts := [];
                       Limits := <["nvidia.com/gpu" := "1"]>
                                   {[ "cpu" := "2"; "memory" := "4Gi" ]} |} ];
                RestartPolicy := "OnFailure";
                ImagePullSecrets := ["regcred"];
                psTolerations := [];
                Volumes := [] |} |}.

Definition idle : KubernetesWorkerInterface :=
  {| clientset := cluster (fun _ _ => onePod) 0 ""; db := database [worker State_PENDING] |}.

(** W2: custom labels, one of them under Katib's own key, an annotation, a
    toleration and a mounted claim; no GPU. *)
Definition w2Config : WorkerConfig :=
  {| Image := "trainer:latest"; Command := ["python"; "train.py"]; Gpu := 0;
     Scheduler := ""; Mount := Some {| Pvc := "data"; Path := "/data" |};
     PullSecret := "regcred"; Cpu := 2; Memory := "4Gi";
     Labels := {[ "team" := "ml"; "worker-id" := "custom" ]};
     Annotations := {[ "note" := "x" ]};
     Tolerations := [ Some (mkToleration "gpu" "Exists" "" "NoSchedule") ] |}.

Definition w2Labels : gmap string string :=
  {[ "katib-version" := "alpha-0.2.0"; "team" := "ml"; "worker-id" := "custom" ]}.

Definition w2Job : Job :=
  {| Kind := "Job"; jName := "w2"; jLabels := w2Labels; tLabels := w2Labels;
     tAnnotations := {[ "note" := "x" ]};
     Spec := {| SchedulerName := "";
                Containers :=
                  [ {| cImage := "trainer:latest"; cName := "w2";
                       cCommand := ["python"; "train.py"];
                       ImagePullPolicy := "Always";
                       VolumeMounts := [ {| vmName := "pvc-mount-point";
                                            MountPath := "/data" |} ];
                       Limits := {[ "cpu" := "2"; "memory" := "4Gi" ]} |} ];
                RestartPolicy := "OnFailure";
                ImagePullSecrets := ["regcred"];
                psTolerations := [ mkToleration "gpu" "Exists" "" "NoSchedule" ];
                Volumes := [ {| vName := "pvc-mount-point"; ClaimName := "data" |} ] |} |}.

(** A log of two lines. *)
Definition twoLines : string := "epoch 1" +:+ String newline "epoch 2".

Definition logging : KubernetesWorkerInterface :=
  {| clientset := cluster (fun _ _ => onePod) 0 twoLines;
     db := database [worker State_PENDING] |}.

(** Three workers, the first and the last RUNNING. *)
Definition threeWorkers : list Worker :=
  [ mkWorker "w1" "study" "t1" State_RUNNING;
    mkWorker "w2" "study" "t2" State_PENDING;
    mkWorker "w3" "study" "t3" State_RUNNING ].

Definition busy : KubernetesWorkerInterface :=
  {| clientset := cluster (fun _ _ => onePod) 0 ""; db := database threeWorkers |}.

(** The same cluster, but every delete is refused. *)
Definition refusingDeletes (cs : Clientset) : Clientset :=
  {| JobsGet := JobsGet cs;
     JobsCreate := JobsCreate cs;
     JobsDelete := fun _ _ => Some (RemoteError "forbidden");
     PodsList := PodsList cs;
     PodsDelete := fun _ _ => Some (RemoteError "forbidden");
     PodsGetLogs := PodsGetLogs cs |}.

(** The same cluster, but listing pods fails. *)
Definition failingList (cs : Clientset) : Clientset :=
  {| JobsGet := JobsGet cs;
     JobsCreate := JobsCreate cs;
     JobsDelete := JobsDelete cs;
     PodsList := fun _ _ => ([], Some (RemoteError "timeout"));
     PodsDelete := PodsDelete cs;
     PodsGetLogs := PodsGetLogs cs |}.

(** Two PENDING workers on the idle cluster. *)
Definition twoPending : KubernetesWorkerInterface :=
  {| clientset := cluster (fun _ _ => onePod) 0 "";
     db := database [ mkWorker "w0" "study" "t0" State_PENDING; worker State_PENDING ] |}.

(** No pod is listed for any job. *)
Definition podless (st : State) : KubernetesWorkerInterface :=
  {| clientset := cluster (fun _ _ => []) 0 ""; db := database [worker st] |}.

End KubernetesFixtures.

(** * Properties of the suggestion service *)

Module SuggestionFacts.
Import api Suggestion Statements.

(** Unfolds the monadic plumbing of one step. *)
Ltac step :=
  unfold bind, ret, panic, log_Fatalf, ask, deref in *; cbn [fst snd] in *.

(** Closes a branch that has reached its return. *)
Ltac finish := intros; step; simplify_eq; auto.

Section Facts.
Context `{Platform}.

(** *** Reading never sends a mutating call *)

Lemma purse_reads_only c studyId sparam s out s' :
  purseSuggestionParameters c studyId sparam s = (out, s') -> s' = s.
Proof.
  unfold purseSuggestionParameters, completeParameters. step.
  destruct (_ || _); [finish |].
  destruct (String.eqb _ ""); [| finish].
  destruct (GetStudy _ _ _) as [rep | e]; [| finish].
  destruct (StudyConfig_ rep); finish.
Qed.

Lemma sumLastValues_reads_only sets vs (s : Sent) out s' :
  sumLastValues sets vs s = (out, s') -> s' = s.
Proof.
  revert vs. induction sets as [| ml rest IH]; intros vs; cbn; step.
  - finish.
  - destruct (decide _); [| finish].
    destruct (MetricsLogs ml); [finish |].
    destruct (last _); [apply IH | finish].
Qed.

Lemma evalLoop_reads_only c studyId hbparam tids bracket s out s' :
  evalLoop c studyId hbparam tids bracket s = (out, s') -> s' = s.
Proof.
  revert bracket. induction tids as [| tid rest IH]; intros bracket; cbn; step.
  - finish.
  - destruct (GetWorkers _ _ _); [| finish].
    destruct (GetMetrics _ _ _); [| finish].
    destruct (sumLastValues _ _ _) as [o s1] eqn:E.
    apply sumLastValues_reads_only in E. subst s1.
    destruct o as [[vs |] | |]; try (finish; fail).
    destruct (Workers _); [finish | apply IH].
Qed.

Lemma evalWorkers_reads_only c studyId hbparam s out s' :
  evalWorkers c studyId hbparam s = (out, s') -> s' = s.
Proof.
  unfold evalWorkers. step.
  destruct (evalLoop _ _ _ _ _ _) as [o s1] eqn:E.
  apply evalLoop_reads_only in E. subst s1.
  destruct o as [[e [b |]] | |]; finish.
Qed.

(** *** Evaluation before promotion *)

Lemma sumLastValues_not_completed sets ml vs (s : Sent) :
  In ml sets -> WorkerStatus ml <> State_COMPLETED ->
  match fst (sumLastValues sets vs s) with
  | Returned (Some _) => False
  | _ => True
  end.
Proof.
  intros Hin Hst. revert vs.
  induction sets as [| x rest IH]; intros vs; [destruct Hin |].
  cbn. destruct (decide (WorkerStatus x = State_COMPLETED)) as [Hx |]; [| exact I].
  destruct Hin as [-> | Hin]; [contradiction |].
  destruct (MetricsLogs x); [exact I |].
  destruct (last _); [apply IH; exact Hin | exact I].
Qed.

Lemma sumLastValues_answered sets ml vs (s : Sent) :
  In ml sets -> WorkerStatus ml <> State_COMPLETED ->
  (forall x, In x sets -> WorkerStatus x = State_COMPLETED ->
     exists ml0 rest v, MetricsLogs x = ml0 :: rest /\ last (Values ml0) = Some v) ->
  sumLastValues sets vs s = (Returned None, s).
Proof.
  intros Hin Hst Hall. revert vs.
  induction sets as [| x rest IH]; intros vs; [destruct Hin |].
  cbn. destruct (decide (WorkerStatus x = State_COMPLETED)) as [Hx |]; [| reflexivity].
  destruct (Hall x (or_introl eq_refl) Hx) as (ml0 & tl & v & -> & ->).
  destruct Hin as [-> | Hin]; [contradiction |].
  apply IH; [exact Hin | intros y Hy; apply Hall; right; exact Hy].
Qed.

Lemma evalLoop_not_completed c studyId hbparam tids bracket s :
  (exists tid gwrep gmrep ml,
     In tid tids /\
     GetWorkers c (calls s) {| gwStudyId := studyId; gwTrialId := tid |} = Reply gwrep /\
     GetMetrics c (calls s) (metricsRequest studyId hbparam gwrep) = Reply gmrep /\
     In ml (MetricsLogSets gmrep) /\ WorkerStatus ml <> State_COMPLETED) ->
  noBracket (fst (evalLoop c studyId hbparam tids bracket s)).
Proof.
  intros (tid & gwrep & gmrep & ml & Hin & Hw & Hm & Hml & Hst).
  revert bracket. induction tids as [| t rest IH]; intros bracket; [destruct Hin |].
  cbn. step. fold (metricsRequest studyId hbparam).
  destruct (GetWorkers c (calls s) {| gwStudyId := studyId; gwTrialId := t |})
    as [gw | e] eqn:Ew; [| exact I].
  fold (metricsRequest studyId hbparam gw).
  destruct (GetMetrics c (calls s) (metricsRequest studyId hbparam gw))
    as [gm | e] eqn:Em; [| exact I].
  destruct (sumLastValues (MetricsLogSets gm) (float64_of_int 0) s) as [o s1] eqn:Es.
  pose proof (sumLastValues_reads_only _ _ _ _ _ Es) as ->.
  destruct Hin as [-> | Hin].
  - rewrite Hw in Ew. simplify_eq. rewrite Hm in Em. simplify_eq.
    pose proof (sumLastValues_not_completed _ _ (float64_of_int 0) s Hml Hst) as Hn.
    rewrite Es in Hn. cbn in Hn.
    destruct o as [[vs |] | |]; [destruct Hn | exact I ..].
  - destruct o as [[vs |] | |]; try exact I.
    destruct (Workers gw); [exact I | apply IH; exact Hin].
Qed.

Lemma evalLoop_answered c studyId hbparam tids bracket s :
  (exists tid gwrep gmrep ml,
     In tid tids /\
     GetWorkers c (calls s) {| gwStudyId := studyId; gwTrialId := tid |} = Reply gwrep /\
     GetMetrics c (calls s) (metricsRequest studyId hbparam gwrep) = Reply gmrep /\
     In ml (MetricsLogSets gmrep) /\ WorkerStatus ml <> State_COMPLETED) ->
  (forall tid, In tid tids ->
     exists gwrep gmrep,
       GetWorkers c (calls s) {| gwStudyId := studyId; gwTrialId := tid |} = Reply gwrep /\
       GetMetrics c (calls s) (metricsRequest studyId hbparam gwrep) = Reply gmrep /\
       forall ml, In ml (MetricsLogSets gmrep) ->
         WorkerStatus ml = State_COMPLETED ->
         exists ml0 rest v, MetricsLogs ml = ml0 :: rest /\ last (Values ml0) = Some v) ->
  evalLoop c studyId hbparam tids bracket s = (Returned (None, None), s).
Proof.
  intros (tid & gwrep & gmrep & ml & Hin & Hw & Hm & Hml & Hst) Hall.
  revert bracket. induction tids as [| t rest IH]; intros bracket; [destruct Hin |].
  cbn. step.
  destruct (Hall t (or_introl eq_refl)) as (gw & gm & Ew & Em & Hvals).
  rewrite Ew. fold (metricsRequest studyId hbparam gw). rewrite Em.
  destruct Hin as [-> | Hin].
  - rewrite Hw in Ew. simplify_eq. rewrite Hm in Em. simplify_eq.
    rewrite (sumLastValues_answered _ _ _ _ Hml Hst Hvals). reflexivity.
  - destruct (sumLastValues (MetricsLogSets gm) (float64_of_int 0) s) as [o s1] eqn:Es.
    pose proof (sumLastValues_reads_only _ _ _ _ _ Es) as ->.
    assert (Hok : exists r, o = Returned r).
    { clear - Hvals Es. revert Es. generalize (float64_of_int 0).
      induction (MetricsLogSets gm) as [| x l IHl]; intros vs; cbn; step.
      - intros; simplify_eq; eauto.
      - destruct (decide (WorkerStatus x = State_COMPLETED)) as [Hx |];
          [| intros; simplify_eq; eauto].
        destruct (Hvals x (or_introl eq_refl) Hx) as (ml0 & tl & v & -> & ->).
        apply IHl. intros y Hy. apply Hvals. right. exact Hy. }
    destruct Hok as [[vs |] ->]; [| reflexivity].
    destruct (Workers gw); [reflexivity |].
    apply IH; [exact Hin | intros y Hy; apply Hall; right; exact Hy].
Qed.

Lemma makeBracket_not_ready h c studyId n_i r_i hbparam s :
  evaluatingTrials hbparam <> [] -> shloopitr hbparam <> 0 ->
  workerNotCompleted c (calls s) studyId hbparam ->
  forall out s', makeBracket h c studyId n_i r_i hbparam s = (out, s') ->
    s' = s /\
    match out with
    | Returned (Some _, _, _) => False
    | _ => True
    end.
Proof.
  intros Hne Hit Hnc out s'. unfold makeBracket.
  destruct (evaluatingTrials hbparam) as [| t0 tl] eqn:Et; [contradiction |].
  cbn [length Nat.eqb orb]. destruct (Z.eqb_spec (shloopitr hbparam) 0); [contradiction |].
  unfold evalWorkers. step. rewrite Et.
  pose proof (evalLoop_not_completed c studyId hbparam (t0 :: tl) [] s) as Hnb.
  unfold workerNotCompleted in Hnc. rewrite Et in Hnc. specialize (Hnb Hnc).
  destruct (evalLoop c studyId hbparam (t0 :: tl) [] s) as [o s1] eqn:E.
  pose proof (evalLoop_reads_only _ _ _ _ _ _ _ _ E) as ->.
  cbn in Hnb.
  destruct o as [[e [b |]] | |]; [destruct Hnb | | |];
    try destruct e; intros; simplify_eq; auto.
Qed.

(** C6. When the state loaded at the start of a call has [currentS <= 0],
    [GetSuggestions] returns the empty trial list with a nil error, and the
    calls sent to the Manager are what they were: no trial is created and
    [SetSuggestionParameters] is not called. *)
Theorem GetSuggestions_exhausted h c in_ s spr hbparam :
  GetSuggestionParameters c (calls s) {| gspParamId := inParamId in_ |} = Reply spr ->
  purseSuggestionParameters c (inStudyId in_) (gspSuggestionParameters spr) s
    = (Returned (Some hbparam, None), s) ->
  currentS hbparam <= 0 ->
  GetSuggestions h (Reply c) in_ s = (Returned ({| replyTrials := [] |}, None), s).
Proof.
  intros Hspr Hpurse Hs. unfold GetSuggestions. step.
  rewrite Hspr, Hpurse.
  destruct (Z.leb_spec (currentS hbparam) 0); [reflexivity | lia].
Qed.

(** C2 (amended). When the step has to evaluate (after the rollover,
    [evaluatingTrials] is not empty and [shloopitr] is not 0) and some worker
    of some evaluating trial is not COMPLETED, a call of [GetSuggestions]
    sends no mutating call to the Manager, however it ends: no trial is
    created and [SetSuggestionParameters] is not called. If moreover the
    Manager answers the worker and metrics requests of the evaluating trials
    and every completed worker has a last metric value, the call returns the
    empty reply with FAILED_PRECONDITION. *)
Theorem GetSuggestions_workers_not_completed h c in_ s spr hb0 :
  GetSuggestionParameters c (calls s) {| gspParamId := inParamId in_ |} = Reply spr ->
  purseSuggestionParameters c (inStudyId in_) (gspSuggestionParameters spr) s
    = (Returned (Some hb0, None), s) ->
  0 < currentS hb0 ->
  evaluatingTrials (atStep hb0) <> [] ->
  shloopitr (atStep hb0) <> 0 ->
  workerNotCompleted c (calls s) (inStudyId in_) (atStep hb0) ->
  snd (GetSuggestions h (Reply c) in_ s) = s /\
  (evaluationAnswered c (calls s) (inStudyId in_) (atStep hb0) ->
   GetSuggestions h (Reply c) in_ s
     = (Returned ({| replyTrials := [] |}, Some FailedPrecondition), s)).
Proof.
  intros Hspr Hpurse Hs Hne Hit Hnc.
  unfold GetSuggestions. step. rewrite Hspr, Hpurse.
  destruct (Z.leb_spec (currentS hb0) 0); [lia |].
  fold (atStep hb0).
  destruct (getLoopParam (atStep hb0)) as [n_i r_i].
  split.
  - destruct (makeBracket h c (inStudyId in_) n_i r_i (atStep hb0) s) as [o s1] eqn:E.
    destruct (makeBracket_not_ready _ _ _ _ _ _ _ Hne Hit Hnc _ _ E) as [-> Ho].
    destruct o as [[[[tids |] ts] [e |]] | |]; cbn; try reflexivity; destruct Ho.
  - intros Hall. unfold makeBracket.
    destruct (evaluatingTrials (atStep hb0)) as [| t0 tl] eqn:Et; [contradiction |].
    cbn [length Nat.eqb orb].
    destruct (Z.eqb_spec (shloopitr (atStep hb0)) 0); [contradiction |].
    unfold evalWorkers. step. rewrite Et.
    unfold workerNotCompleted in Hnc. unfold evaluationAnswered in Hall.
    rewrite Et in Hnc, Hall.
    rewrite (evalLoop_answered c _ _ (t0 :: tl) [] s Hnc Hall). reflexivity.
Qed.

(** *** What a bracket maker sends and returns *)

Lemma map_insert {A B} (f : A -> B) (l : list A) (i : nat) (x : A) :
  map f (<[i := x]> l) = <[i := f x]> (map f l).
Proof.
  revert i. induction l as [| a l IH]; intros [| i]; cbn; try reflexivity.
  f_equal. apply IH.
Qed.

Lemma draw_calls {A} (sample : nat -> option A) s out s' :
  draw sample s = (out, s') -> calls s' = calls s.
Proof. unfold draw. destruct (sample _); intros; simplify_eq; reflexivity. Qed.

Lemma draw_bind_calls {A B} (sample : nat -> option A) (k : A -> M B) s out s' :
  (forall a s1 out1 s2, k a s1 = (out1, s2) -> calls s2 = calls s1) ->
  bind (draw sample) k s = (out, s') -> calls s' = calls s.
Proof.
  intros Hk. unfold bind.
  destruct (draw sample s) as [o s1] eqn:E. apply draw_calls in E.
  destruct o; [| finish; congruence ..].
  intros E2. apply Hk in E2. congruence.
Qed.

Lemma masterParameter_calls h r_ hbparam pc s out s' :
  masterParameter h r_ hbparam pc s = (out, s') -> calls s' = calls s.
Proof.
  unfold masterParameter.
  destruct (String.eqb _ _); [finish |].
  destruct (pcParameterType pc); try (finish; fail).
  - unfold deref. destruct (Feasible pc); [| finish]. unfold bind at 1. cbn.
    apply draw_bind_calls. finish.
  - unfold deref. destruct (Feasible pc); [| finish]. unfold bind at 1. cbn.
    apply draw_bind_calls. finish.
  - unfold deref. destruct (Feasible pc); [| finish]. unfold bind at 1. cbn.
    apply draw_bind_calls. intros a s1 out1 s2.
    destruct (_ <? _); [finish |]. destruct (_ !! _); finish.
Qed.

Lemma masterParameterSet_calls h r_ hbparam pcs s out s' :
  masterParameterSet h r_ hbparam pcs s = (out, s') -> calls s' = calls s.
Proof.
  revert s out s'. induction pcs as [| pc rest IH]; intros s out s'; cbn; step.
  - finish.
  - destruct (masterParameter h r_ hbparam pc s) as [o s1] eqn:E.
    apply masterParameter_calls in E.
    destruct o; [| finish; congruence ..].
    destruct (masterParameterSet h r_ hbparam rest s1) as [o2 s2] eqn:E2.
    apply IH in E2.
    destruct o2; finish; congruence.
Qed.

(** One more request in front of an emitted run. *)
Lemma emitted_cons c studyId sent req rep reqs i ts :
  CreateTrial c sent req = Reply rep ->
  ts !! i = Some (Some (mkTrial (ctTrialId rep) studyId (ParameterSet (ctTrial req)))) ->
  emitted c studyId (sent ++ [CallCreateTrial req]) reqs (S i) ts ->
  emitted c studyId sent (req :: reqs) i ts.
Proof.
  intros Hc Hi Hrest [| j] r0 Hj; cbn in Hj.
  - simplify_eq. exists rep. cbn. rewrite app_nil_r, Nat.add_0_r. auto.
  - destruct (Hrest j r0 Hj) as (rep' & Hc' & Hl).
    exists rep'. cbn [take map]. split.
    + rewrite <- Hc'. f_equal. rewrite <- app_assoc. reflexivity.
    + rewrite <- Hl. f_equal. lia.
Qed.

Lemma masterLoop_emits h c studyId r_ hbparam sconf todo :
  forall i tids ts s tids' ts' s',
    masterLoop h c studyId r_ hbparam sconf todo i tids ts s
      = (Returned (Some tids', ts', None), s') ->
    (i + todo <= length ts)%nat ->
    map GetTrialId ts = tids ->
    exists reqs,
      calls s' = calls s ++ map CallCreateTrial reqs /\
      map GetTrialId ts' = tids' /\
      length ts' = length ts /\
      (forall j, (j < i)%nat -> ts' !! j = ts !! j) /\
      emitted c studyId (calls s) reqs i ts'.
Proof.
  induction todo as [| todo IH]; intros i tids ts s tids' ts' s'; cbn; step.
  - intros E _ Hm. simplify_eq. exists []. cbn. rewrite app_nil_r.
    repeat split; auto. intros j req Hj. destruct j; discriminate.
  - destruct sconf as [sc |]; [| finish]. step.
    destruct (ParameterConfigs sc) as [pcs |]; [| finish]. step.
    destruct (masterParameterSet h r_ hbparam pcs s) as [o s1] eqn:Eps.
    pose proof (masterParameterSet_calls _ _ _ _ _ _ _ Eps) as Hc1.
    destruct o as [ps | |]; [| finish ..].
    unfold do_CreateTrial. cbn.
    destruct (CreateTrial c (calls s1) {| ctTrial := mkTrial "" studyId ps |})
      as [rep | e] eqn:Ect; [| finish].
    intros E Hlen Hm.
    apply IH in E; cycle 1.
    { rewrite length_insert. lia. }
    { rewrite map_insert, Hm. reflexivity. }
    destruct E as (reqs & Hcalls & Hids & Hl & Hkeep & Hem).
    cbn in Hcalls, Hem. rewrite length_insert in Hl.
    exists ({| ctTrial := mkTrial "" studyId ps |} :: reqs).
    rewrite Hc1 in *. repeat split; auto.
    + rewrite Hcalls. rewrite <- app_assoc. reflexivity.
    + intros j Hj. rewrite Hkeep by lia. apply list_lookup_insert_ne. lia.
    + eapply emitted_cons; eauto.
      rewrite Hkeep by lia. cbn. apply list_lookup_insert_eq. lia.
Qed.

Lemma childLoop_emits c studyId rtype r_i hbparam child :
  forall i trials tids ts s tids' ts' s',
    childLoop c studyId rtype r_i hbparam child i trials tids ts s
      = (Returned (Some tids', ts', None), s') ->
    map GetTrialId ts = tids ->
    exists reqs,
      calls s' = calls s ++ map CallCreateTrial reqs /\
      map GetTrialId ts' = tids' /\
      length ts' = length ts /\
      (forall j, (j < i)%nat -> ts' !! j = ts !! j) /\
      emitted c studyId (calls s) reqs i ts'.
Proof.
  induction child as [| e rest IH]; intros i trials tids ts s tids' ts' s'; cbn; step.
  - intros E Hm. simplify_eq. exists []. cbn. rewrite app_nil_r.
    repeat split; auto. intros j req Hj. destruct j; discriminate.
  - unfold do_CreateTrial. cbn.
    match goal with
    | |- context [CreateTrial c (calls s) ?req] =>
        set (req0 := req); destruct (CreateTrial c (calls s) req0) as [rep | err] eqn:Ect
    end; [| finish].
    unfold store.
    destruct (Nat.ltb_spec i (length tids)) as [Hi |]; [| finish].
    destruct (Nat.ltb_spec i (length ts)) as [Hi' |]; [| finish].
    intros E Hm.
    apply IH in E; cycle 1.
    { rewrite map_insert, Hm. reflexivity. }
    destruct E as (reqs & Hcalls & Hids & Hl & Hkeep & Hem).
    cbn in Hcalls, Hem. rewrite length_insert in Hl.
    exists (req0 :: reqs). repeat split; auto.
    + rewrite Hcalls. rewrite <- app_assoc. reflexivity.
    + intros j Hj. rewrite Hkeep by lia. apply list_lookup_insert_ne. lia.
    + eapply emitted_cons; eauto.
      rewrite Hkeep by lia. subst req0. cbn. apply list_lookup_insert_eq. lia.
Qed.

Lemma make_ids_of_nil n_i tids (ts : list (option Trial)) :
  make "" n_i = Some tids -> make None n_i = Some ts ->
  map GetTrialId ts = tids /\ length ts = Z.to_nat n_i.
Proof.
  unfold make. destruct (n_i <? 0); [discriminate |].
  intros; simplify_eq. split; [| apply length_replicate].
  induction (Z.to_nat n_i) as [| k IH]; cbn; [reflexivity | f_equal; exact IH].
Qed.

Lemma makeMasterBracket_emits h c studyId n_i r_i hbparam s tids ts s' :
  makeMasterBracket h c studyId n_i r_i hbparam s = (Returned (Some tids, ts, None), s') ->
  exists reqs,
    calls s' = calls s ++ map CallCreateTrial reqs /\
    map GetTrialId ts = tids /\
    emitted c studyId (calls s) reqs 0 ts.
Proof.
  unfold makeMasterBracket. step.
  destruct (GetStudy c (calls s) _) as [gsrep | e]; [| finish].
  destruct (make "" n_i) as [tids0 |] eqn:E1; [| finish].
  destruct (make None n_i) as [ts0 |] eqn:E2; [| finish].
  destruct (make_ids_of_nil _ _ _ E1 E2) as [Hm Hl].
  intros E. apply masterLoop_emits in E; [| lia | exact Hm].
  destruct E as (reqs & ? & ? & ? & ? & ?). exists reqs. auto.
Qed.

Lemma makeChildBracket_emits c parent studyId n_i r_i hbparam s tids ts s' :
  makeChildBracket c parent studyId n_i r_i hbparam s = (Returned (Some tids, ts, None), s') ->
  exists reqs,
    calls s' = calls s ++ map CallCreateTrial reqs /\
    map GetTrialId ts = tids /\
    emitted c studyId (calls s) reqs 0 ts.
Proof.
  unfold makeChildBracket. step.
  destruct (GetStudy c (calls s) _) as [gsrep | e]; [| finish].
  destruct (StudyConfig_ gsrep) as [sconf |]; [| finish]. step.
  destruct (selectChild _ parent n_i) as [child |]; [| finish]. step.
  destruct (GetTrials c (calls s) _) as [gtrep | e]; [| finish].
  destruct (make "" n_i) as [tids0 |] eqn:E1; [| finish].
  destruct (make None n_i) as [ts0 |] eqn:E2; [| finish].
  destruct (make_ids_of_nil _ _ _ E1 E2) as [Hm Hl].
  destruct (ParameterConfigs sconf) as [pcs |]; [| finish]. step.
  intros E. apply childLoop_emits in E; [| exact Hm].
  destruct E as (reqs & ? & ? & ? & ? & ?). exists reqs. auto.
Qed.

Lemma makeBracket_emits h c studyId n_i r_i hbparam s tids ts s' :
  makeBracket h c studyId n_i r_i hbparam s = (Returned (Some tids, ts, None), s') ->
  exists reqs,
    calls s' = calls s ++ map CallCreateTrial reqs /\
    map GetTrialId ts = tids /\
    emitted c studyId (calls s) reqs 0 ts.
Proof.
  unfold makeBracket.
  destruct (_ || _); [apply makeMasterBracket_emits |].
  unfold bind.
  destruct (evalWorkers c studyId hbparam s) as [o s1] eqn:E.
  apply evalWorkers_reads_only in E. subst s1.
  destruct o as [[[e |] [b |]] | |]; try (finish; fail).
  apply makeChildBracket_emits.
Qed.

Lemma heldAfter_creates c paramId reqs :
  forall before rest held0,
    heldAfter c paramId before (map CallCreateTrial reqs ++ rest) held0
    = heldAfter c paramId (before ++ map CallCreateTrial reqs) rest held0.
Proof.
  induction reqs as [| req reqs IH]; intros before rest held0; cbn [map app heldAfter].
  - rewrite app_nil_r. reflexivity.
  - rewrite IH, <- app_assoc. reflexivity.
Qed.

(** C3 (amended). A call of [GetSuggestions] that finds the schedule not
    exhausted (the loaded state has [currentS > 0]) and returns the trials
    [ts] with a nil error has sent its [CreateTrial] requests, the [j]-th of
    which created the [j]-th returned trial, and then, as its last call, one
    [SetSuggestionParameters] request. The parameters of that request are
    the encoding of a state whose [evaluatingTrials] are the ids of [ts],
    one per returned trial and in the order of creation; their only entry
    named evaluatingTrials is those ids joined by commas. If the Manager
    accepts the request, these parameters are what it holds afterwards. *)
Theorem GetSuggestions_persists_emitted h c in_ s spr hb0 ts s' :
  GetSuggestionParameters c (calls s) {| gspParamId := inParamId in_ |} = Reply spr ->
  purseSuggestionParameters c (inStudyId in_) (gspSuggestionParameters spr) s
    = (Returned (Some hb0, None), s) ->
  0 < currentS hb0 ->
  GetSuggestions h (Reply c) in_ s = (Returned ({| replyTrials := ts |}, None), s') ->
  exists hbparam reqs,
    let save := {| sspStudyId := inStudyId in_;
                   SuggestionAlgorithm := inSuggestionAlgorithm in_;
                   sspParamId := inParamId in_;
                   SuggestionParameters := encodeParameters hbparam |} in
    evaluatingTrials hbparam = map GetTrialId ts /\
    length (evaluatingTrials hbparam) = length ts /\
    entriesNamed "evaluatingTrials" (SuggestionParameters save)
      = [ mkSuggestionParameter "evaluatingTrials"
            (strings_Join (map GetTrialId ts) comma) ] /\
    emitted c (inStudyId in_) (calls s) reqs 0 ts /\
    calls s' = calls s ++ map CallCreateTrial reqs ++ [CallSetSuggestionParameters save] /\
    (SetSuggestionParameters c (calls s ++ map CallCreateTrial reqs) save = Reply tt ->
     forall held0,
       heldAfter c (inParamId in_) (calls s)
         (map CallCreateTrial reqs ++ [CallSetSuggestionParameters save]) held0
       = Some (SuggestionParameters save)).
Proof.
  intros Hspr Hpurse Hs. unfold GetSuggestions. step. rewrite Hspr, Hpurse.
  destruct (Z.leb_spec (currentS hb0) 0); [lia |].
  fold (atStep hb0). destruct (getLoopParam (atStep hb0)) as [n_i r_i].
  destruct (makeBracket h c (inStudyId in_) n_i r_i (atStep hb0) s) as [o s1] eqn:Em.
  destruct o as [[[[tids |] ts0] [e |]] | |]; try (finish; fail).
  apply makeBracket_emits in Em. destruct Em as (reqs & Hcalls & Hids & Hem).
  unfold saveSuggestionParameters, do_SetSuggestionParameters. step. cbn.
  set (hb := shLoopParamUpdate (set_evaluatingTrials tids (atStep hb0))).
  assert (Hev : evaluatingTrials hb = tids).
  { unfold hb, shLoopParamUpdate. destruct (_ <? _); reflexivity. }
  destruct (SetSuggestionParameters c (calls s1) _); intros E; simplify_eq;
    (exists hb, reqs; cbv zeta; cbn [calls];
     split; [exact Hev |]; split; [rewrite Hev, length_map; reflexivity |];
     split; [cbn; rewrite Hev; reflexivity |];
     split; [exact Hem |];
     split; [rewrite Hcalls, <- app_assoc; reflexivity |];
     intros Hok held0; rewrite heldAfter_creates; cbn [heldAfter];
     cbn [sspParamId SuggestionParameters]; rewrite String.eqb_refl, Hok; reflexivity).
Qed.

(** *** A child trial keeps its parent's parameters *)

Section Frame.
Variables (rtype : ParameterType) (r_i : float64) (hbparam : HyperBandParameters).

Let overwrite := overwritten rtype r_i hbparam.
Let tracks := tracks rtype r_i hbparam.
Let childParameters := childParameters rtype r_i hbparam.

Lemma rewriteResource_idempotent ps : overwrite (overwrite ps) = overwrite ps.
Proof.
  unfold overwrite, overwritten, rewriteResource. rewrite map_map. apply map_ext. intros p.
  destruct (String.eqb (Name p) (ResourceName hbparam)) eqn:E; cbn; rewrite E; reflexivity.
Qed.

Lemma tracks_refl trials : tracks trials trials.
Proof. induction trials; constructor; auto. Qed.

Lemma findParent_tracks tid trials0 trials :
  tracks trials0 trials ->
  forall i found, findParent tid trials i found = findParent tid trials0 i found.
Proof.
  induction 1 as [| t0 t l0 l [Hid _] _ IH]; intros i found; cbn; [reflexivity |].
  rewrite Hid. apply IH.
Qed.

Lemma tracks_lookup trials0 trials k pt :
  tracks trials0 trials -> trials !! k = Some pt ->
  exists pt0, trials0 !! k = Some pt0 /\ overwrite (ParameterSet pt) = overwrite (ParameterSet pt0).
Proof.
  intros Ht Hk. destruct (Forall2_lookup_r _ _ _ _ _ Ht Hk) as (pt0 & H0 & _ & Hr).
  eauto.
Qed.

Lemma tracks_overwrite trials0 trials k pt :
  tracks trials0 trials -> trials !! k = Some pt ->
  tracks trials0 (<[k := mkTrial (TrialId pt) (StudyId pt) (overwrite (ParameterSet pt))]> trials).
Proof.
  intros Ht Hk. destruct (Forall2_lookup_r _ _ _ _ _ Ht Hk) as (pt0 & H0 & Hid & Hr).
  rewrite <- (list_insert_id trials0 k pt0 H0).
  apply Forall2_insert; [exact Ht |].
  cbn. split; [exact Hid |]. rewrite rewriteResource_idempotent. exact Hr.
Qed.

Lemma childLoop_sends c studyId trials0 child :
  forall i trials tids ts s out s',
    tracks trials0 trials ->
    childLoop c studyId rtype r_i hbparam child i trials tids ts s = (out, s') ->
    exists reqs,
      calls s' = calls s ++ map CallCreateTrial reqs /\
      forall j req, reqs !! j = Some req ->
        exists tid, child !! j = Some tid /\
          ParameterSet (ctTrial req) = childParameters trials0 tid.
Proof.
  induction child as [| e rest IH]; intros i trials tids ts s out s' Ht; cbn; step.
  - intros E. simplify_eq. exists []. cbn. rewrite app_nil_r. split; [reflexivity |].
    intros [| j] req Hj; discriminate.
  - unfold do_CreateTrial. cbn.
    change (rewriteResource rtype r_i hbparam) with overwrite.
    set (ps := match findParent (id e) trials 0 None with
               | Some k => match trials !! k with
                           | Some pt => overwrite (ParameterSet pt)
                           | None => []
                           end
               | None => []
               end).
    set (trials' := match findParent (id e) trials 0 None with
                    | Some k => match trials !! k with
                                | Some pt => <[k := mkTrial (TrialId pt) (StudyId pt) ps]> trials
                                | None => trials
                                end
                    | None => trials
                    end).
    assert (Hps : ps = childParameters trials0 e).
    { unfold ps, childParameters, Statements.childParameters, parentOf.
      fold overwrite.
      rewrite (findParent_tracks _ _ _ Ht).
      destruct (findParent (id e) trials0 0 None) as [k |]; [| reflexivity].
      destruct (lookup k trials) as [pt |] eqn:Ek.
      - destruct (tracks_lookup _ _ _ _ Ht Ek) as (pt0 & -> & Hr). exact Hr.
      - destruct (lookup k trials0) as [pt0 |] eqn:E0; [| reflexivity].
        destruct (Forall2_lookup_l _ _ _ _ _ Ht E0) as (pt & Ek' & _). congruence. }
    assert (Ht' : tracks trials0 trials').
    { unfold trials', ps.
      destruct (findParent (id e) trials 0 None) as [k |]; [| exact Ht].
      destruct (lookup k trials) as [pt |] eqn:Ek; [| exact Ht].
      apply tracks_overwrite; assumption. }
    clearbody ps trials'.
    set (req0 := {| ctTrial := mkTrial "" studyId ps |}).
    assert (Hone : forall s1, calls s1 = calls s ++ [CallCreateTrial req0] ->
               exists reqs,
                 calls s1 = calls s ++ map CallCreateTrial reqs /\
                 forall j req, reqs !! j = Some req ->
                   exists tid, (e :: rest) !! j = Some tid /\
                     ParameterSet (ctTrial req) = childParameters trials0 tid).
    { intros s1 E1. exists [req0]. cbn. split; [exact E1 |].
      intros [| j] req Hj; [| destruct j; discriminate].
      cbn in Hj. simplify_eq. exists e. auto. }
    destruct (CreateTrial c (calls s) req0) as [rep | err];
      [| intros E; simplify_eq; apply Hone; reflexivity].
    destruct (store tids i (ctTrialId rep)) as [tids1 |];
      [| intros E; simplify_eq; apply Hone; reflexivity].
    destruct (store ts i _) as [ts1 |];
      [| intros E; simplify_eq; apply Hone; reflexivity].
    intros E. apply (IH _ _ _ _ _ _ _ Ht') in E.
    destruct E as (reqs & Hcalls & Hreqs). cbn in Hcalls.
    exists (req0 :: reqs). split.
    + rewrite Hcalls, <- app_assoc. reflexivity.
    + intros [| j] req Hj; cbn in Hj.
      * simplify_eq. exists e. auto.
      * apply Hreqs. exact Hj.
Qed.

End Frame.

(** *** The parent and the declared type, as the loops find them *)

Lemma findParent_last tid l :
  forall i found,
    (findParent tid l i found = found /\ forall pt, In pt l -> TrialId pt <> tid) \/
    (exists k pt,
       findParent tid l i found = Some (i + k)%nat /\
       l !! k = Some pt /\ TrialId pt = tid /\
       forall k' pt', (k < k')%nat -> l !! k' = Some pt' -> TrialId pt' <> tid).
Proof.
  induction l as [| pt0 l IH]; intros i found; cbn [findParent].
  - left. split; [reflexivity | intros pt []].
  - destruct (IH (S i) (if String.eqb (TrialId pt0) tid then Some i else found))
      as [[E Hnone] | (k & pt & E & Hk & Hid & Hlast)].
    + destruct (String.eqb_spec (TrialId pt0) tid) as [E0 | E0].
      * right. exists 0%nat, pt0. rewrite E, Nat.add_0_r.
        split; [reflexivity |]. split; [reflexivity |]. split; [exact E0 |].
        intros [| k'] pt' Hlt Hk'; [lia |]. cbn in Hk'.
        apply Hnone. eapply list_elem_of_In, list_elem_of_lookup_2. exact Hk'.
      * left. split; [exact E |]. intros pt [<- | Hin]; [exact E0 | apply Hnone, Hin].
    + right. exists (S k), pt. rewrite E.
      split; [f_equal; lia |]. split; [exact Hk |]. split; [exact Hid |].
      intros [| k'] pt' Hlt Hk'; [lia |]. cbn in Hk'.
      apply (Hlast k'); [lia | exact Hk'].
Qed.

Lemma parentOf_parentIn tid trials :
  match parentOf tid trials with
  | Some pt => parentIn trials tid pt
  | None => forall pt, In pt trials -> TrialId pt <> tid
  end.
Proof.
  unfold parentOf.
  destruct (findParent_last tid trials 0 None) as [[-> Hnone] | (k & pt & -> & Hk & Hid & Hlast)].
  - exact Hnone.
  - cbn. rewrite Hk. exists k. auto.
Qed.

Lemma parentIn_unique trials tid pt pt' :
  parentIn trials tid pt -> parentIn trials tid pt' -> pt = pt'.
Proof.
  intros (k & Hk & Hid & Hlast) (k' & Hk' & Hid' & Hlast').
  destruct (lt_eq_lt_dec k k') as [[Hlt | ->] | Hlt].
  - destruct (Hlast k' pt' Hlt Hk' Hid').
  - congruence.
  - destruct (Hlast' k pt Hlt Hk Hid).
Qed.

Lemma resourceType_last name (l : list ParameterConfig) :
  forall acc,
    let f := fun rtype pc => if String.eqb (pcName pc) name then pcParameterType pc else rtype in
    (fold_left f l acc = acc /\ forall pc, In pc l -> pcName pc <> name) \/
    (exists k pc,
       fold_left f l acc = pcParameterType pc /\
       l !! k = Some pc /\ pcName pc = name /\
       forall k' pc', (k < k')%nat -> l !! k' = Some pc' -> pcName pc' <> name).
Proof.
  cbv zeta. induction l as [| pc0 l IH]; intros acc; cbn [fold_left].
  - left. split; [reflexivity | intros pc []].
  - destruct (IH (if String.eqb (pcName pc0) name then pcParameterType pc0 else acc))
      as [[E Hnone] | (k & pc & E & Hk & Hn & Hlast)].
    + destruct (String.eqb_spec (pcName pc0) name) as [E0 | E0].
      * right. exists 0%nat, pc0. split; [exact E |]. split; [reflexivity |].
        split; [exact E0 |].
        intros [| k'] pc' Hlt Hk'; [lia |]. cbn in Hk'.
        apply Hnone. eapply list_elem_of_In, list_elem_of_lookup_2. exact Hk'.
      * left. split; [exact E |]. intros pc [<- | Hin]; [exact E0 | apply Hnone, Hin].
    + right. exists (S k), pc. split; [exact E |]. split; [exact Hk |].
      split; [exact Hn |].
      intros [| k'] pc' Hlt Hk'; [lia |]. cbn in Hk'.
      apply (Hlast k'); [lia | exact Hk'].
Qed.

Lemma resourceType_declaredInt hbparam pcs :
  resourceType hbparam pcs = ParameterType_INT <-> declaredInt pcs (ResourceName hbparam).
Proof.
  unfold resourceType.
  destruct (resourceType_last (ResourceName hbparam) pcs ParameterType_UNKNOWN_TYPE)
    as [[E Hnone] | (k & pc & E & Hk & Hn & Hlast)]; cbv zeta in E; rewrite E.
  - split; [discriminate |]. intros (k & pc & Hk & Hn & _).
    destruct (Hnone pc); [| exact Hn].
    eapply list_elem_of_In, list_elem_of_lookup_2. exact Hk.
  - split.
    + intros Hint. exists k, pc. auto.
    + intros (k' & pc' & Hk' & Hn' & Hint & Hlast').
      destruct (lt_eq_lt_dec k k') as [[Hlt | ->] | Hlt].
      * destruct (Hlast k' pc' Hlt Hk' Hn').
      * congruence.
      * destruct (Hlast' k pc Hlt Hk Hn).
Qed.

Lemma keepsParent_overwritten pcs r_i hbparam pt :
  keepsParent pcs r_i hbparam pt
    (overwritten (resourceType hbparam pcs) r_i hbparam (ParameterSet pt)).
Proof.
  unfold keepsParent, overwritten, rewriteResource. split; [apply length_map |].
  intros k p Hk.
  eexists. split.
  { change (@map Parameter_ Parameter_) with (@fmap list _ Parameter_ Parameter_).
    rewrite list_lookup_fmap, Hk. reflexivity. }
  destruct (String.eqb_spec (Name p) (ResourceName hbparam)) as [En | En]; cbn.
  - split; [reflexivity |]. split; [reflexivity |].
    split; [intros Hne; contradiction |]. intros _.
    unfold resourceValue.
    destruct (decide (resourceType hbparam pcs = ParameterType_INT)) as [Hint | Hint].
    + split; [reflexivity |]. intros Hno. destruct Hno.
      apply resourceType_declaredInt. exact Hint.
    + split; [| reflexivity]. intros Hyes. destruct Hint.
      apply resourceType_declaredInt. exact Hyes.
  - split; [reflexivity |]. split; [reflexivity |].
    split; [intros _; reflexivity |]. intros Heq. contradiction.
Qed.

(** C7. Every trial that [makeChildBracket] creates belongs to a survivor:
    the [j]-th request is made for the [j]-th survivor. If the Manager
    lists a trial with the survivor's id (its parent), the request carries
    the parent's parameters one for one, with the same name and type; a
    parameter whose name differs from the resource name keeps the parent's
    value, and the resource parameter has the value [r_i], written as an
    integer when the study declares the resource parameter INT and in fixed
    four-decimal form otherwise. If the Manager lists no trial with the
    survivor's id, the request carries no parameter. *)
Theorem makeChildBracket_keeps_parent_parameters
    c parent studyId n_i r_i hbparam s sconf pcs gtrep child out s' :
  GetStudy c (calls s) {| gsStudyId := studyId |} = Reply {| StudyConfig_ := Some sconf |} ->
  ParameterConfigs sconf = Some pcs ->
  GetTrials c (calls s) {| gtStudyId := studyId |} = Reply gtrep ->
  selectChild (OptimizationType_ sconf) parent n_i = Some child ->
  makeChildBracket c parent studyId n_i r_i hbparam s = (out, s') ->
  exists reqs,
    calls s' = calls s ++ map CallCreateTrial reqs /\
    forall j req, reqs !! j = Some req ->
      exists tid, child !! j = Some tid /\
        (forall pt, parentIn (Trials gtrep) (id tid) pt ->
           keepsParent pcs r_i hbparam pt (ParameterSet (ctTrial req))) /\
        ((forall pt, In pt (Trials gtrep) -> TrialId pt <> id tid) ->
           ParameterSet (ctTrial req) = []).
Proof.
  intros Hgs Hpcs Hgt Hch. unfold makeChildBracket. step.
  rewrite Hgs. cbn. rewrite Hch. step. rewrite Hgt.
  assert (Hnone : forall o, (o, s) = (out, s') ->
            exists reqs,
              calls s' = calls s ++ map CallCreateTrial reqs /\
              forall j req, reqs !! j = Some req ->
                exists tid, child !! j = Some tid /\
                  (forall pt, parentIn (Trials gtrep) (id tid) pt ->
                     keepsParent pcs r_i hbparam pt (ParameterSet (ctTrial req))) /\
                  ((forall pt, In pt (Trials gtrep) -> TrialId pt <> id tid) ->
                     ParameterSet (ctTrial req) = [])).
  { intros o E. simplify_eq. exists []. cbn. rewrite app_nil_r. split; [reflexivity |].
    intros [| j] req Hj; discriminate. }
  destruct (make "" n_i) as [tids0 |]; [| apply Hnone].
  destruct (make None n_i) as [ts0 |]; [| apply Hnone].
  rewrite Hpcs. step.
  intros E.
  apply (childLoop_sends _ _ _ _ _ (Trials gtrep)) in E; [| apply tracks_refl].
  destruct E as (reqs & Hcalls & Hreqs). exists reqs. split; [exact Hcalls |].
  intros j req Hj. destruct (Hreqs j req Hj) as (tid & Hc & Hps).
  exists tid. split; [exact Hc |]. rewrite Hps. unfold childParameters.
  pose proof (parentOf_parentIn (id tid) (Trials gtrep)) as Hparent.
  destruct (parentOf (id tid) (Trials gtrep)) as [pt0 |].
  - split.
    + intros pt Hpt. rewrite (parentIn_unique _ _ _ _ Hpt Hparent).
      apply keepsParent_overwritten.
    + intros Hno. destruct Hparent as (k & Hk & Hid & _).
      destruct (Hno pt0); [| exact Hid].
      eapply list_elem_of_In, list_elem_of_lookup_2. exact Hk.
  - split; [| reflexivity].
    intros pt (k & Hk & Hid & _). destruct (Hparent pt); [| exact Hid].
    eapply list_elem_of_In, list_elem_of_lookup_2. exact Hk.
Qed.

End Facts.
End SuggestionFacts.

(** * The text forms of integers and lists round-trip *)

Module GoRtFacts.

Lemma digit_roundtrip d :
  0 <= d < 10 -> is_digit (digit_of_Z d) = true /\ Z_of_digit (digit_of_Z d) = d.
Proof.
  intros Hd.
  assert (Hc : d = 0 \/ d = 1 \/ d = 2 \/ d = 3 \/ d = 4 \/
               d = 5 \/ d = 6 \/ d = 7 \/ d = 8 \/ d = 9) by lia.
  repeat (destruct Hc as [-> | Hc]; [split; reflexivity |]).
  subst d. split; reflexivity.
Qed.

Lemma reads_nil : reads "" 0 0.
Proof. split; [lia |]. intros a. cbn. f_equal. lia. Qed.

Lemma reads_cons d s k v :
  0 <= d < 10 -> reads s k v -> reads (String (digit_of_Z d) s) (k + 1) (d * 10 ^ k + v).
Proof.
  intros Hd [Hk Hs]. split; [lia |]. intros a. cbn.
  destruct (digit_roundtrip d Hd) as [-> ->].
  rewrite Hs. f_equal. rewrite Z.pow_add_r by lia. lia.
Qed.

Lemma utoa_aux_reads fuel :
  forall n acc k v, 0 <= n < 10 ^ Z.of_nat (S fuel) -> reads acc k v ->
    exists k', reads (utoa_aux (S fuel) n acc) k' (n * 10 ^ k + v).
Proof.
  induction fuel as [| fuel IH]; intros n acc k v Hn Hacc;
    pose proof (Z.mod_pos_bound n 10 ltac:(lia)) as Hm.
  - change (10 ^ Z.of_nat 1) with 10 in Hn.
    cbn [utoa_aux]. rewrite Z.mod_small by lia.
    exists (k + 1). destruct (n <? 10); apply reads_cons; auto.
  - cbn [utoa_aux]. cbn [utoa_aux] in IH.
    destruct (Z.ltb_spec n 10).
    + exists (k + 1). rewrite Z.mod_small by lia. apply reads_cons; [lia | exact Hacc].
    + assert (Hq : 0 <= n / 10 < 10 ^ Z.of_nat (S fuel)).
      { split; [apply Z.div_pos; lia |].
        apply Z.div_lt_upper_bound; [lia |].
        replace (10 * 10 ^ Z.of_nat (S fuel)) with (10 ^ Z.of_nat (S (S fuel))); [lia |].
        rewrite (Nat2Z.inj_succ (S fuel)), Z.pow_succ_r by lia. reflexivity. }
      destruct (IH (n / 10) _ _ _ Hq (reads_cons _ _ _ _ Hm Hacc)) as [k' Hr].
      exists k'. destruct Hacc as [Hk _].
      replace (n * 10 ^ k + v) with (n / 10 * 10 ^ (k + 1) + (n mod 10 * 10 ^ k + v));
        [exact Hr |].
      rewrite Z.pow_add_r by lia. rewrite (Z.div_mod n 10) at 3 by lia. ring.
Qed.

Lemma utoa_reads n : 0 <= n -> atou (utoa n) 0 = Some n.
Proof.
  intros Hn. unfold utoa.
  destruct (utoa_aux_reads (Z.to_nat (Z.log2 n)) n "" 0 0) as [k' [_ Hr]].
  - split; [exact Hn |].
    rewrite Nat2Z.inj_succ, Z2Nat.id by apply Z.log2_nonneg.
    destruct (Z.eq_dec n 0) as [-> | Hne]; [cbn; lia |].
    pose proof (Z.log2_spec n ltac:(lia)) as [_ Hlt].
    eapply Z.lt_le_trans; [exact Hlt |].
    apply Z.pow_le_mono_l. pose proof (Z.log2_nonneg n). lia.
  - apply reads_nil.
  - rewrite Hr. f_equal. lia.
Qed.

Lemma utoa_aux_head fuel :
  forall n acc, starts_digit acc -> starts_digit (utoa_aux fuel n acc).
Proof.
  induction fuel as [| fuel IH]; intros n acc Hacc; cbn [utoa_aux]; [exact Hacc |].
  assert (Hd : starts_digit (String (digit_of_Z (n mod 10)) acc)).
  { cbn. apply digit_roundtrip. apply Z.mod_pos_bound. lia. }
  destruct (n <? 10); [exact Hd | apply IH; exact Hd].
Qed.

Lemma utoa_head n : starts_digit (utoa n).
Proof.
  unfold utoa. cbn [utoa_aux].
  assert (Hd : starts_digit (String (digit_of_Z (n mod 10)) "")).
  { cbn. apply digit_roundtrip. apply Z.mod_pos_bound. lia. }
  destruct (n <? 10); [exact Hd | apply utoa_aux_head; exact Hd].
Qed.

Lemma digit_not_sign c :
  is_digit c = true -> Ascii.eqb c "-" = false /\ Ascii.eqb c "+" = false.
Proof.
  intros Hd. split; apply Ascii.eqb_neq; intros ->; discriminate Hd.
Qed.

(** [strconv.Atoi] reads back what [strconv.Itoa] writes, for every int. *)
Lemma Atoi_Itoa i : inInt64 i -> strconv_Atoi (strconv_Itoa i) = (i, None).
Proof.
  unfold inInt64, strconv_Itoa, strconv_Atoi. intros Hi.
  destruct (Z.ltb_spec i 0) as [Hneg | Hpos].
  - rewrite Ascii.eqb_refl.
    pose proof (utoa_head (- i)) as Hh. pose proof (utoa_reads (- i) ltac:(lia)) as Hr.
    destruct (utoa (- i)) as [| c rest]; [destruct Hh |].
    rewrite Hr. cbv beta iota zeta. replace (- - i) with i by lia.
    destruct (Z.ltb_spec i minInt64); [lia |].
    destruct (Z.ltb_spec maxInt64 i); [lia | reflexivity].
  - pose proof (utoa_head i) as Hh. pose proof (utoa_reads i Hpos) as Hr.
    destruct (utoa i) as [| c rest]; [destruct Hh |].
    cbn in Hh. destruct (digit_not_sign c Hh) as [-> ->].
    rewrite Hr. cbv beta iota zeta.
    destruct (Z.ltb_spec i minInt64); [lia |].
    destruct (Z.ltb_spec maxInt64 i); [lia | reflexivity].
Qed.

Lemma Split_free sep e : free_of sep e = true -> strings_Split e sep = [e].
Proof.
  induction e as [| c e IH]; cbn; [reflexivity |].
  intros Hf. apply andb_prop in Hf as [Hc He].
  apply negb_true_iff in Hc. rewrite Hc, (IH He). reflexivity.
Qed.

Lemma Split_append sep e rest :
  free_of sep e = true ->
  strings_Split (e +:+ String sep rest) sep = e :: strings_Split rest sep.
Proof.
  induction e as [| c e IH].
  - intros _. change ("" +:+ String sep rest) with (String sep rest).
    cbn [strings_Split]. rewrite Ascii.eqb_refl. reflexivity.
  - intros Hf. cbn [free_of] in Hf. apply andb_prop in Hf as [Hc He].
    apply negb_true_iff in Hc.
    change (String c e +:+ String sep rest) with (String c (e +:+ String sep rest)).
    cbn [strings_Split]. rewrite Hc, (IH He). reflexivity.
Qed.

(** [strings.Split] undoes [strings.Join] on a non-empty list of pieces
    free of the separator. *)
Lemma Split_Join sep (l : list string) :
  l <> [] -> Forall (fun e => free_of sep e = true) l ->
  strings_Split (strings_Join l sep) sep = l.
Proof.
  induction l as [| e l IH]; [congruence |].
  intros _ Hall. inversion Hall as [| ? ? He Hl]; subst.
  destruct l as [| e2 l]; [apply Split_free; exact He |].
  cbn [strings_Join]. rewrite (Split_append sep e _ He).
  f_equal. apply IH; [discriminate | exact Hl].
Qed.

(** The empty list is written as the empty string, which reads back as one
    empty piece. *)
Lemma Split_Join_nil sep : strings_Split (strings_Join [] sep) sep = [""].
Proof. reflexivity. Qed.

End GoRtFacts.

(** * The parameter codec *)

Module CodecFacts.
Import api Suggestion Statements GoRtFacts.

Section Codec.
Context `{Platform}.

(** The [switch] of the loop, case by case. *)
Lemma purseOne_eta p v :
  purseOne p (mkSuggestionParameter "eta" v) = set_eta (fst (strconv_ParseFloat v)) p.
Proof. reflexivity. Qed.
Lemma purseOne_sMax p v :
  purseOne p (mkSuggestionParameter "sMax" v) = set_sMax (fst (strconv_Atoi v)) p.
Proof. reflexivity. Qed.
Lemma purseOne_b_l p v :
  purseOne p (mkSuggestionParameter "b_l" v) = set_b_l (fst (strconv_ParseFloat v)) p.
Proof. reflexivity. Qed.
Lemma purseOne_r_l p v :
  purseOne p (mkSuggestionParameter "r_l" v) = set_r_l (fst (strconv_ParseFloat v)) p.
Proof. reflexivity. Qed.
Lemma purseOne_r p v :
  purseOne p (mkSuggestionParameter "r" v) = set_r (fst (strconv_ParseFloat v)) p.
Proof. reflexivity. Qed.
Lemma purseOne_shloopitr p v :
  purseOne p (mkSuggestionParameter "shloopitr" v) = set_shloopitr (fst (strconv_Atoi v)) p.
Proof. reflexivity. Qed.
Lemma purseOne_n p v :
  purseOne p (mkSuggestionParameter "n" v) = set_n (fst (strconv_Atoi v)) p.
Proof. reflexivity. Qed.
Lemma purseOne_currentS p v :
  purseOne p (mkSuggestionParameter "currentS" v) = set_currentS (fst (strconv_Atoi v)) p.
Proof. reflexivity. Qed.
Lemma purseOne_ResourceName p v :
  purseOne p (mkSuggestionParameter "ResourceName" v) = set_ResourceName v p.
Proof. reflexivity. Qed.
Lemma purseOne_evaluatingTrials p v :
  purseOne p (mkSuggestionParameter "evaluatingTrials" v)
    = set_evaluatingTrials (strings_Split v comma) p.
Proof. reflexivity. Qed.

(** The loop of [purseSuggestionParameters] over an encoded state. *)
Lemma purseLoop_encode hbparam :
  stable (eta hbparam) -> stable (b_l hbparam) ->
  stable (r_l hbparam) -> stable (r hbparam) ->
  inInt64 (sMax hbparam) -> inInt64 (n hbparam) ->
  inInt64 (shloopitr hbparam) -> inInt64 (currentS hbparam) ->
  evaluatingTrials hbparam <> [] ->
  Forall (fun tid => free_of comma tid = true) (evaluatingTrials hbparam) ->
  fold_left purseOne (encodeParameters hbparam) unsetParameters
    = set_ObjectiveValueName "" hbparam.
Proof.
  intros He Hb Hrl Hr HsMax Hn Hit Hcur Hne Hfree.
  unfold encodeParameters. cbn [fold_left].
  rewrite purseOne_eta, purseOne_sMax, purseOne_b_l, purseOne_r_l, purseOne_r,
    purseOne_shloopitr, purseOne_n, purseOne_currentS, purseOne_ResourceName,
    purseOne_evaluatingTrials.
  unfold stable in *.
  rewrite He, Hb, Hrl, Hr.
  rewrite !Atoi_Itoa by assumption. cbn [fst].
  rewrite Split_Join by assumption.
  reflexivity.
Qed.

(** C4 (amended). For a state whose float fields are given back by their
    four-decimal text form, whose integer fields are ints and whose
    [evaluatingTrials] is a non-empty list of ids free of commas, the loop of
    [purseSuggestionParameters] over the encoded list rebuilds the state
    except for [ObjectiveValueName], which is not encoded; decoding therefore
    yields what the check and the default derivation make of that state. *)
Theorem purse_encode_roundtrip c studyId hbparam :
  stable (eta hbparam) -> stable (b_l hbparam) ->
  stable (r_l hbparam) -> stable (r hbparam) ->
  inInt64 (sMax hbparam) -> inInt64 (n hbparam) ->
  inInt64 (shloopitr hbparam) -> inInt64 (currentS hbparam) ->
  evaluatingTrials hbparam <> [] ->
  Forall (fun tid => free_of comma tid = true) (evaluatingTrials hbparam) ->
  fold_left purseOne (encodeParameters hbparam) unsetParameters
    = set_ObjectiveValueName "" hbparam /\
  purseSuggestionParameters c studyId (encodeParameters hbparam)
    = completeParameters c studyId (set_ObjectiveValueName "" hbparam).
Proof.
  intros He Hb Hrl Hr HsMax Hn Hit Hcur Hne Hfree.
  pose proof (purseLoop_encode hbparam He Hb Hrl Hr HsMax Hn Hit Hcur Hne Hfree) as Hloop.
  split; [exact Hloop |].
  unfold purseSuggestionParameters. rewrite Hloop. reflexivity.
Qed.

(** No default is derived for a state that holds no unset mark. *)
Lemma deriveDefaults_settled p :
  sMax p <> -1 -> n p <> -1 -> shloopitr p <> -1 -> currentS p <> -1 ->
  feq (b_l p) (float64_of_int (-1)) = false ->
  feq (r p) (float64_of_int (-1)) = false ->
  deriveDefaults p = p.
Proof.
  intros N1 N2 N3 N4 Fb Fr. unfold deriveDefaults.
  assert (E1 : default_sMax p = p).
  { unfold default_sMax. destruct (Z.eqb_spec (sMax p) (-1)); [contradiction | reflexivity]. }
  rewrite E1.
  assert (E2 : default_b_l p = p) by (unfold default_b_l; rewrite Fb; reflexivity).
  rewrite E2.
  assert (E3 : default_n p = p).
  { unfold default_n. destruct (Z.eqb_spec (n p) (-1)); [contradiction | reflexivity]. }
  rewrite E3.
  assert (E4 : default_currentS p = p).
  { unfold default_currentS. destruct (Z.eqb_spec (currentS p) (-1)); [contradiction | reflexivity]. }
  rewrite E4.
  assert (E5 : default_shloopitr p = p).
  { unfold default_shloopitr.
    destruct (Z.eqb_spec (shloopitr p) (-1)); [contradiction | reflexivity]. }
  rewrite E5.
  unfold default_r. rewrite Fr. reflexivity.
Qed.

(** A settled state (no field holds the unset mark, the two required fields
    are set) comes back whole, under the objective name of the study. *)
Corollary purse_encode_settled c studyId hbparam s sconf :
  stable (eta hbparam) -> stable (b_l hbparam) ->
  stable (r_l hbparam) -> stable (r hbparam) ->
  inInt64 (sMax hbparam) -> inInt64 (n hbparam) ->
  inInt64 (shloopitr hbparam) -> inInt64 (currentS hbparam) ->
  evaluatingTrials hbparam <> [] ->
  Forall (fun tid => free_of comma tid = true) (evaluatingTrials hbparam) ->
  fle (r_l hbparam) (float64_of_int 0) = false ->
  String.eqb (ResourceName hbparam) "" = false ->
  fle (eta hbparam) (float64_of_int 0) = false ->
  sMax hbparam <> -1 -> n hbparam <> -1 ->
  shloopitr hbparam <> -1 -> currentS hbparam <> -1 ->
  feq (b_l hbparam) (float64_of_int (-1)) = false ->
  feq (r hbparam) (float64_of_int (-1)) = false ->
  GetStudy c (calls s) {| gsStudyId := studyId |} = Reply {| StudyConfig_ := Some sconf |} ->
  purseSuggestionParameters c studyId (encodeParameters hbparam) s
    = (Returned (Some (set_ObjectiveValueName (api.ObjectiveValueName sconf) hbparam), None), s).
Proof.
  intros He Hb Hrl Hr HsMax Hn Hit Hcur Hne Hfree Hrl0 Hres He0 N1 N2 N3 N4 Fb Fr Hgs.
  unfold purseSuggestionParameters. rewrite purseLoop_encode by assumption.
  unfold completeParameters.
  change (r_l (set_ObjectiveValueName "" hbparam)) with (r_l hbparam).
  change (eta (set_ObjectiveValueName "" hbparam)) with (eta hbparam).
  change (ResourceName (set_ObjectiveValueName "" hbparam)) with (ResourceName hbparam).
  rewrite Hrl0, Hres, He0. cbn [orb].
  change (ObjectiveValueName (set_ObjectiveValueName "" hbparam)) with "".
  cbn [String.eqb].
  unfold bind, ask, deref, ret. cbv beta. rewrite Hgs. cbn [StudyConfig_].
  change (set_ObjectiveValueName (api.ObjectiveValueName sconf)
            (set_ObjectiveValueName "" hbparam))
    with (set_ObjectiveValueName (api.ObjectiveValueName sconf) hbparam).
  rewrite deriveDefaults_settled by assumption.
  reflexivity.
Qed.

End Codec.
End CodecFacts.

(** * Properties of the Kubernetes worker interface *)

Module KubernetesFacts.
Import api Kubernetes Statements.

Section Facts.
Context `{Resource}.

(** C8. The manifest [genJobManifest] returns (the one [SpawnWorker]
    submits) has a single container whose limits hold, under "cpu", the
    quantity parsed from the decimal text of [Cpu] and, under "memory", the
    quantity parsed from [Memory]; under "nvidia.com/gpu" they hold the
    quantity parsed from the decimal text of [Gpu] when [Gpu > 0] and nothing
    otherwise. *)
Theorem genJobManifest_resource_limits d wid conf job s :
  genJobManifest wid (Some conf) = Returned (Some job, None) ->
  snd (SpawnWorker d wid (Some conf) s) = s ++ [CallJobsCreate job] /\
  exists c0 cpuReq memoryReq,
    Containers (Spec job) = [c0] /\
    ParseQuantity (strconv_Itoa (Cpu conf)) = inl cpuReq /\
    ParseQuantity (Memory conf) = inl memoryReq /\
    Limits c0 !! "cpu" = Some cpuReq /\
    Limits c0 !! "memory" = Some memoryReq /\
    (0 < Gpu conf ->
       exists gpuReq, ParseQuantity (strconv_Itoa (Gpu conf)) = inl gpuReq /\
                      Limits c0 !! gpuKey = Some gpuReq) /\
    (Gpu conf <= 0 -> Limits c0 !! gpuKey = None).
Proof.
  intros Hgen. split.
  { unfold SpawnWorker. rewrite Hgen. unfold bind, act, ret. cbn.
    destruct (JobsCreate _ _ _); reflexivity. }
  revert Hgen. unfold genJobManifest.
  destruct (if (0 <? length (Tolerations conf))%nat then _ else _) as [tolerations |];
    [| discriminate].
  destruct (Mount conf) as [m |];
    [destruct (negb (String.eqb (Pvc m) "") && negb (String.eqb (Path m) "")) |];
    (destruct (ParseQuantity (strconv_Itoa (Cpu conf))) as [cpuReq | e]; [| discriminate];
     destruct (ParseQuantity (Memory conf)) as [memoryReq | e]; [| discriminate];
     destruct (Z.ltb_spec 0 (Gpu conf)) as [Hg | Hg];
     [ destruct (ParseQuantity (strconv_Itoa (Gpu conf))) as [gpuReq | e]; [| discriminate] |];
     intros Hgen; inversion Hgen; subst; clear Hgen; cbn;
     eexists _, cpuReq, memoryReq; (split; [reflexivity |]);
     repeat split; cbn; unfold gpuKey;
       try (by simplify_map_eq); try (intros; lia);
       try (intros _; eexists; split; [reflexivity | by simplify_map_eq])).
Qed.

End Facts.
End KubernetesFacts.

(** * Concrete runs

    A small study on the binary64 platform: an INT resource parameter
    "epochs" and a DOUBLE parameter "lr"; the Manager is a table of answers
    and names the trials it creates new-0, new-1, ... *)

Module Scenario.
Import api Suggestion Statements SuggestionFacts CodecFacts GoRtFacts Binary64 Fixtures.

Example evalWorkers_ranks :
  evalWorkers (manager (completedStudy OptimizationType_MINIMIZE)) "study"
    (loaded ["t1"; "t2"; "t3"]) start
  = (Returned (None, Some ranked), start).
Proof. vm_compute. reflexivity. Qed.

(** Minimizing, [parent[n:]] drops the first [n] entries: it keeps
    [len(parent) - n] survivors, not [n]. *)
Lemma selectChild_minimize (parent : Bracket) (n_i : Z) :
  0 <= n_i <= Z.of_nat (length (elems parent)) ->
  selectChild OptimizationType_MINIMIZE parent n_i = Some (drop (Z.to_nat n_i) (elems parent)) /\
  length (drop (Z.to_nat n_i) (elems parent)) = (length (elems parent) - Z.to_nat n_i)%nat.
Proof.
  intros Hn. unfold selectChild, slice_from. cbn.
  destruct (Z.ltb_spec n_i 0); [lia |].
  destruct (Z.ltb_spec (Z.of_nat (length (elems parent))) n_i); [lia |].
  split; [reflexivity | apply length_drop].
Qed.

(** C1 (the code at a failing input). Three completed trials ranked t1, t2,
    t3 by descending score, a minimizing study and one survivor to promote
    ([n_i = 1]): the survivors the code selects are t2 and t3, not the single
    last entry t3; it asks the Manager to create a trial for each of the two
    and then panics on [tids[1]], returning nothing. *)
Theorem minimize_promotes_all_but_first_n :
  getLoopParam (loaded ["t1"; "t2"; "t3"]) = (1, 3%float) /\
  selectChild OptimizationType_MINIMIZE ranked 1
    = Some [ mkEvals "t2" (fst (ParseFloat "0.2")); mkEvals "t3" (fst (ParseFloat "0.1")) ] /\
  GetSuggestions sampler (Reply (manager (completedStudy OptimizationType_MINIMIZE)))
    request start
  = (Panicked "index out of range",
     mkSent [ CallCreateTrial (promote "0.2000"); CallCreateTrial (promote "0.3000") ] 0).
Proof. split; [| split]; vm_compute; reflexivity. Qed.

(** **** Metrics that are missing or do not parse *)

(** C5 (the code at failing inputs). A completed worker whose objective
    series is empty, or whose reply carries no series at all, makes
    [evalWorkers] panic on the index expression, and [GetSuggestions] with
    it; a last value that is not a number does contribute [0]. *)
Theorem evalWorkers_panics_on_missing_metrics :
  evalWorkers (manager (reporting (accuracy []))) "study" (loaded ["t1"]) start
    = (Panicked "index out of range [-1]", start) /\
  evalWorkers (manager (reporting [])) "study" (loaded ["t1"]) start
    = (Panicked "index out of range [0] with length 0", start) /\
  GetSuggestions sampler (Reply (manager (reporting (accuracy [])))) request start
    = (Panicked "index out of range [-1]", start) /\
  evalWorkers (manager (reporting (accuracy ["0.5"; "n/a"]))) "study" (loaded ["t1"]) start
    = (Returned (None, Some (mkSlice [ mkEvals "t1" 0%float ] 1)), start).
Proof. split; [| split; [| split]]; vm_compute; reflexivity. Qed.

(** **** Workers that are not completed *)

Lemma stillRunning_not_completed first :
  workerNotCompleted (manager (stillRunning first)) [] "study" (atStep (loaded ["t1"; "t2"])).
Proof.
  exists "t2", {| Workers := [ mkWorker "w-t2" "study" "t2" State_RUNNING ] |},
    {| MetricsLogSets := [ mkMetricsLogSet "w-t2" (accuracy []) State_RUNNING ] |},
    (mkMetricsLogSet "w-t2" (accuracy []) State_RUNNING).
  split; [right; left; reflexivity |].
  split; [reflexivity |]. split; [reflexivity |].
  split; [left; reflexivity | discriminate].
Qed.

(** C2 (as stated) fails: the step has to evaluate, the worker of t2 is
    RUNNING, and the Manager does not answer the worker request for t1.
    [GetSuggestions] returns the Manager's error, not FAILED_PRECONDITION. *)
Lemma not_completed_but_remote_error :
  let c := manager (stillRunning (Failed (RemoteError "unavailable"))) in
  let hbparam := atStep (loaded ["t1"; "t2"]) in
  evaluatingTrials hbparam <> [] /\
  shloopitr hbparam <> 0 /\
  workerNotCompleted c [] "study" hbparam /\
  GetSuggestions sampler (Reply c) request start
    = (Returned ({| replyTrials := [] |}, Some (RemoteError "unavailable")), start) /\
  RemoteError "unavailable" <> FailedPrecondition.
Proof.
  cbv zeta. split; [vm_compute; discriminate |].
  split; [vm_compute; discriminate |].
  split; [apply stillRunning_not_completed |].
  split; [vm_compute; reflexivity | discriminate].
Qed.

Lemma GetSuggestions_workers_not_completed_witness :
  let c := manager (stillRunning (oneWorker State_COMPLETED "t1")) in
  snd (GetSuggestions sampler (Reply c) request start) = start /\
  (evaluationAnswered c [] "study" (atStep (loaded ["t1"; "t2"])) ->
   GetSuggestions sampler (Reply c) request start
     = (Returned ({| replyTrials := [] |}, Some FailedPrecondition), start)).
Proof.
  cbv zeta.
  apply (GetSuggestions_workers_not_completed sampler
           (manager (stillRunning (oneWorker State_COMPLETED "t1"))) request start
           {| gspSuggestionParameters := afterMaster "t1,t2" |} (loaded ["t1"; "t2"])).
  - reflexivity.
  - vm_compute. reflexivity.
  - vm_compute. reflexivity.
  - vm_compute. discriminate.
  - vm_compute. discriminate.
  - apply stillRunning_not_completed.
Defined.

Example stillRunning_answered :
  evaluationAnswered (manager (stillRunning (oneWorker State_COMPLETED "t1"))) []
    "study" (atStep (loaded ["t1"; "t2"])).
Proof.
  intros tid [<- | [<- | []]].
  - exists {| Workers := [ mkWorker "w-t1" "study" "t1" State_COMPLETED ] |},
      {| MetricsLogSets := [ mkMetricsLogSet "w-t1" (accuracy ["0.3"]) State_COMPLETED ] |}.
    split; [reflexivity |]. split; [reflexivity |].
    intros ml [<- | []] _. exists (mkMetricsLog "accuracy" ["0.3"]), [], "0.3".
    split; reflexivity.
  - exists {| Workers := [ mkWorker "w-t2" "study" "t2" State_RUNNING ] |},
      {| MetricsLogSets := [ mkMetricsLogSet "w-t2" (accuracy []) State_RUNNING ] |}.
    split; [reflexivity |]. split; [reflexivity |].
    intros ml [<- | []] Hst. discriminate Hst.
Qed.

(** **** A promotion, and the call after the last round *)

Example GetSuggestions_promotes :
  GetSuggestions sampler (Reply (manager (completedStudy OptimizationType_MAXIMIZE)))
    request start
  = (Returned ({| replyTrials := promoted |}, None), afterPromotion).
Proof. vm_compute. reflexivity. Qed.

Example GetSuggestions_fresh :
  GetSuggestions sampler (Reply (manager fresh)) request start
  = (Returned ({| replyTrials := firstRound |}, None), afterFresh).
Proof. vm_compute. reflexivity. Qed.

Lemma GetSuggestions_persists_emitted_witness :
  exists hbparam reqs,
    let save := {| sspStudyId := inStudyId request;
                   SuggestionAlgorithm := inSuggestionAlgorithm request;
                   sspParamId := inParamId request;
                   SuggestionParameters := encodeParameters hbparam |} in
    evaluatingTrials hbparam = map GetTrialId firstRound /\
    length (evaluatingTrials hbparam) = length firstRound /\
    entriesNamed "evaluatingTrials" (SuggestionParameters save)
      = [ mkSuggestionParameter "evaluatingTrials"
            (strings_Join (map GetTrialId firstRound) comma) ] /\
    emitted (manager fresh) (inStudyId request) (calls start) reqs 0 firstRound /\
    calls afterFresh
      = calls start ++ map CallCreateTrial reqs ++ [CallSetSuggestionParameters save] /\
    (SetSuggestionParameters (manager fresh) (calls start ++ map CallCreateTrial reqs) save
       = Reply tt ->
     forall held0,
       heldAfter (manager fresh) (inParamId request) (calls start)
         (map CallCreateTrial reqs ++ [CallSetSuggestionParameters save]) held0
       = Some (SuggestionParameters save)).
Proof.
  apply (GetSuggestions_persists_emitted sampler (manager fresh) request start
           {| gspSuggestionParameters := fxParameters fresh |} loadedFresh
           firstRound afterFresh).
  - reflexivity.
  - vm_compute. reflexivity.
  - vm_compute. reflexivity.
  - vm_compute. reflexivity.
Defined.

(** What the Manager holds after the first round of the fresh study: the
    three new ids, in the order of creation. *)
Example fresh_round_held :
  heldAfter (manager fresh) "param" [] (calls afterFresh) None
  = Some (afterMaster "new-0,new-1,new-2").
Proof. vm_compute. reflexivity. Qed.

(** C3 (as stated) fails, in two ways. A call on an exhausted schedule
    returns no trial with a nil error and saves nothing: the Manager goes on
    holding the state of the round before, whose [evaluatingTrials] is one
    id, not none. And the error of [saveSuggestionParameters] is dropped:
    with a Manager that refuses to save, the call on the fresh study still
    returns its three trials with a nil error, and the Manager holds no
    state at all for the study afterwards. *)
Lemma returned_but_not_persisted :
  (GetSuggestions sampler (Reply (manager exhausted)) request start
     = (Returned ({| replyTrials := [] |}, None), start) /\
   GetSuggestionParameters (manager exhausted) (calls start) {| gspParamId := "param" |}
     = Reply {| gspSuggestionParameters := persistedParameters |} /\
   entriesNamed "evaluatingTrials" persistedParameters
     = [ mkSuggestionParameter "evaluatingTrials" "new-0" ]) /\
  (GetSuggestions sampler (Reply (refusingSave fresh)) request start
     = (Returned ({| replyTrials := firstRound |}, None), afterFresh) /\
   length firstRound = 3%nat /\
   heldAfter (refusingSave fresh) "param" [] (calls afterFresh) None = None).
Proof. split; (split; [| split]); vm_compute; reflexivity. Qed.

Lemma GetSuggestions_exhausted_witness :
  GetSuggestions sampler (Reply (manager exhausted)) request start
  = (Returned ({| replyTrials := [] |}, None), start).
Proof.
  apply (GetSuggestions_exhausted sampler (manager exhausted) request start
           {| gspSuggestionParameters := persistedParameters |} loadedExhausted).
  - reflexivity.
  - vm_compute. reflexivity.
  - vm_compute. discriminate.
Defined.

(** Two survivors among five listed trials: each is promoted with the
    learning rate of the trial that has exactly its id. *)
Example makeChildBracket_two_survivors :
  makeChildBracket (manager decoyStudy) ranked "study" 2 3%float
    (loaded ["t1"; "t2"; "t3"]) start
  = (Returned (Some ["new-0"; "new-1"], promotedTwo, None),
     mkSent [ CallCreateTrial (promote "0.1000"); CallCreateTrial (promote "0.2000") ] 0).
Proof. vm_compute. reflexivity. Qed.

Lemma makeChildBracket_keeps_parent_parameters_witness :
  exists reqs,
    calls (mkSent [ CallCreateTrial (promote "0.1000");
                    CallCreateTrial (promote "0.2000") ] 0)
      = calls start ++ map CallCreateTrial reqs /\
    forall j req, reqs !! j = Some req ->
      exists tid,
        [ mkEvals "t1" (fst (ParseFloat "0.3")); mkEvals "t2" (fst (ParseFloat "0.2")) ] !! j
          = Some tid /\
        (forall pt, parentIn (Trials {| Trials := decoyTrials |}) (id tid) pt ->
           keepsParent parameterConfigs 3%float (loaded ["t1"; "t2"; "t3"]) pt
             (ParameterSet (ctTrial req))) /\
        ((forall pt, In pt (Trials {| Trials := decoyTrials |}) -> TrialId pt <> id tid) ->
           ParameterSet (ctTrial req) = []).
Proof.
  apply (makeChildBracket_keeps_parent_parameters
           (manager decoyStudy) ranked "study" 2 3%float
           (loaded ["t1"; "t2"; "t3"]) start
           (studyConfig OptimizationType_MAXIMIZE) parameterConfigs
           {| Trials := decoyTrials |}
           [ mkEvals "t1" (fst (ParseFloat "0.3")); mkEvals "t2" (fst (ParseFloat "0.2")) ]
           (Returned (Some ["new-0"; "new-1"], promotedTwo, None))).
  - reflexivity.
  - reflexivity.
  - reflexivity.
  - vm_compute. reflexivity.
  - vm_compute. reflexivity.
Defined.

(** **** The codec *)

Lemma purse_encode_roundtrip_witness :
  fold_left purseOne (encodeParameters (loaded ["t1"; "t2"; "t3"])) unsetParameters
    = set_ObjectiveValueName "" (loaded ["t1"; "t2"; "t3"]) /\
  purseSuggestionParameters (manager (completedStudy OptimizationType_MAXIMIZE)) "study"
      (encodeParameters (loaded ["t1"; "t2"; "t3"]))
    = completeParameters (manager (completedStudy OptimizationType_MAXIMIZE)) "study"
        (set_ObjectiveValueName "" (loaded ["t1"; "t2"; "t3"])).
Proof.
  apply (purse_encode_roundtrip (manager (completedStudy OptimizationType_MAXIMIZE))
           "study" (loaded ["t1"; "t2"; "t3"]));
    try (vm_compute; reflexivity);
    try (unfold inInt64, minInt64, maxInt64; cbn; lia).
  - discriminate.
  - repeat constructor.
Defined.

(** C4 (as stated) fails. The empty [evaluatingTrials] of a valid state is
    written as the empty string, which [strings.Split] reads back as the
    one-element list holding the empty id; and a float with more than four
    decimals, as [r = 1/3] is, comes back as its four-decimal rounding. *)
Lemma empty_list_and_thirds_do_not_come_back :
  let c := manager (completedStudy OptimizationType_MAXIMIZE) in
  (evaluatingTrials (loaded []) = [] /\
   spValue (mkSuggestionParameter "evaluatingTrials"
              (strings_Join (evaluatingTrials (loaded [])) comma)) = "" /\
   purseSuggestionParameters c "study" (encodeParameters (loaded [])) start
     = (Returned (Some (loaded [""]), None), start) /\
   evaluatingTrials (loaded [""]) <> evaluatingTrials (loaded [])) /\
  (purseSuggestionParameters c "study"
     (encodeParameters (set_r (1 / 3)%float (loaded ["t1"]))) start
     = (Returned (Some (set_r (fst (ParseFloat "0.3333")) (loaded ["t1"])), None), start) /\
   PrimFloat.eqb (fst (ParseFloat "0.3333")) (1 / 3)%float = false).
Proof.
  cbv zeta. split.
  - split; [reflexivity |]. split; [reflexivity |].
    split; [vm_compute; reflexivity | discriminate].
  - split; vm_compute; reflexivity.
Qed.

End Scenario.

(** * Concrete runs of the worker interface

    Quantities are kept as the text they were parsed from; the parser accepts
    a decimal number with one of the binary or decimal suffixes. *)

Module KubernetesScenario.
Import api Kubernetes Statements KubernetesFacts KubernetesFixtures.

Example genJobManifest_w1 :
  genJobManifest "w1" (Some w1Config) = Returned (Some w1Job, None).
Proof. vm_cast_no_check (@eq_refl _ (Returned (Some w1Job, @None error))). Qed.

Lemma genJobManifest_resource_limits_witness :
  snd (SpawnWorker idle "w1" (Some w1Config) []) = [] ++ [CallJobsCreate w1Job] /\
  exists c0 cpuReq memoryReq,
    Containers (Spec w1Job) = [c0] /\
    ParseQuantity (strconv_Itoa (Cpu w1Config)) = inl cpuReq /\
    ParseQuantity (Memory w1Config) = inl memoryReq /\
    Limits c0 !! "cpu" = Some cpuReq /\
    Limits c0 !! "memory" = Some memoryReq /\
    (0 < Gpu w1Config ->
       exists gpuReq, ParseQuantity (strconv_Itoa (Gpu w1Config)) = inl gpuReq /\
                      Limits c0 !! gpuKey = Some gpuReq) /\
    (Gpu w1Config <= 0 -> Limits c0 !! gpuKey = None).
Proof.
  apply (genJobManifest_resource_limits idle "w1" w1Config w1Job []).
  vm_cast_no_check (@eq_refl _ (Returned (Some w1Job, @None error))).
Defined.

(** Without a GPU the key is absent. *)
Example genJobManifest_no_gpu :
  match genJobManifest "w1"
          (Some (mkWorkerConfig "trainer:latest" [] 0 "" None "regcred" 2 "4Gi" ∅ ∅ []))
  with
  | Returned (Some job, None) =>
      match Containers (Spec job) with
      | [c0] => Limits c0 !! gpuKey = None /\ Limits c0 !! "cpu" = Some "2"
      | _ => False
      end
  | _ => False
  end.
Proof. vm_compute. split; reflexivity. Qed.

Example UpdateWorkerStatus_pending_runs :
  UpdateWorkerStatus idle "study" [] = (Returned None, [CallUpdateWorker "w1" State_RUNNING]).
Proof. vm_compute. reflexivity. Qed.

(** C10 (the code at failing inputs). A RUNNING worker whose job has no pod
    left: [CleanWorkers] and [StopWorkers] delete the job, list no pod and
    panic on [pl.Items[0]] before the status is updated; in
    [UpdateWorkerStatus] the worker is found complete and marked COMPLETED,
    the job is deleted, the list that follows is empty and the same index
    panics. *)
Theorem teardown_panics_without_pod :
  let gone := {| clientset := cluster (fun _ _ => []) 1 "";
                 db := database [worker State_RUNNING] |} in
  let going := {| clientset := cluster podsUntilJobDeleted 1 "";
                  db := database [worker State_RUNNING] |} in
  CleanWorkers gone "study" []
    = (Panicked "index out of range [0] with length 0", [CallJobsDelete "w1"]) /\
  StopWorkers gone "study" ["w1"] true []
    = (Panicked "index out of range [0] with length 0", [CallJobsDelete "w1"]) /\
  UpdateWorkerStatus going "study" []
    = (Panicked "index out of range [0] with length 0",
       [CallUpdateWorker "w1" State_COMPLETED; CallJobsDelete "w1"]).
Proof. cbv zeta. split; [| split]; vm_compute; reflexivity. Qed.

End KubernetesScenario.

(** * More on loading and saving the Hyperband state *)

Module PurseFacts.
Import api Suggestion Statements GoRtFacts CodecFacts SuggestionFacts.

Section Purse.
Context `{Platform}.

Lemma purseOne_keeps_ResourceName p sp :
  spName sp <> "ResourceName" -> ResourceName (purseOne p sp) = ResourceName p.
Proof.
  intros Hn. unfold purseOne.
  destruct (String.eqb_spec (spName sp) "ResourceName") as [E | _]; [contradiction |].
  repeat (destruct (String.eqb (spName sp) _); [reflexivity |]). reflexivity.
Qed.

Lemma purseLoop_keeps_ResourceName sparam :
  forall p, (forall sp, In sp sparam -> spName sp <> "ResourceName") ->
    ResourceName (fold_left purseOne sparam p) = ResourceName p.
Proof.
  induction sparam as [| sp rest IH]; intros p Hall; cbn [fold_left]; [reflexivity |].
  rewrite IH by (intros x Hx; apply Hall; right; exact Hx).
  apply purseOne_keeps_ResourceName. apply Hall. left. reflexivity.
Qed.

Lemma purseOne_keeps_r_l p sp :
  spName sp <> "r_l" -> r_l (purseOne p sp) = r_l p.
Proof.
  intros Hn. unfold purseOne.
  destruct (String.eqb_spec (spName sp) "r_l") as [E | _]; [contradiction |].
  repeat (destruct (String.eqb (spName sp) _); [reflexivity |]). reflexivity.
Qed.

Lemma purseLoop_keeps_r_l sparam :
  forall p, (forall sp, In sp sparam -> spName sp <> "r_l") ->
    r_l (fold_left purseOne sparam p) = r_l p.
Proof.
  induction sparam as [| sp rest IH]; intros p Hall; cbn [fold_left]; [reflexivity |].
  rewrite IH by (intros x Hx; apply Hall; right; exact Hx).
  apply purseOne_keeps_r_l. apply Hall. left. reflexivity.
Qed.

(** X1. A parameter list with no entry named ResourceName is refused:
    [purseSuggestionParameters] returns no state and the error "Suggestion
    Parameter set Error", whatever the other entries are and whatever the
    Manager would answer, and sends the Manager no mutating call. *)
Theorem purse_without_ResourceName c studyId sparam s :
  (forall sp, In sp sparam -> spName sp <> "ResourceName") ->
  purseSuggestionParameters c studyId sparam s
    = (Returned (None, Some (fmt_Errorf "Suggestion Parameter set Error")), s).
Proof.
  intros Hall. unfold purseSuggestionParameters, completeParameters.
  rewrite (purseLoop_keeps_ResourceName sparam unsetParameters Hall).
  cbn [ResourceName unsetParameters String.eqb]. rewrite orb_true_r. reflexivity.
Qed.

(** X2. On a platform where [-1 <= 0] holds for floats, a parameter list
    with no entry named r_l is refused in the same way, whatever the other
    entries are and whatever the Manager would answer: the unset mark [-1]
    fails the test [r_l <= 0]; no mutating call is sent. *)
Theorem purse_without_r_l c studyId sparam s :
  fle (float64_of_int (-1)) (float64_of_int 0) = true ->
  (forall sp, In sp sparam -> spName sp <> "r_l") ->
  purseSuggestionParameters c studyId sparam s
    = (Returned (None, Some (fmt_Errorf "Suggestion Parameter set Error")), s).
Proof.
  intros Hle Hall. unfold purseSuggestionParameters, completeParameters.
  rewrite (purseLoop_keeps_r_l sparam unsetParameters Hall).
  cbn [r_l unsetParameters]. rewrite Hle. reflexivity.
Qed.

Lemma purseOne_unknown p sp : knownName (spName sp) = false -> purseOne p sp = p.
Proof.
  unfold knownName. cbn [existsb]. intros Hk.
  repeat (apply orb_false_elim in Hk as [? Hk]).
  unfold purseOne.
  repeat match goal with
         | E : String.eqb (spName sp) ?k = false |- _ => rewrite E; clear E
         end.
  reflexivity.
Qed.

(** X3. Entries whose name is none of the eleven known ones are ignored:
    the loop of [purseSuggestionParameters] decodes a list as it decodes the
    list without them. *)
Theorem purseLoop_ignores_unknown sparam :
  forall p,
    fold_left purseOne sparam p
    = fold_left purseOne (List.filter (fun sp => knownName (spName sp)) sparam) p.
Proof.
  induction sparam as [| sp rest IH]; intros p; cbn [fold_left List.filter];
    [reflexivity |].
  destruct (knownName (spName sp)) eqn:Ek.
  - cbn [fold_left]. apply IH.
  - rewrite (purseOne_unknown p sp Ek). apply IH.
Qed.

(** The loop over an encoded state, field by field. *)
Lemma purseLoop_encode_fields hbparam :
  fold_left purseOne (encodeParameters hbparam) unsetParameters
  = {| eta := fst (strconv_ParseFloat (strconv_FormatFloat_f4 (eta hbparam)));
       sMax := fst (strconv_Atoi (strconv_Itoa (sMax hbparam)));
       b_l := fst (strconv_ParseFloat (strconv_FormatFloat_f4 (b_l hbparam)));
       r_l := fst (strconv_ParseFloat (strconv_FormatFloat_f4 (r_l hbparam)));
       r := fst (strconv_ParseFloat (strconv_FormatFloat_f4 (r hbparam)));
       n := fst (strconv_Atoi (strconv_Itoa (n hbparam)));
       shloopitr := fst (strconv_Atoi (strconv_Itoa (shloopitr hbparam)));
       currentS := fst (strconv_Atoi (strconv_Itoa (currentS hbparam)));
       ResourceName := ResourceName hbparam;
       ObjectiveValueName := "";
       evaluatingTrials := strings_Split (strings_Join (evaluatingTrials hbparam) comma) comma |}.
Proof.
  unfold encodeParameters. cbn [fold_left].
  rewrite purseOne_eta, purseOne_sMax, purseOne_b_l, purseOne_r_l, purseOne_r,
    purseOne_shloopitr, purseOne_n, purseOne_currentS, purseOne_ResourceName,
    purseOne_evaluatingTrials.
  reflexivity.
Qed.

Lemma Split_not_nil s sep : strings_Split s sep <> [].
Proof.
  destruct s as [| c s]; cbn; [discriminate |].
  destruct (Ascii.eqb c sep); [discriminate |].
  destruct (strings_Split s sep); discriminate.
Qed.

(** X4. What [saveSuggestionParameters] writes never carries the objective
    name, and reads back with at least one evaluating trial: for every
    state, the loop of [purseSuggestionParameters] over the encoded list
    leaves [ObjectiveValueName] empty (so it is taken from the study again)
    and gives a non-empty [evaluatingTrials]. *)
Theorem purseLoop_encode_loses hbparam :
  let p := fold_left purseOne (encodeParameters hbparam) unsetParameters in
  ObjectiveValueName p = "" /\ evaluatingTrials p <> [].
Proof.
  cbv zeta. rewrite purseLoop_encode_fields.
  cbn [ObjectiveValueName evaluatingTrials]. split; [reflexivity | apply Split_not_nil].
Qed.

(** X5. The integer fields and the resource name always survive a save and
    a load, whatever the floats and the trial list are. *)
Theorem purseLoop_encode_integers hbparam :
  inInt64 (sMax hbparam) -> inInt64 (n hbparam) ->
  inInt64 (shloopitr hbparam) -> inInt64 (currentS hbparam) ->
  let p := fold_left purseOne (encodeParameters hbparam) unsetParameters in
  sMax p = sMax hbparam /\ n p = n hbparam /\
  shloopitr p = shloopitr hbparam /\ currentS p = currentS hbparam /\
  ResourceName p = ResourceName hbparam.
Proof.
  intros H1 H2 H3 H4. cbv zeta. rewrite purseLoop_encode_fields.
  cbn [sMax n shloopitr currentS ResourceName].
  rewrite !Atoi_Itoa by assumption. repeat split; reflexivity.
Qed.

End Purse.
End PurseFacts.

(** * More on the bracket makers and the schedule *)

Module BracketFacts.
Import api Suggestion Statements SuggestionFacts.

Section Facts.
Context `{Platform}.

Lemma CreateTrial_calls_inj (a b : list CreateTrialRequest) (sent : list Call) :
  sent ++ map CallCreateTrial a = sent ++ map CallCreateTrial b -> a = b.
Proof.
  intros E. apply app_inv_head in E. revert b E.
  induction a as [| x a IH]; intros [| y b] E; cbn in E; try discriminate; [reflexivity |].
  injection E as -> E. f_equal. apply IH. exact E.
Qed.

(** *** The master bracket *)

Lemma masterParameter_shape h r_ hbparam pc s p s' :
  masterParameter h r_ hbparam pc s = (Returned p, s') -> sampledFor r_ hbparam pc p.
Proof.
  intros E.
  assert (Hv : exists v, p = mkParameter (pcName pc) (pcParameterType pc) v /\
             (pcName pc = ResourceName hbparam ->
              v = resourceValue (pcParameterType pc) r_)).
  { revert E. unfold masterParameter.
    destruct (String.eqb_spec (pcName pc) (ResourceName hbparam)) as [En | En].
    - intros; step; simplify_eq. eauto.
    - unfold draw. step. intros E.
      repeat case_match; simplify_eq;
        eexists; (split; [reflexivity | intros; contradiction]). }
  destruct Hv as (v & -> & Hv). split; [reflexivity |]. split; [reflexivity |].
  intros Hn. cbn [Value]. rewrite (Hv Hn). unfold resourceValue.
  destruct (decide (pcParameterType pc = ParameterType_INT));
    split; intros; (reflexivity || contradiction).
Qed.

Lemma masterParameterSet_shape h r_ hbparam pcs :
  forall s ps s', masterParameterSet h r_ hbparam pcs s = (Returned ps, s') ->
    Forall2 (sampledFor r_ hbparam) pcs ps.
Proof.
  induction pcs as [| pc rest IH]; intros s ps s'; cbn; step.
  - intros; simplify_eq. constructor.
  - destruct (masterParameter h r_ hbparam pc s) as [o s1] eqn:E.
    destruct o as [p | |]; [| finish ..].
    destruct (masterParameterSet h r_ hbparam rest s1) as [o2 s2] eqn:E2.
    destruct o2 as [ps2 | |]; intros; simplify_eq.
    constructor; eauto using masterParameter_shape.
Qed.

Lemma masterLoop_requests h c studyId r_ hbparam sconf todo :
  forall i tids ts s out s',
    masterLoop h c studyId r_ hbparam sconf todo i tids ts s = (out, s') ->
    exists reqs,
      calls s' = calls s ++ map CallCreateTrial reqs /\
      (length reqs <= todo)%nat /\
      (forall tids' ts', out = Returned (Some tids', ts', None) -> length reqs = todo) /\
      Forall (masterRequest studyId r_ hbparam sconf) reqs.
Proof.
  induction todo as [| todo IH]; intros i tids ts s out s'; cbn; step.
  - intros E. simplify_eq. exists []. cbn. rewrite app_nil_r. repeat split; auto.
  - assert (Hnone : forall o s1, calls s1 = calls s ->
              (forall a b, o <> Returned (Some a, b, None)) ->
              (o, s1) = (out, s') ->
              exists reqs,
                calls s' = calls s ++ map CallCreateTrial reqs /\
                (length reqs <= S todo)%nat /\
                (forall tids' ts', out = Returned (Some tids', ts', None) ->
                   length reqs = S todo) /\
                Forall (masterRequest studyId r_ hbparam sconf) reqs).
    { intros o s1 Hc Ho E. simplify_eq. exists []. cbn. rewrite app_nil_r.
      repeat split; auto; [lia |]. intros a b E. destruct (Ho a b E). }
    destruct sconf as [sc |]; [| apply Hnone; [reflexivity | discriminate]]. step.
    destruct (ParameterConfigs sc) as [pcs |] eqn:Epcs;
      [| apply Hnone; [reflexivity | discriminate]]. step.
    destruct (masterParameterSet h r_ hbparam pcs s) as [o s1] eqn:Eps.
    pose proof (masterParameterSet_calls _ _ _ _ _ _ _ Eps) as Hc1.
    destruct o as [ps | |]; [| apply Hnone; [exact Hc1 | discriminate] ..].
    apply masterParameterSet_shape in Eps.
    unfold do_CreateTrial. cbn.
    set (req0 := {| ctTrial := mkTrial "" studyId ps |}).
    assert (Hreq : masterRequest studyId r_ hbparam (Some sc) req0).
    { split; [reflexivity |]. split; [reflexivity |]. exists sc, pcs. auto. }
    destruct (CreateTrial c (calls s1) req0) as [rep | e].
    + intros E. apply IH in E. destruct E as (reqs & Hcalls & Hle & Hok & Hall).
      cbn in Hcalls. exists (req0 :: reqs). cbn. repeat split.
      * rewrite Hcalls, Hc1, <- app_assoc. reflexivity.
      * lia.
      * intros a b E. f_equal. eapply Hok. exact E.
      * constructor; assumption.
    + intros E. simplify_eq. exists [req0]. cbn. repeat split.
      * rewrite Hc1. reflexivity.
      * lia.
      * intros; discriminate.
      * constructor; [assumption | constructor].
Qed.

(** X6. However [makeMasterBracket] ends, it sends at most [n] requests,
    all of them [CreateTrial] requests, and only after the Manager has
    returned the study. Every request asks for a trial of the study with no
    id and one parameter for each config of the returned study, in the order
    of the configs, with the config's name and type; the parameter named
    like the resource carries the resource value [r], written as an integer
    when its config is INT and with four decimals otherwise. *)
Theorem makeMasterBracket_requests h c studyId n_i r_ hbparam s out s' :
  makeMasterBracket h c studyId n_i r_ hbparam s = (out, s') ->
  exists reqs,
    calls s' = calls s ++ map CallCreateTrial reqs /\
    (length reqs <= Z.to_nat n_i)%nat /\
    Forall (fun req =>
              exists gsrep,
                GetStudy c (calls s) {| gsStudyId := studyId |} = Reply gsrep /\
                masterRequest studyId r_ hbparam (StudyConfig_ gsrep) req) reqs.
Proof.
  unfold makeMasterBracket. step.
  assert (Hnone : forall o, (o, s) = (out, s') ->
            exists reqs,
              calls s' = calls s ++ map CallCreateTrial reqs /\
              (length reqs <= Z.to_nat n_i)%nat /\
              Forall (fun req =>
                        exists gsrep,
                          GetStudy c (calls s) {| gsStudyId := studyId |} = Reply gsrep /\
                          masterRequest studyId r_ hbparam (StudyConfig_ gsrep) req) reqs).
  { intros o E. simplify_eq. exists []. cbn. rewrite app_nil_r.
    repeat split; auto. lia. }
  destruct (GetStudy c (calls s) {| gsStudyId := studyId |}) as [gsrep | e] eqn:Hgs;
    [| apply Hnone].
  destruct (make "" n_i) as [tids0 |]; [| apply Hnone].
  destruct (make None n_i) as [ts0 |]; [| apply Hnone].
  intros E. apply masterLoop_requests in E.
  destruct E as (reqs & Hcalls & Hle & _ & Hall). exists reqs.
  split; [exact Hcalls |]. split; [exact Hle |].
  eapply Forall_impl; [exact Hall |]. intros req Hreq. exists gsrep. auto.
Qed.

(** X7. A master bracket that succeeds is full: [n] is not negative,
    exactly [n] trials were asked for, the returned slice has [n] slots and
    none of them is nil, and the [j]-th id returned is the id of the [j]-th
    trial. *)
Theorem makeMasterBracket_complete h c studyId n_i r_ hbparam s tids ts s' :
  makeMasterBracket h c studyId n_i r_ hbparam s = (Returned (Some tids, ts, None), s') ->
  0 <= n_i /\
  length ts = Z.to_nat n_i /\
  (exists reqs,
     calls s' = calls s ++ map CallCreateTrial reqs /\ length reqs = Z.to_nat n_i) /\
  forall j, (j < Z.to_nat n_i)%nat ->
    exists t, ts !! j = Some (Some t) /\ tids !! j = Some (TrialId t).
Proof.
  unfold makeMasterBracket. step.
  destruct (GetStudy c (calls s) _) as [gsrep | e]; [| finish].
  destruct (make "" n_i) as [tids0 |] eqn:E1; [| finish].
  destruct (make None n_i) as [ts0 |] eqn:E2; [| finish].
  destruct (make_ids_of_nil _ _ _ E1 E2) as [Hm Hl].
  assert (Hn : 0 <= n_i).
  { unfold make in E1. destruct (Z.ltb_spec n_i 0); [discriminate | lia]. }
  intros E. pose proof E as E'.
  apply masterLoop_emits in E; [| lia | exact Hm].
  destruct E as (reqs & Hcalls & Hids & Hlen & _ & Hem).
  apply masterLoop_requests in E'.
  destruct E' as (reqs' & Hcalls' & _ & Hcount & _).
  specialize (Hcount _ _ eq_refl).
  rewrite Hcalls in Hcalls'. apply CreateTrial_calls_inj in Hcalls'. subst reqs'.
  split; [exact Hn |]. split; [congruence |].
  split; [exists reqs; auto |].
  intros j Hj.
  destruct (lookup_lt_is_Some_2 reqs j) as [req Hreq]; [lia |].
  destruct (Hem j req Hreq) as (rep & _ & Hts). cbn in Hts.
  eexists. split; [exact Hts |].
  rewrite <- Hids.
  change (@map (option Trial) string) with (@fmap list _ (option Trial) string).
  rewrite list_lookup_fmap, Hts. reflexivity.
Qed.

(** *** The child bracket *)

Lemma childLoop_count c studyId rtype r_i hbparam child :
  forall i trials tids ts s out s',
    childLoop c studyId rtype r_i hbparam child i trials tids ts s = (out, s') ->
    exists reqs,
      calls s' = calls s ++ map CallCreateTrial reqs /\
      (length reqs <= length child)%nat /\
      (forall tids' ts', out = Returned (Some tids', ts', None) ->
         length reqs = length child /\
         length ts' = length ts /\
         (child <> [] -> i + length child <= length ts)%nat /\
         forall j, (i + length child <= j)%nat -> ts' !! j = ts !! j).
Proof.
  induction child as [| e rest IH]; intros i trials tids ts s out s'; cbn; step.
  - intros E. simplify_eq. exists []. cbn. rewrite app_nil_r.
    split; [reflexivity |]. split; [lia |].
    intros a b E. simplify_eq. repeat split; auto. intros Hc. destruct Hc. reflexivity.
  - unfold do_CreateTrial. cbn.
    match goal with
    | |- context [CreateTrial c (calls s) ?req] =>
        set (req0 := req); destruct (CreateTrial c (calls s) req0) as [rep | err]
    end.
    2: { intros E. simplify_eq. exists [req0]. cbn. split; [reflexivity |].
         split; [lia |]. intros; discriminate. }
    unfold store.
    destruct (Nat.ltb_spec i (length tids)) as [Hi |].
    2: { intros E. simplify_eq. exists [req0]. cbn. split; [reflexivity |].
         split; [lia |]. intros; discriminate. }
    destruct (Nat.ltb_spec i (length ts)) as [Hi' |].
    2: { intros E. simplify_eq. exists [req0]. cbn. split; [reflexivity |].
         split; [lia |]. intros; discriminate. }
    intros E. apply IH in E. destruct E as (reqs & Hcalls & Hle & Hok).
    cbn in Hcalls. exists (req0 :: reqs). cbn. split.
    { rewrite Hcalls, <- app_assoc. reflexivity. }
    split; [lia |].
    intros a b E. destruct (Hok a b E) as (Hcount & Hlen & Hbound & Hkeep).
    rewrite length_insert in Hlen, Hbound.
    split; [lia |]. split; [exact Hlen |]. split.
    + intros _. destruct rest as [| e' rest']; [cbn; lia |].
      assert (Hb : (S i + length (e' :: rest') <= length ts)%nat)
        by (apply Hbound; discriminate).
      cbn in Hb |- *. lia.
    + intros j Hj. rewrite Hkeep by lia. apply list_lookup_insert_ne. lia.
Qed.

Lemma makeChildBracket_prefix c parent studyId n_i r_i hbparam s sconf child tids ts s' :
  GetStudy c (calls s) {| gsStudyId := studyId |} = Reply {| StudyConfig_ := Some sconf |} ->
  selectChild (OptimizationType_ sconf) parent n_i = Some child ->
  makeChildBracket c parent studyId n_i r_i hbparam s = (Returned (Some tids, ts, None), s') ->
  0 <= n_i /\
  (length child <= Z.to_nat n_i)%nat /\
  length ts = Z.to_nat n_i /\
  (exists reqs,
     calls s' = calls s ++ map CallCreateTrial reqs /\ length reqs = length child) /\
  (forall j, (j < length child)%nat -> exists t, ts !! j = Some (Some t)) /\
  (forall j, (length child <= j < Z.to_nat n_i)%nat -> ts !! j = Some None).
Proof.
  intros Hgs Hch. unfold makeChildBracket. step.
  rewrite Hgs. cbn. rewrite Hch. step.
  destruct (GetTrials c (calls s) _) as [gtrep | e]; [| finish].
  destruct (make "" n_i) as [tids0 |] eqn:E1; [| finish].
  destruct (make None n_i) as [ts0 |] eqn:E2; [| finish].
  destruct (make_ids_of_nil _ _ _ E1 E2) as [Hm Hl].
  assert (Hn : 0 <= n_i).
  { unfold make in E1. destruct (Z.ltb_spec n_i 0); [discriminate | lia]. }
  destruct (ParameterConfigs sconf) as [pcs |]; [| finish]. step.
  intros E. pose proof E as E'.
  apply childLoop_emits in E; [| exact Hm].
  destruct E as (reqs & Hcalls & Hids & Hlen & _ & Hem).
  apply childLoop_count in E'.
  destruct E' as (reqs' & Hcalls' & _ & Hok).
  destruct (Hok _ _ eq_refl) as (Hcount & _ & Hbound & Hkeep).
  rewrite Hcalls in Hcalls'. apply CreateTrial_calls_inj in Hcalls'. subst reqs'.
  split; [exact Hn |]. split.
  { destruct child as [| e0 child0]; [cbn; lia |].
    rewrite <- Hl. apply (Hbound ltac:(discriminate)). }
  split; [congruence |].
  split; [exists reqs; auto |].
  split.
  - intros j Hj.
    destruct (lookup_lt_is_Some_2 reqs j) as [req Hreq]; [lia |].
    destruct (Hem j req Hreq) as (rep & _ & Hts). cbn in Hts. eauto.
  - intros j Hj. rewrite Hkeep by (cbn; lia).
    unfold make in E2. destruct (n_i <? 0); [discriminate |]. simplify_eq.
    apply lookup_replicate_2. lia.
Qed.

(** X8. A child bracket that succeeds creates one trial for each survivor,
    and no more than [n] of them: the returned slice has [n] slots, the
    first [len(child)] hold the trials created and every later one is nil. *)
Theorem makeChildBracket_fills_prefix
    c parent studyId n_i r_i hbparam s sconf child tids ts s' :
  GetStudy c (calls s) {| gsStudyId := studyId |} = Reply {| StudyConfig_ := Some sconf |} ->
  selectChild (OptimizationType_ sconf) parent n_i = Some child ->
  makeChildBracket c parent studyId n_i r_i hbparam s = (Returned (Some tids, ts, None), s') ->
  (length child <= Z.to_nat n_i)%nat /\
  length ts = Z.to_nat n_i /\
  (exists reqs,
     calls s' = calls s ++ map CallCreateTrial reqs /\ length reqs = length child) /\
  (forall j, (j < length child)%nat -> exists t, ts !! j = Some (Some t)) /\
  (forall j, (length child <= j < Z.to_nat n_i)%nat -> ts !! j = Some None).
Proof.
  intros Hgs Hch E.
  destruct (makeChildBracket_prefix _ _ _ _ _ _ _ _ _ _ _ _ Hgs Hch E) as (_ & Hrest).
  exact Hrest.
Qed.

Lemma selectChild_maximize (parent : Bracket) (n_i : Z) :
  0 <= n_i <= Z.of_nat (length (elems parent)) ->
  selectChild OptimizationType_MAXIMIZE parent n_i
    = Some (take (Z.to_nat n_i) (elems parent)).
Proof.
  intros Hn. unfold selectChild, slice_to. cbn.
  destruct (Z.ltb_spec n_i 0); [lia |].
  destruct (Z.ltb_spec (Z.of_nat (Nat.max (capacity parent) (length (elems parent)))) n_i);
    [lia |].
  cbn. f_equal. rewrite take_app_le by lia. reflexivity.
Qed.

(** X9. Maximizing, with [n] no larger than the number of ranked trials, a
    child bracket that succeeds promotes exactly [n] trials and returns no
    nil trial. *)
Theorem makeChildBracket_maximize_full c parent studyId n_i r_i hbparam s sconf tids ts s' :
  GetStudy c (calls s) {| gsStudyId := studyId |} = Reply {| StudyConfig_ := Some sconf |} ->
  OptimizationType_ sconf = OptimizationType_MAXIMIZE ->
  n_i <= Z.of_nat (length (elems parent)) ->
  makeChildBracket c parent studyId n_i r_i hbparam s = (Returned (Some tids, ts, None), s') ->
  (exists reqs,
     calls s' = calls s ++ map CallCreateTrial reqs /\ Z.of_nat (length reqs) = n_i) /\
  Z.of_nat (length ts) = n_i /\
  Forall (fun t => t <> None) ts.
Proof.
  intros Hgs Hopt Hn E.
  assert (H0 : 0 <= n_i).
  { revert E. unfold makeChildBracket. step. rewrite Hgs. cbn.
    destruct (selectChild _ parent n_i); [| finish]. step.
    destruct (GetTrials c (calls s) _); [| finish].
    unfold make. destruct (Z.ltb_spec n_i 0); [finish | lia]. }
  assert (Hch : selectChild (OptimizationType_ sconf) parent n_i
                = Some (take (Z.to_nat n_i) (elems parent))).
  { rewrite Hopt. apply selectChild_maximize. lia. }
  destruct (makeChildBracket_prefix _ _ _ _ _ _ _ _ _ _ _ _ Hgs Hch E)
    as (_ & _ & Hlen & (reqs & Hcalls & Hcount) & Hsome & _).
  rewrite length_take in Hcount, Hsome.
  split; [exists reqs; split; [exact Hcalls | lia] |].
  split; [lia |].
  apply Forall_lookup_2. intros j t Hj.
  destruct (Hsome j) as (t' & Ht').
  { apply lookup_lt_Some in Hj. lia. }
  rewrite Ht' in Hj. simplify_eq. discriminate.
Qed.

(** X10. With an optimization type that is neither MINIMIZE nor MAXIMIZE
    nobody survives: [makeChildBracket] creates no trial and still succeeds,
    returning [n] empty ids and [n] nil trials. *)
Theorem makeChildBracket_unknown_optimization
    c parent studyId n_i r_i hbparam s sconf pcs gtrep :
  GetStudy c (calls s) {| gsStudyId := studyId |} = Reply {| StudyConfig_ := Some sconf |} ->
  OptimizationType_ sconf <> OptimizationType_MINIMIZE ->
  OptimizationType_ sconf <> OptimizationType_MAXIMIZE ->
  GetTrials c (calls s) {| gtStudyId := studyId |} = Reply gtrep ->
  ParameterConfigs sconf = Some pcs ->
  0 <= n_i ->
  makeChildBracket c parent studyId n_i r_i hbparam s
    = (Returned (Some (replicate (Z.to_nat n_i) ""), replicate (Z.to_nat n_i) None, None), s).
Proof.
  intros Hgs Hmin Hmax Hgt Hpcs Hn. unfold makeChildBracket. step.
  rewrite Hgs. cbn. unfold selectChild.
  destruct (decide _) as [E | _]; [contradiction |].
  destruct (decide _) as [E | _]; [contradiction |].
  step. rewrite Hgt. unfold make.
  destruct (Z.ltb_spec n_i 0); [lia |].
  rewrite Hpcs. reflexivity.
Qed.

Lemma childLoop_overrun c studyId rtype r_i hbparam child :
  (forall sent req, exists rep, CreateTrial c sent req = Reply rep) ->
  forall i trials tids ts s,
    length ts = length tids ->
    (i <= length tids)%nat ->
    (length tids - i < length child)%nat ->
    exists reqs,
      childLoop c studyId rtype r_i hbparam child i trials tids ts s
        = (Panicked "index out of range",
           mkSent (calls s ++ map CallCreateTrial reqs) (draws s)) /\
      length reqs = S (length tids - i).
Proof.
  intros Hct. induction child as [| e rest IH]; intros i trials tids ts s Hlen Hi Hlt;
    [cbn in Hlt; lia |].
  cbn. step. unfold do_CreateTrial. cbn.
  match goal with
  | |- context [CreateTrial c (calls s) ?req] =>
      set (req0 := req); destruct (Hct (calls s) req0) as [rep ->]
  end.
  unfold store. rewrite Hlen.
  destruct (Nat.ltb_spec i (length tids)) as [Hin | Hout].
  - match goal with
    | |- context [childLoop _ _ _ _ _ rest (S i) ?tr ?a ?b ?st] =>
        destruct (IH (S i) tr a b st) as (reqs & E & Hcount)
    end.
    { rewrite !length_insert. exact Hlen. }
    { rewrite length_insert. lia. }
    { rewrite length_insert. cbn in Hlt. lia. }
    rewrite length_insert in Hcount.
    exists (req0 :: reqs). rewrite E. cbn. rewrite <- app_assoc. split; [reflexivity | lia].
  - exists [req0]. cbn. split; [reflexivity | lia].
Qed.

(** X11. Minimizing overruns: when the ranked trials are more than twice
    [n] and the Manager creates every trial it is asked for, the survivors
    [parent[n:]] outnumber the [n] slots, and [makeChildBracket] panics on
    the index expression after it has asked for [n + 1] trials. *)
Theorem makeChildBracket_minimize_overrun
    c parent studyId n_i r_i hbparam s sconf pcs gtrep :
  GetStudy c (calls s) {| gsStudyId := studyId |} = Reply {| StudyConfig_ := Some sconf |} ->
  OptimizationType_ sconf = OptimizationType_MINIMIZE ->
  GetTrials c (calls s) {| gtStudyId := studyId |} = Reply gtrep ->
  ParameterConfigs sconf = Some pcs ->
  (forall sent req, exists rep, CreateTrial c sent req = Reply rep) ->
  0 <= n_i ->
  2 * n_i < Z.of_nat (length (elems parent)) ->
  exists reqs,
    makeChildBracket c parent studyId n_i r_i hbparam s
      = (Panicked "index out of range",
         mkSent (calls s ++ map CallCreateTrial reqs) (draws s)) /\
    Z.of_nat (length reqs) = n_i + 1.
Proof.
  intros Hgs Hopt Hgt Hpcs Hct Hn Hlen. unfold makeChildBracket. step.
  rewrite Hgs. cbn. rewrite Hopt. unfold selectChild, slice_from.
  destruct (decide _) as [_ | Hne]; [| destruct Hne; reflexivity].
  destruct (Z.ltb_spec n_i 0); [lia |].
  destruct (Z.ltb_spec (Z.of_nat (length (elems parent))) n_i); [lia |].
  cbn [orb]. step. rewrite Hgt. unfold make.
  destruct (Z.ltb_spec n_i 0); [lia |].
  rewrite Hpcs. step.
  destruct (childLoop_overrun c studyId (resourceType hbparam pcs) r_i hbparam
              (drop (Z.to_nat n_i) (elems parent)) Hct 0 (Trials gtrep)
              (replicate (Z.to_nat n_i) "") (replicate (Z.to_nat n_i) None) s)
    as (reqs & E & Hcount).
  { rewrite !length_replicate. reflexivity. }
  { lia. }
  { rewrite length_replicate, length_drop. lia. }
  exists reqs. rewrite E. split; [reflexivity |].
  rewrite length_replicate in Hcount. lia.
Qed.

(** *** Evaluation *)

Lemma sumLastValues_all_completed sets :
  forall vs (s : Sent) v s',
    sumLastValues sets vs s = (Returned (Some v), s') ->
    forall ml, In ml sets -> WorkerStatus ml = State_COMPLETED.
Proof.
  induction sets as [| x rest IH]; intros vs s v s'; cbn; step.
  - intros _ ml [].
  - destruct (decide (WorkerStatus x = State_COMPLETED)) as [Hx |]; [| finish].
    destruct (MetricsLogs x); [finish |].
    destruct (last _); [| finish].
    intros E ml [<- | Hin]; [exact Hx | eapply IH; eauto].
Qed.

Lemma evalLoop_all_completed c studyId hbparam tids :
  forall bracket s err b s',
    evalLoop c studyId hbparam tids bracket s = (Returned (err, Some b), s') ->
    err = None /\
    length b = (length bracket + length tids)%nat /\
    forall tid, In tid tids -> trialCompleted c (calls s) studyId hbparam tid.
Proof.
  induction tids as [| tid rest IH]; intros bracket s err b s'; cbn; step.
  - intros E. simplify_eq. split; [reflexivity |]. split; [lia |]. intros t [].
  - destruct (GetWorkers c (calls s) _) as [gw | e] eqn:Ew; [| finish].
    fold (metricsRequest studyId hbparam gw).
    destruct (GetMetrics c (calls s) (metricsRequest studyId hbparam gw))
      as [gm | e] eqn:Em; [| finish].
    destruct (sumLastValues (MetricsLogSets gm) (float64_of_int 0) s) as [o s1] eqn:Es.
    pose proof (sumLastValues_reads_only _ _ _ _ _ Es) as ->.
    destruct o as [[vs |] | |]; try (finish; fail).
    destruct (Workers gw) as [| w0 ws] eqn:Eww; [finish |].
    intros E. apply IH in E. destruct E as (-> & Hlen & Hall).
    split; [reflexivity |]. split.
    { rewrite Hlen, length_app. cbn. lia. }
    intros t [<- | Hin]; [| apply Hall; exact Hin].
    exists gw, gm. split; [exact Ew |]. split; [rewrite Eww; discriminate |].
    split; [exact Em |].
    eapply sumLastValues_all_completed. exact Es.
Qed.

(** X12. [evalWorkers] ranks only finished rounds: when it returns a
    bracket, the error is nil, nothing was sent, and for every evaluating
    trial the Manager reported at least one worker and every metrics set of
    its workers COMPLETED. *)
Theorem evalWorkers_bracket_completed c studyId hbparam s err b s' :
  evalWorkers c studyId hbparam s = (Returned (err, Some b), s') ->
  err = None /\ s' = s /\
  forall tid, In tid (evaluatingTrials hbparam) ->
    trialCompleted c (calls s) studyId hbparam tid.
Proof.
  unfold evalWorkers. step.
  destruct (evalLoop c studyId hbparam (evaluatingTrials hbparam) [] s) as [o s1] eqn:E.
  pose proof (evalLoop_reads_only _ _ _ _ _ _ _ _ E) as ->.
  destruct o as [[e [b0 |]] | |]; try (finish; fail).
  intros E'. simplify_eq.
  apply evalLoop_all_completed in E. destruct E as (_ & _ & Hall).
  auto.
Qed.

(** *** The whole call *)

Lemma makeBracket_sends h c studyId n_i r_i hbparam s out s' :
  makeBracket h c studyId n_i r_i hbparam s = (out, s') ->
  exists reqs, calls s' = calls s ++ map CallCreateTrial reqs.
Proof.
  assert (Hnone : forall o, (o, s) = (out, s') ->
            exists reqs, calls s' = calls s ++ map CallCreateTrial reqs).
  { intros o E. simplify_eq. exists []. cbn. rewrite app_nil_r. reflexivity. }
  unfold makeBracket. destruct (_ || _).
  - unfold makeMasterBracket. step.
    destruct (GetStudy c (calls s) _) as [gsrep | e]; [| apply Hnone].
    destruct (make "" n_i) as [tids0 |]; [| apply Hnone].
    destruct (make None n_i) as [ts0 |]; [| apply Hnone].
    intros E. apply masterLoop_requests in E.
    destruct E as (reqs & ? & _). eauto.
  - unfold bind.
    destruct (evalWorkers c studyId hbparam s) as [o s1] eqn:E.
    apply evalWorkers_reads_only in E. subst s1.
    destruct o as [[[e |] [b |]] | |]; try apply Hnone.
    unfold makeChildBracket. step.
    destruct (GetStudy c (calls s) _) as [gsrep | e]; [| apply Hnone].
    destruct (StudyConfig_ gsrep) as [sconf |]; [| apply Hnone]. step.
    destruct (selectChild _ b n_i) as [child |]; [| apply Hnone]. step.
    destruct (GetTrials c (calls s) _) as [gtrep | e]; [| apply Hnone].
    destruct (make "" n_i) as [tids0 |]; [| apply Hnone].
    destruct (make None n_i) as [ts0 |]; [| apply Hnone].
    destruct (ParameterConfigs sconf) as [pcs |]; [| apply Hnone]. step.
    intros E. apply childLoop_count in E.
    destruct E as (reqs & ? & _). eauto.
Qed.

(** X13. Whatever its outcome, a call of [GetSuggestions] sends the Manager
    only [CreateTrial] requests, followed by at most one
    [SetSuggestionParameters]; and it sends that one only when it returns
    trials with a nil error. A call that returns an error, panics or exits
    has persisted nothing, though it may have created trials. *)
Theorem GetSuggestions_persists_only_on_success h dial in_ s out s' :
  GetSuggestions h dial in_ s = (out, s') ->
  exists reqs,
    calls s' = calls s ++ map CallCreateTrial reqs \/
    exists req ts,
      calls s' = calls s ++ map CallCreateTrial reqs ++ [CallSetSuggestionParameters req] /\
      out = Returned ({| replyTrials := ts |}, None).
Proof.
  assert (Hnone : forall o, (o, s) = (out, s') ->
            exists reqs,
              calls s' = calls s ++ map CallCreateTrial reqs \/
              exists req ts,
                calls s' = calls s ++ map CallCreateTrial reqs ++
                             [CallSetSuggestionParameters req] /\
                out = Returned ({| replyTrials := ts |}, None)).
  { intros o E. simplify_eq. exists []. left. cbn. rewrite app_nil_r. reflexivity. }
  unfold GetSuggestions. destruct dial as [c | e]; [| apply Hnone]. step.
  destruct (GetSuggestionParameters c (calls s) _) as [spr | e]; [| apply Hnone].
  destruct (purseSuggestionParameters _ _ _ s) as [o s1] eqn:Ep.
  apply purse_reads_only in Ep. subst s1.
  destruct o as [[[hb0 |] [e |]] | |]; try apply Hnone.
  destruct (currentS hb0 <=? 0); [apply Hnone |].
  fold (atStep hb0). destruct (getLoopParam (atStep hb0)) as [n_i r_i].
  destruct (makeBracket h c (inStudyId in_) n_i r_i (atStep hb0) s) as [o s1] eqn:Em.
  apply makeBracket_sends in Em. destruct Em as (reqs & Hcalls).
  destruct o as [[[[tids |] ts0] [e |]] | |];
    try (intros E; simplify_eq; exists reqs; left; exact Hcalls).
  unfold saveSuggestionParameters, do_SetSuggestionParameters. step. cbn.
  destruct (SetSuggestionParameters c (calls s1) _); intros E; simplify_eq;
    exists reqs; right; eexists; eexists; cbn; rewrite Hcalls, <- app_assoc;
    split; reflexivity.
Qed.

(** *** The schedule *)

Lemma committed_evaluatingTrials tids (hbparam : HyperBandParameters) :
  evaluatingTrials (committed tids hbparam) = tids.
Proof. unfold committed, shLoopParamUpdate. destruct (_ <? _); reflexivity. Qed.

Lemma wrap64_id z : inInt64 z -> wrap64 z = z.
Proof.
  unfold inInt64, wrap64, minInt64, maxInt64. intros Hz.
  rewrite Z.mod_small by lia. lia.
Qed.

Lemma atStep_counters (hbparam : HyperBandParameters) :
  currentS (atStep hbparam) = currentS hbparam /\
  shloopitr (atStep hbparam)
    = if currentS hbparam <? shloopitr hbparam then 0 else shloopitr hbparam.
Proof. unfold atStep. destruct (_ <? _); split; reflexivity. Qed.

Lemma shLoopParamUpdate_counters (hbparam : HyperBandParameters) :
  shloopitr (shLoopParamUpdate hbparam) = wrap64 (shloopitr hbparam + 1) /\
  currentS (shLoopParamUpdate hbparam)
    = if currentS hbparam <? wrap64 (shloopitr hbparam + 1)
      then wrap64 (currentS hbparam - 1) else currentS hbparam.
Proof.
  unfold shLoopParamUpdate.
  cbn [currentS shloopitr set_shloopitr].
  destruct (_ <? _); split; reflexivity.
Qed.

Lemma committed_counters tids (hbparam : HyperBandParameters) :
  let i := if currentS hbparam <? shloopitr hbparam then 0 else shloopitr hbparam in
  shloopitr (committed tids hbparam) = wrap64 (i + 1) /\
  currentS (committed tids hbparam)
    = if currentS hbparam <? wrap64 (i + 1)
      then wrap64 (currentS hbparam - 1) else currentS hbparam.
Proof.
  cbv zeta. unfold committed.
  destruct (shLoopParamUpdate_counters (set_evaluatingTrials tids (atStep hbparam)))
    as [Hi Hs].
  destruct (atStep_counters hbparam) as [Hs0 Hi0].
  change (shloopitr (set_evaluatingTrials tids (atStep hbparam)))
    with (shloopitr (atStep hbparam)) in Hi, Hs.
  change (currentS (set_evaluatingTrials tids (atStep hbparam)))
    with (currentS (atStep hbparam)) in Hs.
  rewrite Hs0, Hi0 in Hs. rewrite Hi0 in Hi. split; assumption.
Qed.

Lemma committed_progress tids (hbparam : HyperBandParameters) :
  0 < currentS hbparam -> inInt64 (currentS hbparam) ->
  inInt64 (shloopitr hbparam) -> shloopitr hbparam < maxInt64 ->
  let hb1 := committed tids hbparam in
  0 <= currentS hb1 /\
  (currentS hb1 < currentS hbparam \/
   currentS hb1 = currentS hbparam /\ 0 <= roundsLeft hb1 < roundsLeft hbparam).
Proof.
  intros Hs Hrs Hri Hmax. cbv zeta.
  destruct (committed_counters tids hbparam) as [Hi1 Hs1].
  unfold roundsLeft. rewrite Hi1, Hs1. clear Hi1 Hs1.
  unfold inInt64, minInt64, maxInt64 in *.
  destruct (Z.ltb_spec (currentS hbparam) (shloopitr hbparam)) as [Hroll | Hin].
  - rewrite (wrap64_id (0 + 1)) by (unfold inInt64, minInt64, maxInt64; lia).
    destruct (Z.ltb_spec (currentS hbparam) (0 + 1)); [lia |].
    destruct (Z.ltb_spec (currentS hbparam) (0 + 1)); lia.
  - rewrite (wrap64_id (shloopitr hbparam + 1))
      by (unfold inInt64, minInt64, maxInt64; lia).
    destruct (Z.ltb_spec (currentS hbparam) (shloopitr hbparam + 1)) as [Hlast | Hmore].
    + rewrite (wrap64_id (currentS hbparam - 1))
        by (unfold inInt64, minInt64, maxInt64; lia).
      lia.
    + destruct (Z.ltb_spec (currentS hbparam) (shloopitr hbparam + 1)); lia.
Qed.

(** X14. Every successful round moves the schedule on. When the loaded
    state has [currentS > 0] (with the counters in the range of [int]) and
    [GetSuggestions] returns trials with a nil error, the last request it
    sent persists the encoding of a state whose evaluating trials are the
    returned ids and in which either [currentS] has gone down, staying
    non-negative, or [currentS] is the same and the number of rounds left
    in the bracket has gone down. *)
Theorem GetSuggestions_advances h c in_ s spr hb0 ts s' :
  GetSuggestionParameters c (calls s) {| gspParamId := inParamId in_ |} = Reply spr ->
  purseSuggestionParameters c (inStudyId in_) (gspSuggestionParameters spr) s
    = (Returned (Some hb0, None), s) ->
  0 < currentS hb0 -> inInt64 (currentS hb0) ->
  inInt64 (shloopitr hb0) -> shloopitr hb0 < maxInt64 ->
  GetSuggestions h (Reply c) in_ s = (Returned ({| replyTrials := ts |}, None), s') ->
  let hb1 := committed (map GetTrialId ts) hb0 in
  last (calls s')
    = Some (CallSetSuggestionParameters
              {| sspStudyId := inStudyId in_;
                 SuggestionAlgorithm := inSuggestionAlgorithm in_;
                 sspParamId := inParamId in_;
                 SuggestionParameters := encodeParameters hb1 |}) /\
  evaluatingTrials hb1 = map GetTrialId ts /\
  0 <= currentS hb1 /\
  (currentS hb1 < currentS hb0 \/
   currentS hb1 = currentS hb0 /\ 0 <= roundsLeft hb1 < roundsLeft hb0).
Proof.
  intros Hspr Hpurse Hs Hrs Hri Hmax. cbv zeta.
  unfold GetSuggestions. step. rewrite Hspr, Hpurse.
  destruct (Z.leb_spec (currentS hb0) 0); [lia |].
  fold (atStep hb0). destruct (getLoopParam (atStep hb0)) as [n_i r_i].
  destruct (makeBracket h c (inStudyId in_) n_i r_i (atStep hb0) s) as [o s1] eqn:Em.
  destruct o as [[[[tids |] ts0] [e |]] | |]; try (finish; fail).
  apply makeBracket_emits in Em. destruct Em as (reqs & Hcalls & Hids & _).
  unfold saveSuggestionParameters, do_SetSuggestionParameters. step. cbn.
  subst tids. fold (committed (map GetTrialId ts0) hb0).
  destruct (SetSuggestionParameters c (calls s1) _); intros E; simplify_eq;
    cbn [calls];
    (split; [apply last_snoc |];
     split; [apply committed_evaluatingTrials |];
     apply committed_progress; assumption).
Qed.

End Facts.
End BracketFacts.

(** * More on the worker interface *)

Module WorkerFacts.
Import api Kubernetes WorkerStatements.

(** Unfolds the plumbing of one step of the worker interface. *)
Ltac kstep := unfold bind, ret, panic, look, act in *; cbn [fst snd] in *.

(** Splits [genJobManifest] into its successful cases. *)
Ltac manifest_cases conf Hgen :=
  revert Hgen; unfold genJobManifest;
  destruct (if (0 <? length (Tolerations conf))%nat then _ else _)
    as [tolerations |] eqn:Etol; [| discriminate];
  destruct (Mount conf) as [m |];
    [destruct (String.eqb_spec (Pvc m) ""); destruct (String.eqb_spec (Path m) "") |];
    cbn [negb andb];
    (destruct (ParseQuantity (strconv_Itoa (Cpu conf))) as [cpuReq | ?]; [| discriminate];
     destruct (ParseQuantity (Memory conf)) as [memoryReq | ?]; [| discriminate];
     destruct (Z.ltb_spec 0 (Gpu conf)) as [Hg | Hg];
     [ destruct (ParseQuantity (strconv_Itoa (Gpu conf))) as [gpuReq | ?]; [| discriminate] |];
     intros Hgen; inversion Hgen; subst; clear Hgen; cbn).

Section Facts.
Context `{Resource}.

(** *** The manifest *)

(** X15. The job is named after the worker; the job and its pod template
    carry the same labels; a label is the custom one when the config has a
    custom label under that key, and the Katib label otherwise, so that a
    custom "worker-id" or "katib-version" replaces Katib's; the template's
    annotations are the config's. *)
Theorem genJobManifest_labels wid conf job :
  genJobManifest wid (Some conf) = Returned (Some job, None) ->
  jName job = wid /\
  tLabels job = jLabels job /\
  (forall k, jLabels job !! k
             = match Labels conf !! k with
               | Some v => Some v
               | None => katibLabelsOf wid !! k
               end) /\
  tAnnotations job = Annotations conf.
Proof.
  intros Hgen.
  assert (Hl : forall k,
            (if (size (Labels conf) =? 0)%nat then katibLabelsOf wid
             else Labels conf ∪ katibLabelsOf wid) !! k
            = match Labels conf !! k with
              | Some v => Some v
              | None => katibLabelsOf wid !! k
              end).
  { intros k. destruct (Nat.eqb_spec (size (Labels conf)) 0) as [E | E].
    - apply map_size_empty_inv in E. rewrite E, lookup_empty. reflexivity.
    - rewrite lookup_union.
      destruct (Labels conf !! k), (katibLabelsOf wid !! k); reflexivity. }
  assert (Ha : (if (size (Annotations conf) =? 0)%nat then ∅ else Annotations conf)
               = Annotations conf).
  { destruct (Nat.eqb_spec (size (Annotations conf)) 0) as [E | E]; [| reflexivity].
    apply map_size_empty_inv in E. congruence. }
  manifest_cases conf Hgen; repeat split; auto.
Qed.

Lemma copyTolerations_Some ts :
  forall l, copyTolerations ts = Some l -> map Some l = ts.
Proof.
  induction ts as [| [t |] rest IH]; intros l; cbn [copyTolerations].
  - intros E. simplify_eq. reflexivity.
  - destruct (copyTolerations rest) as [l0 |]; [| discriminate].
    intros E. simplify_eq. cbn. rewrite (IH l0 eq_refl). destruct t. reflexivity.
  - discriminate.
Qed.

Lemma copyTolerations_None ts : copyTolerations ts = None <-> In None ts.
Proof.
  induction ts as [| [t |] rest IH]; cbn [copyTolerations In].
  - split; [discriminate | intros []].
  - destruct (copyTolerations rest) as [l0 |].
    + split; [discriminate |]. intros [E | Hin]; [discriminate |].
      apply IH in Hin. discriminate.
    + split; [intros _; right; apply IH; reflexivity | reflexivity].
  - split; [intros _; left; reflexivity | reflexivity].
Qed.

(** X16. The pod of the job runs one container, named after the worker,
    with the config's image and command, and tolerates what the config
    lists. A claim is mounted exactly when the config has a mount with both
    a claim name and a path: then the pod has one volume for that claim and
    the container mounts it at that path, and otherwise there is neither. *)
Theorem genJobManifest_mount wid conf job :
  genJobManifest wid (Some conf) = Returned (Some job, None) ->
  map Some (psTolerations (Spec job)) = Tolerations conf /\
  exists c0,
    Containers (Spec job) = [c0] /\
    cName c0 = wid /\ cImage c0 = Image conf /\ cCommand c0 = Command conf /\
    (forall m, Mount conf = Some m -> Pvc m <> "" -> Path m <> "" ->
       Volumes (Spec job) = [ {| vName := "pvc-mount-point"; ClaimName := Pvc m |} ] /\
       VolumeMounts c0 = [ {| vmName := "pvc-mount-point"; MountPath := Path m |} ]) /\
    ((forall m, Mount conf = Some m -> Pvc m = "" \/ Path m = "") ->
       Volumes (Spec job) = [] /\ VolumeMounts c0 = []).
Proof.
  intros Hgen.
  assert (Ht : forall l,
            (if (0 <? length (Tolerations conf))%nat
             then copyTolerations (Tolerations conf) else Some []) = Some l ->
            map Some l = Tolerations conf).
  { intros l. destruct (Tolerations conf) as [| t0 ts].
    - cbn. intros E. simplify_eq. reflexivity.
    - cbn [length Nat.ltb Nat.leb]. apply copyTolerations_Some. }
  manifest_cases conf Hgen;
    (split; [exact (Ht _ eq_refl) |]); eexists; (split; [reflexivity |]); cbn;
    repeat split; auto; intros;
    try (simplify_eq; congruence);
    try match goal with
        | Hm : forall m', Some _ = Some m' -> _ |- _ =>
            destruct (Hm _ eq_refl); congruence
        end.
Qed.

(** X17. [SpawnWorker] panics on a nil config, and on a config one of whose
    tolerations is nil, before anything is submitted. On any other config it
    does not panic: when a quantity does not parse it returns that error
    and submits nothing; otherwise it submits the manifest of
    [genJobManifest], once, and returns what the cluster answered. *)
Theorem SpawnWorker_submits_once d wid s :
  SpawnWorker d wid None s
    = (Panicked "invalid memory address or nil pointer dereference", s) /\
  forall conf,
    (In None (Tolerations conf) ->
     SpawnWorker d wid (Some conf) s
       = (Panicked "invalid memory address or nil pointer dereference", s)) /\
    (~ In None (Tolerations conf) ->
     (exists err,
        SpawnWorker d wid (Some conf) s = (Returned (Some err), s) /\
        (ParseQuantity (strconv_Itoa (Cpu conf)) = inr err \/
         ParseQuantity (Memory conf) = inr err \/
         0 < Gpu conf /\ ParseQuantity (strconv_Itoa (Gpu conf)) = inr err)) \/
     (exists job,
        genJobManifest wid (Some conf) = Returned (Some job, None) /\
        SpawnWorker d wid (Some conf) s
          = (Returned (match JobsCreate (clientset d) s job with
                       | Failed err => Some err
                       | Reply _ => None
                       end),
             s ++ [CallJobsCreate job]))).
Proof.
  split; [reflexivity |]. intros conf. split.
  - intros Hnil. unfold SpawnWorker, genJobManifest.
    destruct (Tolerations conf) as [| t0 ts] eqn:Ets; [destruct Hnil |].
    cbn [length Nat.ltb Nat.leb].
    apply copyTolerations_None in Hnil. rewrite Hnil. reflexivity.
  - intros Hok. unfold SpawnWorker, genJobManifest.
    assert (Htol : exists l,
              (if (0 <? length (Tolerations conf))%nat
               then copyTolerations (Tolerations conf) else Some []) = Some l).
    { destruct (_ <? _)%nat; [| eauto].
      destruct (copyTolerations (Tolerations conf)) as [l |] eqn:E; [eauto |].
      apply copyTolerations_None in E. contradiction. }
    destruct Htol as (l & ->).
    destruct (Mount conf) as [m |];
      [destruct (negb (String.eqb (Pvc m) "") && negb (String.eqb (Path m) "")) |];
      (destruct (ParseQuantity (strconv_Itoa (Cpu conf))) eqn:Ec; [| left; eauto];
       destruct (ParseQuantity (Memory conf)) eqn:Em; [| left; eauto 6];
       destruct (Z.ltb_spec 0 (Gpu conf));
       [destruct (ParseQuantity (strconv_Itoa (Gpu conf))) eqn:Eg; [| left; eauto 8] |];
       right; eexists; (split; [reflexivity |]);
       unfold bind, act, ret; cbn; destruct (JobsCreate _ _ _); reflexivity).
Qed.

(** *** Logs and completion *)

Lemma Join_Split s sep : strings_Join (strings_Split s sep) sep = s.
Proof.
  induction s as [| c s IH]; [reflexivity |].
  cbn [strings_Split]. destruct (Ascii.eqb_spec c sep) as [-> | Hc].
  - destruct (strings_Split s sep) as [| x l] eqn:E.
    + cbn in IH. subst s. discriminate E.
    + cbn [strings_Join] in *. rewrite IH. reflexivity.
  - destruct (strings_Split s sep) as [| x l] eqn:E.
    + cbn in IH. subst s. discriminate E.
    + destruct l as [| y l]; cbn [strings_Join] in *; [congruence |].
      rewrite <- IH. reflexivity.
Qed.

Lemma StoreWorkerLog_cases d wID s :
  (exists r, StoreWorkerLog d wID s = (Returned r, s)) \/
  (exists lines,
     StoreWorkerLog d wID s
     = (Returned (StoreWorkerLogs (db d) s wID lines), s ++ [CallStoreWorkerLogs wID lines])).
Proof.
  unfold StoreWorkerLog. kstep.
  destruct (fst (PodsList _ _ _)) as [| pod0 pods]; [left; eauto |].
  destruct (GetWorkerTimestamp _ _ _) as [mt | e]; [| left; eauto].
  destruct (PodsGetLogs _ _ _ _) as [logs | e]; [| left; eauto].
  destruct (_ =? _)%nat; [left; eauto | right; eauto].
Qed.

(** X18. A log that is not empty is stored whole: with a pod listed, the
    timestamp read and the log fetched since that timestamp,
    [StoreWorkerLog] hands the Database the lines of the log, which joined
    by newlines are the log again, and returns the Database's answer. Only
    the first listed pod is read. *)
Theorem StoreWorkerLog_stores_lines d wID s pod0 pods mt logs :
  fst (PodsList (clientset d) s (jobSelector wID)) = pod0 :: pods ->
  GetWorkerTimestamp (db d) s wID = Reply mt ->
  PodsGetLogs (clientset d) s (podName pod0) {| Timestamps := true; SinceTime := mt |}
    = Reply logs ->
  logs <> "" ->
  exists lines,
    StoreWorkerLog d wID s
      = (Returned (StoreWorkerLogs (db d) s wID lines),
         s ++ [CallStoreWorkerLogs wID lines]) /\
    strings_Join lines newline = logs.
Proof.
  intros Hpl Hmt Hlogs Hne. exists (strings_Split logs newline).
  split; [| apply Join_Split].
  unfold StoreWorkerLog. kstep. rewrite Hpl, Hmt, Hlogs.
  destruct logs as [| c0 l]; [contradiction |]. reflexivity.
Qed.

(** X19. [IsWorkerComplete] changes nothing and always returns; it answers
    true, and then with a nil error, exactly when the job reports a success
    count other than 0 and the first pod listed for the job is in phase
    "Succeeded". *)
Theorem IsWorkerComplete_true_iff d wID s :
  (exists c err, IsWorkerComplete d wID s = (Returned (c, err), s) /\
                 (c = true -> err = None)) /\
  (fst (IsWorkerComplete d wID s) = Returned (true, None) <->
   exists ji pod0 pods,
     JobsGet (clientset d) s wID = Reply ji /\
     Succeeded ji <> 0 /\
     fst (PodsList (clientset d) s (jobSelector wID)) = pod0 :: pods /\
     Phase pod0 = "Succeeded").
Proof.
  unfold IsWorkerComplete. kstep.
  destruct (JobsGet (clientset d) s wID) as [ji | e].
  2: { split; [eexists _, _; split; [reflexivity | discriminate] |].
       split; [discriminate | intros (? & ? & ? & ? & _); discriminate]. }
  destruct (Z.eqb_spec (Succeeded ji) 0) as [E0 | E0].
  { split; [eexists _, _; split; [reflexivity | discriminate] |].
    split; [discriminate |]. intros (ji' & ? & ? & Hji & Hs & _). simplify_eq. }
  destruct (fst (PodsList (clientset d) s (jobSelector wID))) as [| pod0 pods].
  { split; [eexists _, _; split; [reflexivity | discriminate] |].
    split; [discriminate | intros (? & ? & ? & _ & _ & ? & _); discriminate]. }
  destruct (String.eqb_spec (Phase pod0) "Succeeded") as [Ep | Ep].
  - split; [eexists _, _; split; reflexivity |].
    split; [intros _; eexists _, _, _; eauto | reflexivity].
  - split; [eexists _, _; split; [reflexivity | discriminate] |].
    split; [discriminate |]. intros (? & ? & ? & _ & _ & ? & ?). simplify_eq.
Qed.

(** *** The reaping loops *)

Lemma touched_app a b : touched (a ++ b) = touched a ++ touched b.
Proof.
  induction a as [| x a IH]; [reflexivity |].
  destruct x; cbn; rewrite ?IH; reflexivity.
Qed.

Lemma deleteJobAndPod_touched d wid chk s out s' :
  deleteJobAndPod d wid chk s = (out, s') ->
  exists tail, s' = s ++ CallJobsDelete wid :: tail /\ touched tail = [] /\
    Forall (fun call => exists name, call = CallPodsDelete name) tail.
Proof.
  unfold deleteJobAndPod. kstep.
  destruct (if chk then _ else _);
    [intros; simplify_eq; exists []; repeat split; auto |].
  destruct (fst (PodsList _ _ _)) as [| pod0 pods];
    [intros; simplify_eq; exists []; repeat split; auto |].
  intros; simplify_eq. exists [CallPodsDelete (podName pod0)].
  rewrite <- app_assoc. repeat split; auto. constructor; eauto.
Qed.

Lemma cleanLoop_touched d ws :
  forall s out s',
    cleanLoop d ws s = (out, s') ->
    exists added,
      s' = s ++ added /\
      touched added `prefix_of` cleaned ws /\
      (out = Returned None -> touched added = cleaned ws).
Proof.
  induction ws as [| w rest IH]; intros s out s'; cbn [cleanLoop].
  - kstep. intros E. simplify_eq. exists []. rewrite app_nil_r.
    repeat split; auto.
  - unfold cleaned. cbn [flat_map]. fold (cleaned rest). unfold running.
    destruct (decide (Status w = State_RUNNING)) as [Hr | Hr].
    + rewrite (bool_decide_eq_true_2 _ Hr). unfold bind at 1.
      destruct (deleteJobAndPod d (WorkerId w) false s) as [o1 s1] eqn:Ed.
      apply deleteJobAndPod_touched in Ed. destruct Ed as (tail & -> & Ht & _).
      destruct o1 as [r1 | msg |].
      2: { intros E. simplify_eq. eexists. split; [reflexivity |].
           cbn. rewrite Ht. split; [| discriminate].
           apply prefix_cons, prefix_nil. }
      2: { intros E. simplify_eq. eexists. split; [reflexivity |].
           cbn. rewrite Ht. split; [| discriminate].
           apply prefix_cons, prefix_nil. }
      kstep.
      destruct (UpdateWorker (db d) _ (WorkerId w) State_KILLED) as [err |].
      * intros E. simplify_eq. eexists. split; [rewrite <- app_assoc; reflexivity |].
        cbn. rewrite touched_app, Ht. cbn. split; [| discriminate].
        apply prefix_cons, prefix_cons, prefix_nil.
      * intros E. apply IH in E. destruct E as (added & -> & Hp & Heq).
        eexists. split; [rewrite <- !app_assoc; reflexivity |].
        cbn. rewrite !touched_app, Ht. cbn. split.
        -- apply prefix_cons, prefix_cons, Hp.
        -- intros Ho. rewrite (Heq Ho). reflexivity.
    + rewrite (bool_decide_eq_false_2 _ Hr). cbn [app]. apply IH.
Qed.

(** X20. [CleanWorkers] touches the RUNNING workers only, in the order the
    Database lists them: for each it deletes the job and then sets the
    status KILLED, and it sets no other status. If it returns nil every
    RUNNING worker has been dealt with; otherwise it stopped part way. *)
Theorem CleanWorkers_kills_running d studyId s ws out s' :
  GetWorkerList (db d) s studyId "" = Reply ws ->
  CleanWorkers d studyId s = (out, s') ->
  exists added,
    s' = s ++ added /\
    touched added `prefix_of` cleaned ws /\
    (out = Returned None -> touched added = cleaned ws).
Proof.
  intros Hws. unfold CleanWorkers. kstep. rewrite Hws. apply cleanLoop_touched.
Qed.

Lemma stopInner_touched d w isc wIDs :
  forall s out s',
    stopInner d w wIDs isc s = (out, s') ->
    exists added,
      s' = s ++ added /\
      touched added `prefix_of` stoppedFor isc wIDs w /\
      (out = Returned None -> touched added = stoppedFor isc wIDs w) /\
      out <> Returned (Some None).
Proof.
  induction wIDs as [| wid rest IH]; intros s out s'; cbn [stopInner].
  - kstep. intros E. simplify_eq. exists []. rewrite app_nil_r.
    repeat split; auto.
  - unfold stoppedFor. cbn [flat_map]. fold (stoppedFor isc rest w). unfold running.
    destruct (bool_decide (Status w = State_RUNNING) && String.eqb (WorkerId w) wid).
    + unfold bind at 1.
      destruct (deleteJobAndPod d wid true s) as [o1 s1] eqn:Ed.
      apply deleteJobAndPod_touched in Ed. destruct Ed as (tail & -> & Ht & _).
      destruct o1 as [[err |] | msg |].
      1, 3, 4: (intros E; kstep; simplify_eq; eexists; split; [reflexivity |];
                cbn; rewrite Ht; split; [apply prefix_cons, prefix_nil |];
                split; discriminate).
      kstep.
      destruct (UpdateWorker (db d) _ wid _) as [err |].
      * intros E. simplify_eq. eexists. split; [rewrite <- app_assoc; reflexivity |].
        cbn. rewrite touched_app, Ht. cbn.
        split; [apply prefix_cons, prefix_cons, prefix_nil |]. split; discriminate.
      * intros E. apply IH in E. destruct E as (added & -> & Hp & Heq & Hne).
        eexists. split; [rewrite <- !app_assoc; reflexivity |].
        cbn. rewrite !touched_app, Ht. cbn. split; [| split].
        -- apply prefix_cons, prefix_cons, Hp.
        -- intros Ho. rewrite (Heq Ho). reflexivity.
        -- exact Hne.
    + cbn [app]. apply IH.
Qed.

Lemma stopLoop_touched d isc wIDs ws :
  forall s out s',
    stopLoop d ws wIDs isc s = (out, s') ->
    exists added,
      s' = s ++ added /\
      touched added `prefix_of` stopped isc wIDs ws /\
      (out = Returned None -> touched added = stopped isc wIDs ws).
Proof.
  induction ws as [| w rest IH]; intros s out s'; cbn [stopLoop].
  - kstep. intros E. simplify_eq. exists []. rewrite app_nil_r.
    repeat split; auto.
  - unfold stopped. cbn [flat_map]. fold (stopped isc wIDs rest).
    unfold bind.
    destruct (stopInner d w wIDs isc s) as [o1 s1] eqn:Ei.
    apply stopInner_touched in Ei. destruct Ei as (a1 & -> & Hp1 & Heq1 & Hne1).
    destruct o1 as [[r |] | msg |].
    + (* the early return, which always carries an error *)
      intros E. kstep. simplify_eq. exists a1. split; [reflexivity |].
      split; [apply prefix_app_r; exact Hp1 |].
      intros Ho. exfalso. apply Hne1. congruence.
    + intros E. apply IH in E. destruct E as (a2 & -> & Hp2 & Heq2).
      exists (a1 ++ a2). split; [rewrite app_assoc; reflexivity |].
      rewrite touched_app, (Heq1 eq_refl). split.
      * apply prefix_app. exact Hp2.
      * intros Ho. rewrite (Heq2 Ho). reflexivity.
    + intros E. simplify_eq. exists a1. split; [reflexivity |].
      split; [apply prefix_app_r; exact Hp1 | discriminate].
    + intros E. simplify_eq. exists a1. split; [reflexivity |].
      split; [apply prefix_app_r; exact Hp1 | discriminate].
Qed.

(** X21. [StopWorkers] touches exactly the RUNNING workers whose id is
    among [wIDs], worker by worker and id by id: for each match it deletes
    the job and then sets the status, COMPLETED when [iscomplete] and KILLED
    otherwise; an id listed twice is dealt with twice. If it returns nil
    all of them have been dealt with; otherwise it stopped part way. *)
Theorem StopWorkers_stops_listed d studyId wIDs isc s ws out s' :
  GetWorkerList (db d) s studyId "" = Reply ws ->
  StopWorkers d studyId wIDs isc s = (out, s') ->
  exists added,
    s' = s ++ added /\
    touched added `prefix_of` stopped isc wIDs ws /\
    (out = Returned None -> touched added = stopped isc wIDs ws).
Proof.
  intros Hws. unfold StopWorkers. kstep. rewrite Hws. apply stopLoop_touched.
Qed.

(** X22. With a RUNNING worker first in the Database's list and its id
    first in [wIDs], a pod list that fails after the job was deleted makes
    [StopWorkers] return that error at once: the job is gone, no pod is
    deleted and no status is written. *)
Theorem StopWorkers_list_error d studyId s w ws wid wIDs isc err :
  GetWorkerList (db d) s studyId "" = Reply (w :: ws) ->
  Status w = State_RUNNING -> WorkerId w = wid ->
  snd (PodsList (clientset d) (s ++ [CallJobsDelete wid]) (jobSelector wid)) = Some err ->
  StopWorkers d studyId (wid :: wIDs) isc s
    = (Returned (Some err), s ++ [CallJobsDelete wid]).
Proof.
  intros Hws Hst Hid Hpl. unfold StopWorkers. kstep. rewrite Hws.
  cbn [stopLoop stopInner]. rewrite (bool_decide_eq_true_2 _ Hst), Hid, String.eqb_refl.
  cbn [andb]. unfold deleteJobAndPod. kstep. rewrite Hpl. reflexivity.
Qed.

Lemma IsWorkerComplete_looks d wID s :
  exists c err, IsWorkerComplete d wID s = (Returned (c, err), s).
Proof.
  unfold IsWorkerComplete. kstep.
  destruct (JobsGet _ _ _); [| eauto].
  destruct (_ =? _); [eauto |].
  destruct (fst (PodsList _ _ _)); [eauto |].
  destruct (String.eqb _ _); eauto.
Qed.

Lemma updateAllowed_mono w ws call :
  updateAllowed ws call -> updateAllowed (w :: ws) call.
Proof.
  destruct call; cbn; auto; intros (w0 & Hin & Hrest); exists w0;
    (split; [right; exact Hin | exact Hrest]).
Qed.

Lemma updateLoop_allowed d ws :
  forall s out s',
    updateLoop d ws s = (out, s') ->
    exists added, s' = s ++ added /\ Forall (updateAllowed ws) added.
Proof.
  induction ws as [| w rest IH]; intros s out s'; cbn [updateLoop].
  - kstep. intros; simplify_eq. exists []. rewrite app_nil_r. auto.
  - assert (Hrest : forall pre,
              Forall (updateAllowed (w :: rest)) pre ->
              updateLoop d rest (s ++ pre) = (out, s') ->
              exists added, s' = s ++ added /\ Forall (updateAllowed (w :: rest)) added).
    { intros pre Hpre E. apply IH in E. destruct E as (a & -> & Ha).
      exists (pre ++ a). rewrite app_assoc. split; [reflexivity |].
      apply Forall_app. split; [exact Hpre |].
      eapply Forall_impl; [exact Ha |]. intros call. apply updateAllowed_mono. }
    assert (Hstop : forall (o : Outcome (option error)) pre,
              Forall (updateAllowed (w :: rest)) pre ->
              (o, s ++ pre) = (out, s') ->
              exists added, s' = s ++ added /\ Forall (updateAllowed (w :: rest)) added).
    { intros o pre Hpre E. simplify_eq. eauto. }
    assert (Hlog : Status w = State_PENDING \/ Status w = State_RUNNING ->
              forall lines, updateAllowed (w :: rest) (CallStoreWorkerLogs (WorkerId w) lines)).
    { intros Hs lines. exists w. split; [left; reflexivity | auto]. }
    destruct (decide (Status w = State_PENDING)) as [Hp | Hp].
    + assert (Hup : updateAllowed (w :: rest) (CallUpdateWorker (WorkerId w) State_RUNNING)).
      { exists w. split; [left; reflexivity | auto]. }
      unfold bind at 1.
      destruct (StoreWorkerLog_cases d (WorkerId w) s) as [(r & ->) | (lines & ->)].
      * destruct r as [e |].
        -- intros E. apply (Hrest []); [constructor | rewrite app_nil_r; exact E].
        -- kstep.
           destruct (UpdateWorker (db d) s (WorkerId w) State_RUNNING).
           ++ eapply (Hstop _ [_]). auto.
           ++ apply (Hrest [_]). auto.
      * destruct (StoreWorkerLogs (db d) s (WorkerId w) lines) as [e |].
        -- apply (Hrest [_]). auto.
        -- kstep.
           destruct (UpdateWorker (db d) _ (WorkerId w) State_RUNNING);
             rewrite <- app_assoc; [eapply (Hstop _ [_; _]) | apply (Hrest [_; _])];
             auto.
    + destruct (decide (Status w = State_RUNNING)) as [Hr | Hr].
      2: { intros E. apply (Hrest []); [constructor | rewrite app_nil_r; exact E]. }
      assert (Hup : updateAllowed (w :: rest) (CallUpdateWorker (WorkerId w) State_COMPLETED)).
      { exists w. split; [left; reflexivity | auto]. }
      assert (Hdel : updateAllowed (w :: rest) (CallJobsDelete (WorkerId w))).
      { exists w. split; [left; reflexivity | auto]. }
      unfold bind at 1.
      destruct (IsWorkerComplete_looks d (WorkerId w) s) as (c & err & ->).
      destruct err as [e |].
      { intros E. eapply (Hstop _ []); [constructor | rewrite app_nil_r; exact E]. }
      assert (Hdone : forall pre,
                Forall (updateAllowed (w :: rest)) pre ->
                (if c
                 then bind (act (fun s0 => UpdateWorker (db d) s0 (WorkerId w) State_COMPLETED)
                              (CallUpdateWorker (WorkerId w) State_COMPLETED))
                        (fun err =>
                           match err with
                           | Some err => ret (Some err)
                           | None => bind (deleteJobAndPod d (WorkerId w) false)
                                       (fun _ => updateLoop d rest)
                           end)
                 else updateLoop d rest) (s ++ pre) = (out, s') ->
                exists added, s' = s ++ added /\ Forall (updateAllowed (w :: rest)) added).
      { intros pre Hpre. destruct c; [| apply Hrest; exact Hpre].
        unfold bind at 1. unfold act at 1.
        destruct (UpdateWorker (db d) (s ++ pre) (WorkerId w) State_COMPLETED).
        - unfold ret. rewrite <- app_assoc. apply Hstop.
          apply Forall_app. auto.
        - unfold bind at 1.
          destruct (deleteJobAndPod d (WorkerId w) false ((s ++ pre) ++ [_]))
            as [o1 s1] eqn:Ed.
          apply deleteJobAndPod_touched in Ed. destruct Ed as (tail & -> & _ & Htail).
          assert (Hall : Forall (updateAllowed (w :: rest))
                           (pre ++ CallUpdateWorker (WorkerId w) State_COMPLETED
                                :: CallJobsDelete (WorkerId w) :: tail)).
          { apply Forall_app. split; [exact Hpre |].
            constructor; [exact Hup |]. constructor; [exact Hdel |].
            eapply Forall_impl; [exact Htail |]. intros call (name & ->). exact I. }
          replace (((s ++ pre) ++ [CallUpdateWorker (WorkerId w) State_COMPLETED]) ++
                   CallJobsDelete (WorkerId w) :: tail)
            with (s ++ pre ++ CallUpdateWorker (WorkerId w) State_COMPLETED
                    :: CallJobsDelete (WorkerId w) :: tail)
            by (rewrite <- !app_assoc; reflexivity).
          destruct o1; [apply Hrest | apply Hstop | apply Hstop]; exact Hall. }
      unfold bind at 1.
      destruct (StoreWorkerLog_cases d (WorkerId w) s) as [(r & ->) | (lines & ->)].
      * destruct r as [e |].
        -- intros E. eapply (Hstop _ []); [constructor | rewrite app_nil_r; exact E].
        -- intros E. apply (Hdone []); [constructor | rewrite app_nil_r; exact E].
      * destruct (StoreWorkerLogs (db d) s (WorkerId w) lines) as [e |].
        -- eapply (Hstop _ [_]). auto.
        -- apply (Hdone [_]). auto.
Qed.

(** X23. [UpdateWorkerStatus] only moves workers forward: every status it
    writes is RUNNING for a worker listed PENDING or COMPLETED for a worker
    listed RUNNING, it stores logs only for workers listed PENDING or
    RUNNING, deletes jobs only of workers listed RUNNING, and creates no
    job. *)
Theorem UpdateWorkerStatus_transitions d studyId s ws out s' :
  GetWorkerList (db d) s studyId "" = Reply ws ->
  UpdateWorkerStatus d studyId s = (out, s') ->
  exists added, s' = s ++ added /\ Forall (updateAllowed ws) added.
Proof.
  intros Hws. unfold UpdateWorkerStatus. kstep. rewrite Hws. apply updateLoop_allowed.
Qed.

Lemma updateLoop_app d pre l :
  forall s s1,
    updateLoop d pre s = (Returned None, s1) ->
    updateLoop d (pre ++ l) s = updateLoop d l s1.
Proof.
  induction pre as [| w rest IH]; intros s s1; cbn [updateLoop app].
  - kstep. intros E. simplify_eq. reflexivity.
  - unfold deleteJobAndPod. kstep.
    repeat (case_match; simplify_eq; try discriminate; try (apply IH)).
Qed.

(** C9. In a pass of [UpdateWorkerStatus] that has reached a PENDING worker
    (the workers listed before it were dealt with without error), with a
    pod listed for it, a readable timestamp and a log fetch that succeeds
    with empty output: [StoreWorkerLog] returns nil without sending anything
    to the Database, and the very next call [UpdateWorkerStatus] makes asks
    the Database to set that worker RUNNING; the pass then ends with the
    Database's error, if it gave one, and goes on with the workers after it
    otherwise. *)
Theorem UpdateWorkerStatus_pending_empty_log d studyId s pre w rest s1 pod0 pods mt :
  GetWorkerList (db d) s studyId "" = Reply (pre ++ w :: rest) ->
  updateLoop d pre s = (Returned None, s1) ->
  Status w = State_PENDING ->
  fst (PodsList (clientset d) s1 (jobSelector (WorkerId w))) = pod0 :: pods ->
  GetWorkerTimestamp (db d) s1 (WorkerId w) = Reply mt ->
  PodsGetLogs (clientset d) s1 (podName pod0) {| Timestamps := true; SinceTime := mt |}
    = Reply "" ->
  StoreWorkerLog d (WorkerId w) s1 = (Returned None, s1) /\
  (exists tail,
     snd (UpdateWorkerStatus d studyId s)
     = s1 ++ CallUpdateWorker (WorkerId w) State_RUNNING :: tail) /\
  UpdateWorkerStatus d studyId s =
    match UpdateWorker (db d) s1 (WorkerId w) State_RUNNING with
    | Some err =>
        (Returned (Some err), s1 ++ [CallUpdateWorker (WorkerId w) State_RUNNING])
    | None => updateLoop d rest (s1 ++ [CallUpdateWorker (WorkerId w) State_RUNNING])
    end.
Proof.
  intros Hws Hpre Hst Hpl Hmt Hlogs.
  assert (Hstore : StoreWorkerLog d (WorkerId w) s1 = (Returned None, s1)).
  { unfold StoreWorkerLog, bind, look, ret. cbn [fst snd].
    rewrite Hpl, Hmt, Hlogs. reflexivity. }
  assert (Hrun : UpdateWorkerStatus d studyId s =
            match UpdateWorker (db d) s1 (WorkerId w) State_RUNNING with
            | Some err =>
                (Returned (Some err), s1 ++ [CallUpdateWorker (WorkerId w) State_RUNNING])
            | None => updateLoop d rest (s1 ++ [CallUpdateWorker (WorkerId w) State_RUNNING])
            end).
  { unfold UpdateWorkerStatus. unfold bind at 1. unfold look at 1. rewrite Hws.
    rewrite (updateLoop_app d pre (w :: rest) s s1 Hpre).
    cbn [updateLoop]. destruct (decide (Status w = State_PENDING)); [| contradiction].
    unfold bind at 1. rewrite Hstore.
    unfold bind, act, ret. cbn.
    destruct (UpdateWorker (db d) s1 (WorkerId w) State_RUNNING); reflexivity. }
  split; [exact Hstore |]. split; [| exact Hrun].
  rewrite Hrun.
  destruct (UpdateWorker (db d) s1 (WorkerId w) State_RUNNING).
  - exists []. reflexivity.
  - destruct (updateLoop d rest (s1 ++ [CallUpdateWorker (WorkerId w) State_RUNNING]))
      as [o s2] eqn:E.
    apply updateLoop_allowed in E. destruct E as (added & -> & _).
    exists added. cbn [snd]. rewrite <- app_assoc. reflexivity.
Qed.

(** X24. A worker whose job has no pod is passed over when it is PENDING,
    the error of [StoreWorkerLog] being dropped, but ends the whole pass
    when it is RUNNING: the loop returns an error there and the workers
    after it are not looked at. *)
Theorem updateLoop_without_pod d w rest s :
  fst (PodsList (clientset d) s (jobSelector (WorkerId w))) = [] ->
  (Status w = State_PENDING -> updateLoop d (w :: rest) s = updateLoop d rest s) /\
  (Status w = State_RUNNING ->
   exists err, updateLoop d (w :: rest) s = (Returned (Some err), s)).
Proof.
  intros Hpl. split; intros Hst; cbn [updateLoop].
  - destruct (decide (Status w = State_PENDING)); [| contradiction].
    unfold StoreWorkerLog. kstep. rewrite Hpl. reflexivity.
  - destruct (decide (Status w = State_PENDING)) as [Hp |]; [congruence |].
    destruct (decide (Status w = State_RUNNING)); [| contradiction].
    unfold IsWorkerComplete, StoreWorkerLog. kstep.
    destruct (JobsGet (clientset d) s (WorkerId w)) as [ji | ?]; [| eauto].
    destruct (Succeeded ji =? 0); rewrite Hpl; eauto.
Qed.

(** *** What the cluster answers to a delete *)

Lemma StoreWorkerLog_same cs cs' database wID s :
  sameButDeletes cs cs' ->
  StoreWorkerLog {| clientset := cs; db := database |} wID s
  = StoreWorkerLog {| clientset := cs'; db := database |} wID s.
Proof.
  intros (_ & _ & Hpl & Hlogs). unfold StoreWorkerLog. kstep. cbn.
  rewrite Hpl, Hlogs. reflexivity.
Qed.

Lemma IsWorkerComplete_same cs cs' database wID s :
  sameButDeletes cs cs' ->
  IsWorkerComplete {| clientset := cs; db := database |} wID s
  = IsWorkerComplete {| clientset := cs'; db := database |} wID s.
Proof.
  intros (Hget & _ & Hpl & _). unfold IsWorkerComplete. kstep. cbn.
  rewrite Hget, Hpl. reflexivity.
Qed.

Lemma deleteJobAndPod_same cs cs' database wid chk s :
  sameButDeletes cs cs' ->
  deleteJobAndPod {| clientset := cs; db := database |} wid chk s
  = deleteJobAndPod {| clientset := cs'; db := database |} wid chk s.
Proof.
  intros (_ & _ & Hpl & _). unfold deleteJobAndPod. kstep. cbn.
  rewrite Hpl. destruct (if chk then _ else _); [reflexivity |].
  destruct (fst _); reflexivity.
Qed.

Lemma updateLoop_same cs cs' database ws :
  sameButDeletes cs cs' ->
  forall s,
    updateLoop {| clientset := cs; db := database |} ws s
    = updateLoop {| clientset := cs'; db := database |} ws s.
Proof.
  intros Hsame. induction ws as [| w rest IH]; intros s; cbn [updateLoop]; [reflexivity |].
  destruct (decide (Status w = State_PENDING)).
  - unfold bind. rewrite (StoreWorkerLog_same cs cs' _ _ _ Hsame).
    destruct (StoreWorkerLog _ _ _) as [[[? |] | |] s1]; auto.
    unfold act, ret. cbn [db]. destruct (UpdateWorker _ _ _ _); auto.
  - destruct (decide (Status w = State_RUNNING)); [| apply IH].
    unfold bind. rewrite (IsWorkerComplete_same cs cs' _ _ _ Hsame).
    destruct (IsWorkerComplete _ _ _) as [[[c [? |]] | |] s1]; auto.
    rewrite (StoreWorkerLog_same cs cs' _ _ _ Hsame).
    destruct (StoreWorkerLog _ _ _) as [[[? |] | |] s2]; auto.
    destruct c; [| apply IH].
    unfold act, ret. cbn [db].
    destruct (UpdateWorker _ _ _ _); [reflexivity |].
    rewrite (deleteJobAndPod_same cs cs' _ _ _ _ Hsame).
    destruct (deleteJobAndPod _ _ _ _) as [[? | |] s3]; auto.
Qed.

Lemma cleanLoop_same cs cs' database ws :
  sameButDeletes cs cs' ->
  forall s,
    cleanLoop {| clientset := cs; db := database |} ws s
    = cleanLoop {| clientset := cs'; db := database |} ws s.
Proof.
  intros Hsame. induction ws as [| w rest IH]; intros s; cbn [cleanLoop]; [reflexivity |].
  destruct (decide (Status w = State_RUNNING)); [| apply IH].
  unfold bind at 1 3. rewrite (deleteJobAndPod_same cs cs' _ _ _ _ Hsame).
  destruct (deleteJobAndPod _ _ _ _) as [[? | |] s1]; auto.
  kstep. cbn. destruct (UpdateWorker _ _ _ _); auto.
Qed.

Lemma stopInner_same cs cs' database w isc wIDs :
  sameButDeletes cs cs' ->
  forall s,
    stopInner {| clientset := cs; db := database |} w wIDs isc s
    = stopInner {| clientset := cs'; db := database |} w wIDs isc s.
Proof.
  intros Hsame. induction wIDs as [| wid rest IH]; intros s; cbn [stopInner];
    [reflexivity |].
  destruct (_ && _); [| apply IH].
  unfold bind at 1 3. rewrite (deleteJobAndPod_same cs cs' _ _ _ _ Hsame).
  destruct (deleteJobAndPod _ _ _ _) as [[[? |] | |] s1]; auto.
  kstep. cbn. destruct (UpdateWorker _ _ _ _); auto.
Qed.

Lemma stopLoop_same cs cs' database isc wIDs ws :
  sameButDeletes cs cs' ->
  forall s,
    stopLoop {| clientset := cs; db := database |} ws wIDs isc s
    = stopLoop {| clientset := cs'; db := database |} ws wIDs isc s.
Proof.
  intros Hsame. induction ws as [| w rest IH]; intros s; cbn [stopLoop]; [reflexivity |].
  unfold bind. rewrite (stopInner_same cs cs' _ _ _ _ Hsame).
  destruct (stopInner _ _ _ _ _) as [[[r |] | |] s1]; auto.
Qed.

(** X25. What the cluster answers to a delete makes no difference: on two
    clusters that agree on everything but the results of deleting a job and
    deleting a pod, [UpdateWorkerStatus], [CleanWorkers] and [StopWorkers]
    send the same calls and end in the same way. A failed delete is never
    reported, and the status is written as if it had succeeded. *)
Theorem delete_answers_ignored cs cs' database studyId wIDs isc s :
  sameButDeletes cs cs' ->
  UpdateWorkerStatus {| clientset := cs; db := database |} studyId s
    = UpdateWorkerStatus {| clientset := cs'; db := database |} studyId s /\
  CleanWorkers {| clientset := cs; db := database |} studyId s
    = CleanWorkers {| clientset := cs'; db := database |} studyId s /\
  StopWorkers {| clientset := cs; db := database |} studyId wIDs isc s
    = StopWorkers {| clientset := cs'; db := database |} studyId wIDs isc s.
Proof.
  intros Hsame. unfold UpdateWorkerStatus, CleanWorkers, StopWorkers. kstep. cbn [db].
  destruct (GetWorkerList database s studyId "") as [ws | e]; [| auto].
  split; [apply updateLoop_same; exact Hsame |].
  split; [apply cleanLoop_same; exact Hsame | apply stopLoop_same; exact Hsame].
Qed.

End Facts.
End WorkerFacts.

(** * Concrete runs for the further properties *)

Module MoreScenario.
Import api Suggestion Statements SuggestionFacts PurseFacts BracketFacts Binary64 Fixtures.

Lemma purse_without_ResourceName_witness :
  purseSuggestionParameters (manager fresh) "study"
    [ mkSuggestionParameter "eta" "3"; mkSuggestionParameter "r_l" "3" ] start
  = (Returned (None, Some (fmt_Errorf "Suggestion Parameter set Error")), start).
Proof.
  apply (purse_without_ResourceName (manager fresh) "study"
           [ mkSuggestionParameter "eta" "3"; mkSuggestionParameter "r_l" "3" ] start).
  intros sp [<- | [<- | []]]; discriminate.
Defined.

Lemma purse_without_r_l_witness :
  purseSuggestionParameters (manager fresh) "study"
    [ mkSuggestionParameter "ResourceName" "epochs"; mkSuggestionParameter "eta" "3" ] start
  = (Returned (None, Some (fmt_Errorf "Suggestion Parameter set Error")), start).
Proof.
  apply (purse_without_r_l (manager fresh) "study"
           [ mkSuggestionParameter "ResourceName" "epochs";
             mkSuggestionParameter "eta" "3" ] start).
  - vm_compute. reflexivity.
  - intros sp [<- | [<- | []]]; discriminate.
Defined.

Lemma purseLoop_encode_integers_witness :
  let p := fold_left purseOne (encodeParameters (loaded ["t1"; "t2"])) unsetParameters in
  sMax p = sMax (loaded ["t1"; "t2"]) /\ n p = n (loaded ["t1"; "t2"]) /\
  shloopitr p = shloopitr (loaded ["t1"; "t2"]) /\
  currentS p = currentS (loaded ["t1"; "t2"]) /\
  ResourceName p = ResourceName (loaded ["t1"; "t2"]).
Proof.
  apply (purseLoop_encode_integers (loaded ["t1"; "t2"]));
    unfold inInt64, minInt64, maxInt64; cbn; lia.
Defined.

(** The master bracket of the fresh study: three trials at one epoch. *)
Example makeMasterBracket_fresh :
  makeMasterBracket sampler (manager fresh) "study" 3 1%float (loaded []) start
  = (Returned (Some ["new-0"; "new-1"; "new-2"],
               [sampled "new-0"; sampled "new-1"; sampled "new-2"], None),
     mkSent [CallCreateTrial sample; CallCreateTrial sample; CallCreateTrial sample] 3).
Proof. vm_compute. reflexivity. Qed.

Lemma makeMasterBracket_requests_witness :
  exists reqs,
    calls (mkSent [CallCreateTrial sample; CallCreateTrial sample; CallCreateTrial sample] 3)
      = calls start ++ map CallCreateTrial reqs /\
    (length reqs <= Z.to_nat 3)%nat /\
    Forall (fun req =>
              exists gsrep,
                GetStudy (manager fresh) (calls start) {| gsStudyId := "study" |}
                  = Reply gsrep /\
                masterRequest "study" 1%float (loaded []) (StudyConfig_ gsrep) req) reqs.
Proof.
  apply (makeMasterBracket_requests sampler (manager fresh) "study" 3 1%float (loaded [])
           start
           (Returned (Some ["new-0"; "new-1"; "new-2"],
                      [sampled "new-0"; sampled "new-1"; sampled "new-2"], None))).
  vm_compute. reflexivity.
Defined.

(** With the DOUBLE parameter as the resource, the resource value is
    written with four decimals and the INT parameter is sampled. *)
Example makeMasterBracket_double_resource :
  makeMasterBracket sampler (manager fresh) "study" 1 3%float
    (set_ResourceName "lr" (loaded [])) start
  = (Returned (Some ["new-0"],
               [ Some (mkTrial "new-0" "study"
                         [ mkParameter "epochs" ParameterType_INT "1";
                           mkParameter "lr" ParameterType_DOUBLE "3.0000" ]) ], None),
     mkSent [ CallCreateTrial
                {| ctTrial := mkTrial "" "study"
                                [ mkParameter "epochs" ParameterType_INT "1";
                                  mkParameter "lr" ParameterType_DOUBLE "3.0000" ] |} ] 1).
Proof. vm_compute. reflexivity. Qed.

Lemma makeMasterBracket_complete_witness :
  0 <= 3 /\
  length [sampled "new-0"; sampled "new-1"; sampled "new-2"] = Z.to_nat 3 /\
  (exists reqs,
     calls (mkSent [CallCreateTrial sample; CallCreateTrial sample; CallCreateTrial sample] 3)
       = calls start ++ map CallCreateTrial reqs /\
     length reqs = Z.to_nat 3) /\
  forall j, (j < Z.to_nat 3)%nat ->
    exists t, [sampled "new-0"; sampled "new-1"; sampled "new-2"] !! j = Some (Some t) /\
              ["new-0"; "new-1"; "new-2"] !! j = Some (TrialId t).
Proof.
  apply (makeMasterBracket_complete sampler (manager fresh) "study" 3 1%float (loaded [])
           start).
  vm_compute. reflexivity.
Defined.

(** Minimizing with two slots for three ranked trials: one survivor, one
    slot left nil. *)
Lemma makeChildBracket_fills_prefix_witness :
  (length [ mkEvals "t3" (fst (ParseFloat "0.1")) ] <= Z.to_nat 2)%nat /\
  length [promotedLast; None] = Z.to_nat 2 /\
  (exists reqs,
     calls (mkSent [CallCreateTrial (promote "0.3000")] 0)
       = calls start ++ map CallCreateTrial reqs /\
     length reqs = length [ mkEvals "t3" (fst (ParseFloat "0.1")) ]) /\
  (forall j, (j < length [ mkEvals "t3" (fst (ParseFloat "0.1")) ])%nat ->
     exists t, [promotedLast; None] !! j = Some (Some t)) /\
  (forall j, (length [ mkEvals "t3" (fst (ParseFloat "0.1")) ] <= j < Z.to_nat 2)%nat ->
     [promotedLast; None] !! j = Some None).
Proof.
  apply (makeChildBracket_fills_prefix
           (manager (completedStudy OptimizationType_MINIMIZE)) ranked "study" 2 3%float
           (loaded ["t1"; "t2"; "t3"]) start (studyConfig OptimizationType_MINIMIZE)
           [ mkEvals "t3" (fst (ParseFloat "0.1")) ] ["new-0"; ""]).
  - reflexivity.
  - vm_compute. reflexivity.
  - vm_compute. reflexivity.
Defined.

Lemma makeChildBracket_maximize_full_witness :
  (exists reqs,
     calls (mkSent [CallCreateTrial (promote "0.1000")] 0)
       = calls start ++ map CallCreateTrial reqs /\
     Z.of_nat (length reqs) = 1) /\
  Z.of_nat (length promoted) = 1 /\
  Forall (fun t => t <> None) promoted.
Proof.
  apply (makeChildBracket_maximize_full
           (manager (completedStudy OptimizationType_MAXIMIZE)) ranked "study" 1 3%float
           (loaded ["t1"; "t2"; "t3"]) start (studyConfig OptimizationType_MAXIMIZE)
           ["new-0"]).
  - reflexivity.
  - reflexivity.
  - vm_compute. discriminate.
  - vm_compute. reflexivity.
Defined.

Lemma makeChildBracket_unknown_optimization_witness :
  makeChildBracket (manager (completedStudy OptimizationType_UNKNOWN_OPTIMIZATION)) ranked
    "study" 2 3%float (loaded ["t1"; "t2"; "t3"]) start
  = (Returned (Some (replicate (Z.to_nat 2) ""), replicate (Z.to_nat 2) None, None), start).
Proof.
  apply (makeChildBracket_unknown_optimization
           (manager (completedStudy OptimizationType_UNKNOWN_OPTIMIZATION)) ranked
           "study" 2 3%float (loaded ["t1"; "t2"; "t3"]) start
           (studyConfig OptimizationType_UNKNOWN_OPTIMIZATION) parameterConfigs
           {| Trials := threeTrials |}).
  - reflexivity.
  - discriminate.
  - discriminate.
  - reflexivity.
  - reflexivity.
  - lia.
Defined.

Lemma makeChildBracket_minimize_overrun_witness :
  exists reqs,
    makeChildBracket (manager (completedStudy OptimizationType_MINIMIZE)) ranked
      "study" 1 3%float (loaded ["t1"; "t2"; "t3"]) start
    = (Panicked "index out of range",
       mkSent (calls start ++ map CallCreateTrial reqs) (draws start)) /\
    Z.of_nat (length reqs) = 1 + 1.
Proof.
  apply (makeChildBracket_minimize_overrun
           (manager (completedStudy OptimizationType_MINIMIZE)) ranked
           "study" 1 3%float (loaded ["t1"; "t2"; "t3"]) start
           (studyConfig OptimizationType_MINIMIZE) parameterConfigs
           {| Trials := threeTrials |}).
  - reflexivity.
  - reflexivity.
  - reflexivity.
  - reflexivity.
  - intros sent req. eexists. reflexivity.
  - lia.
  - vm_compute. reflexivity.
Defined.

Lemma evalWorkers_bracket_completed_witness :
  @None error = None /\ start = start /\
  forall tid, In tid (evaluatingTrials (loaded ["t1"; "t2"; "t3"])) ->
    trialCompleted (manager (completedStudy OptimizationType_MINIMIZE)) (calls start)
      "study" (loaded ["t1"; "t2"; "t3"]) tid.
Proof.
  apply (evalWorkers_bracket_completed
           (manager (completedStudy OptimizationType_MINIMIZE)) "study"
           (loaded ["t1"; "t2"; "t3"]) start None ranked start).
  vm_compute. reflexivity.
Defined.

(** The Manager refuses the second trial of the master bracket: the call
    returns the error, one trial stays created and no state is persisted. *)
Example GetSuggestions_refused :
  GetSuggestions sampler (Reply (refusingAfter 1 fresh)) request start
  = (Returned ({| replyTrials := [] |}, Some (RemoteError "unavailable")),
     mkSent [CallCreateTrial sample; CallCreateTrial sample] 2).
Proof. vm_compute. reflexivity. Qed.

Lemma GetSuggestions_persists_only_on_success_witness :
  exists reqs,
    calls (mkSent [CallCreateTrial sample; CallCreateTrial sample] 2)
      = calls start ++ map CallCreateTrial reqs \/
    exists req ts,
      calls (mkSent [CallCreateTrial sample; CallCreateTrial sample] 2)
        = calls start ++ map CallCreateTrial reqs ++ [CallSetSuggestionParameters req] /\
      Returned ({| replyTrials := [] |}, Some (RemoteError "unavailable"))
        = Returned ({| replyTrials := ts |}, None).
Proof.
  apply (GetSuggestions_persists_only_on_success sampler (Reply (refusingAfter 1 fresh))
           request start).
  vm_compute. reflexivity.
Defined.

Lemma GetSuggestions_advances_witness :
  let hb1 := committed (map GetTrialId promoted) (loaded ["t1"; "t2"; "t3"]) in
  last (calls afterPromotion)
    = Some (CallSetSuggestionParameters
              {| sspStudyId := inStudyId request;
                 SuggestionAlgorithm := inSuggestionAlgorithm request;
                 sspParamId := inParamId request;
                 SuggestionParameters := encodeParameters hb1 |}) /\
  evaluatingTrials hb1 = map GetTrialId promoted /\
  0 <= currentS hb1 /\
  (currentS hb1 < currentS (loaded ["t1"; "t2"; "t3"]) \/
   currentS hb1 = currentS (loaded ["t1"; "t2"; "t3"]) /\
   0 <= roundsLeft hb1 < roundsLeft (loaded ["t1"; "t2"; "t3"])).
Proof.
  apply (GetSuggestions_advances sampler (manager (completedStudy OptimizationType_MAXIMIZE))
           request start {| gspSuggestionParameters := afterMaster "t1,t2,t3" |}
           (loaded ["t1"; "t2"; "t3"]) promoted afterPromotion).
  - reflexivity.
  - vm_compute. reflexivity.
  - cbn. lia.
  - unfold inInt64, minInt64, maxInt64. cbn. lia.
  - unfold inInt64, minInt64, maxInt64. cbn. lia.
  - unfold maxInt64. cbn. lia.
  - vm_compute. reflexivity.
Defined.

End MoreScenario.

Module WorkerScenario.
Import api Kubernetes WorkerStatements WorkerFacts KubernetesFixtures.

Example genJobManifest_w2 :
  genJobManifest "w2" (Some w2Config) = Returned (Some w2Job, None).
Proof. vm_cast_no_check (@eq_refl _ (Returned (Some w2Job, @None error))). Qed.

Lemma genJobManifest_labels_witness :
  jName w2Job = "w2" /\
  tLabels w2Job = jLabels w2Job /\
  (forall k, jLabels w2Job !! k
             = match Labels w2Config !! k with
               | Some v => Some v
               | None => katibLabelsOf "w2" !! k
               end) /\
  tAnnotations w2Job = Annotations w2Config.
Proof.
  apply (genJobManifest_labels "w2" w2Config w2Job).
  vm_cast_no_check (@eq_refl _ (Returned (Some w2Job, @None error))).
Defined.

(** The custom label has replaced Katib's under "worker-id". *)
Example w2_worker_id_label :
  jLabels w2Job !! "worker-id" = Some "custom" /\
  jLabels w2Job !! "katib-version" = Some "alpha-0.2.0".
Proof. split; vm_compute; reflexivity. Qed.

Lemma genJobManifest_mount_witness :
  map Some (psTolerations (Spec w2Job)) = Tolerations w2Config /\
  exists c0,
    Containers (Spec w2Job) = [c0] /\
    cName c0 = "w2" /\ cImage c0 = Image w2Config /\ cCommand c0 = Command w2Config /\
    (forall m, Mount w2Config = Some m -> Pvc m <> "" -> Path m <> "" ->
       Volumes (Spec w2Job) = [ {| vName := "pvc-mount-point"; ClaimName := Pvc m |} ] /\
       VolumeMounts c0 = [ {| vmName := "pvc-mount-point"; MountPath := Path m |} ]) /\
    ((forall m, Mount w2Config = Some m -> Pvc m = "" \/ Path m = "") ->
       Volumes (Spec w2Job) = [] /\ VolumeMounts c0 = []).
Proof.
  apply (genJobManifest_mount "w2" w2Config w2Job).
  vm_cast_no_check (@eq_refl _ (Returned (Some w2Job, @None error))).
Defined.

Example SpawnWorker_nil_config :
  SpawnWorker idle "w1" None []
    = (Panicked "invalid memory address or nil pointer dereference", []) /\
  SpawnWorker idle "w1"
      (Some (mkWorkerConfig "trainer:latest" [] 0 "" None "regcred" 2 "4Gi" ∅ ∅ [None])) []
    = (Panicked "invalid memory address or nil pointer dereference", []) /\
  SpawnWorker idle "w1"
      (Some (mkWorkerConfig "trainer:latest" [] 0 "" None "regcred" 2 "four" ∅ ∅ [])) []
    = (Returned (Some (fmt_Errorf "quantities must match the regular expression")), []).
Proof. split; [| split]; vm_compute; reflexivity. Qed.

Lemma StoreWorkerLog_stores_lines_witness :
  exists lines,
    StoreWorkerLog logging "w1" []
      = (Returned (StoreWorkerLogs (db logging) [] "w1" lines),
         [] ++ [CallStoreWorkerLogs "w1" lines]) /\
    strings_Join lines newline = twoLines.
Proof.
  apply (StoreWorkerLog_stores_lines logging "w1" [] (mkPod "w1-x7" "Succeeded") [] None
           twoLines).
  - reflexivity.
  - reflexivity.
  - reflexivity.
  - vm_compute. discriminate.
Defined.

Example StoreWorkerLog_two_lines :
  StoreWorkerLog logging "w1" []
  = (Returned None, [CallStoreWorkerLogs "w1" ["epoch 1"; "epoch 2"]]).
Proof. vm_compute. reflexivity. Qed.

Lemma CleanWorkers_kills_running_witness :
  exists added,
    [ CallJobsDelete "w1"; CallPodsDelete "w1-x7"; CallUpdateWorker "w1" State_KILLED;
      CallJobsDelete "w3"; CallPodsDelete "w1-x7"; CallUpdateWorker "w3" State_KILLED ]
      = [] ++ added /\
    touched added `prefix_of` cleaned threeWorkers /\
    (Returned (@None error) = Returned None -> touched added = cleaned threeWorkers).
Proof.
  apply (CleanWorkers_kills_running busy "study" [] threeWorkers (Returned None)).
  - reflexivity.
  - vm_compute. reflexivity.
Defined.

Lemma StopWorkers_stops_listed_witness :
  exists added,
    [ CallJobsDelete "w3"; CallPodsDelete "w1-x7"; CallUpdateWorker "w3" State_COMPLETED ]
      = [] ++ added /\
    touched added `prefix_of` stopped true ["w2"; "w3"] threeWorkers /\
    (Returned (@None error) = Returned None ->
     touched added = stopped true ["w2"; "w3"] threeWorkers).
Proof.
  apply (StopWorkers_stops_listed busy "study" ["w2"; "w3"] true [] threeWorkers
           (Returned None)).
  - reflexivity.
  - vm_compute. reflexivity.
Defined.

Lemma StopWorkers_list_error_witness :
  StopWorkers {| clientset := failingList (clientset busy); db := db busy |}
    "study" ["w1"; "w3"] false []
  = (Returned (Some (RemoteError "timeout")), [] ++ [CallJobsDelete "w1"]).
Proof.
  apply (StopWorkers_list_error
           {| clientset := failingList (clientset busy); db := db busy |}
           "study" [] (mkWorker "w1" "study" "t1" State_RUNNING)
           [ mkWorker "w2" "study" "t2" State_PENDING;
             mkWorker "w3" "study" "t3" State_RUNNING ]
           "w1" ["w3"] false (RemoteError "timeout")); reflexivity.
Defined.

Example UpdateWorkerStatus_two_pending :
  UpdateWorkerStatus twoPending "study" []
  = (Returned None, [CallUpdateWorker "w0" State_RUNNING; CallUpdateWorker "w1" State_RUNNING]).
Proof. vm_compute. reflexivity. Qed.

Lemma UpdateWorkerStatus_pending_empty_log_witness :
  StoreWorkerLog twoPending (WorkerId (worker State_PENDING))
      [CallUpdateWorker "w0" State_RUNNING]
    = (Returned None, [CallUpdateWorker "w0" State_RUNNING]) /\
  (exists tail,
     snd (UpdateWorkerStatus twoPending "study" [])
     = [CallUpdateWorker "w0" State_RUNNING] ++
       CallUpdateWorker (WorkerId (worker State_PENDING)) State_RUNNING :: tail) /\
  UpdateWorkerStatus twoPending "study" [] =
    match UpdateWorker (db twoPending) [CallUpdateWorker "w0" State_RUNNING]
            (WorkerId (worker State_PENDING)) State_RUNNING with
    | Some err =>
        (Returned (Some err),
         [CallUpdateWorker "w0" State_RUNNING] ++
         [CallUpdateWorker (WorkerId (worker State_PENDING)) State_RUNNING])
    | None =>
        updateLoop twoPending []
          ([CallUpdateWorker "w0" State_RUNNING] ++
           [CallUpdateWorker (WorkerId (worker State_PENDING)) State_RUNNING])
    end.
Proof.
  apply (UpdateWorkerStatus_pending_empty_log twoPending "study" []
           [mkWorker "w0" "study" "t0" State_PENDING] (worker State_PENDING) []
           [CallUpdateWorker "w0" State_RUNNING] (mkPod "w1-x7" "Succeeded") [] None);
    reflexivity.
Defined.

Lemma UpdateWorkerStatus_transitions_witness :
  exists added,
    [CallUpdateWorker "w1" State_RUNNING] = [] ++ added /\
    Forall (updateAllowed [worker State_PENDING]) added.
Proof.
  apply (UpdateWorkerStatus_transitions idle "study" [] [worker State_PENDING]
           (Returned None)).
  - reflexivity.
  - vm_compute. reflexivity.
Defined.

Lemma updateLoop_without_pod_witness :
  (Status (worker State_RUNNING) = State_PENDING ->
   updateLoop (podless State_RUNNING) [worker State_RUNNING; worker State_PENDING] []
   = updateLoop (podless State_RUNNING) [worker State_PENDING] []) /\
  (Status (worker State_RUNNING) = State_RUNNING ->
   exists err,
     updateLoop (podless State_RUNNING) [worker State_RUNNING; worker State_PENDING] []
     = (Returned (Some err), [])).
Proof.
  apply (updateLoop_without_pod (podless State_RUNNING) (worker State_RUNNING)
           [worker State_PENDING] []).
  reflexivity.
Defined.

Lemma delete_answers_ignored_witness :
  UpdateWorkerStatus {| clientset := clientset busy; db := db busy |} "study" []
    = UpdateWorkerStatus
        {| clientset := refusingDeletes (clientset busy); db := db busy |} "study" [] /\
  CleanWorkers {| clientset := clientset busy; db := db busy |} "study" []
    = CleanWorkers
        {| clientset := refusingDeletes (clientset busy); db := db busy |} "study" [] /\
  StopWorkers {| clientset := clientset busy; db := db busy |} "study" ["w1"] true []
    = StopWorkers
        {| clientset := refusingDeletes (clientset busy); db := db busy |}
        "study" ["w1"] true [].
Proof.
  apply (delete_answers_ignored (clientset busy) (refusingDeletes (clientset busy))
           (db busy) "study" ["w1"] true []).
  repeat split.
Defined.

End WorkerScenario.
